

(** * Adaptive relevance engine of the contract inbox

    A shallow embedding of the learning code of the repository
    ([src/lib/learning.ts], [src/lib/feedback-storage.ts],
    [src/lib/contract-storage.ts], the inbox storage layer, the
    [useContractStorage] hook and the handlers of [src/app/page.tsx]) and the
    properties its specification states about it.

    Conventions.
    - A JavaScript [number] that holds a threshold, a counter or the score of
      a feedback event is an integer of [Z]; a ratio computed with [/] is a
      rational of [Q], and [NaN] is [None].  The rounding error of IEEE
      doubles is not modelled: every comparison the code makes on such a ratio
      is between values at least 1/100 apart, or exactly equal.
    - The match score of a search result is a [number]: an integer or [NaN],
      which the boost stage can produce.
    - An IndexedDB object store keyed by [id] is a [gmap string _].  An object
      used as a dictionary ([Record<string, number>]) is the [gmap] of its
      own properties; a lookup [boosts[key]] that finds no own property goes
      on to [Object.prototype], as JavaScript does.
    - A timestamp is the clock reading it was rendered from (milliseconds), a
      value of [N]; [toISOString] is an injective rendering of it.
    - [async] code is sequential: every [await] is a bind of the monad [IO]
      over the state of the three databases, the clock and the random source.
      [console.log] calls are dropped. *)

From Stdlib Require Import ZArith QArith Qround Qminmax Lia List.
From stdpp Require Import base option list strings gmap pretty sorting.

Local Open Scope Z_scope.

(** ** JavaScript primitives *)

(** [Math.round(x)] is [floor (x + 1/2)]. *)
Definition Math_round (x : Q) : Z := Qfloor (x + (1 # 2))%Q.

(** [a.slice(-n)]: the last [n] elements, the whole array when it is shorter. *)
Definition slice_last {A} (n : nat) (a : list A) : list A :=
  drop (length a - n) a.

(** [Math.min(...a)] and [Math.max(...a)] on a non-empty array, which is given
    as its head and its tail. *)
Definition Math_min_of (x : Z) (a : list Z) : Z := fold_left Z.min a x.
Definition Math_max_of (x : Z) (a : list Z) : Z := fold_left Z.max a x.

(** A double that may be [NaN]; every comparison with [NaN] is false. *)
Definition num_gtb (x : option Q) (y : Q) : bool :=
  match x with
  | Some q => negb (Qle_bool q y)
  | None => false
  end.

(** [hides.length / totalActions], where [totalActions] counts the hides and
    the saves: the divisor is zero only when the dividend is, and [0 / 0] is
    [NaN]. *)
Definition length_ratio (a b : nat) : option Q :=
  if (b =? 0)%nat then None
  else Some (inject_Z (Z.of_nat a) / inject_Z (Z.of_nat b))%Q.

(** ** Data model ([@/types]) *)

Inductive Action := saved | hidden | viewed | ignored.

#[global] Instance Action_eq_dec : EqDecision Action.
Proof. solve_decision. Defined.

Definition Timestamp := N.

Module UserFeedback.
Record t := mk {
  id : string;
  inboxId : string;
  contractId : string;
  action : Action;
  matchScore : Z;
  timestamp : Timestamp;
  hideReason : option string;
  viewDuration : option Z
}.
End UserFeedback.

Module HiddenMeta.
Record t := mk {
  hiddenBy : option string;
  hiddenDate : Timestamp;
  hiddenReason : option string
}.
End HiddenMeta.

Module Contract.
Record t := mk {
  id : string;
  title : string;
  description : string;
  authority : string;
  value : option Z;
  closeDate : string;
  publishDate : string;
  url : string;
  buyerClassification : string;
  embedding : option (list Q);
  isNew : bool;
  isSaved : bool;
  isUnread : bool;
  hiddenInInboxes : list string;
  hiddenMetadata : option (gmap string HiddenMeta.t);
  matchScore : option Z;
  snippet : option string;
  deadline : option string;
  explanation : option string
}.
End Contract.

Module PromptRefinement.
Record t := mk {
  originalPrompt : string;
  refinedPrompt : option string;
  hideReason : string;
  matchScore : Z;
  timestamp : Timestamp
}.
End PromptRefinement.

Module ThresholdAdjustments.
Record t := mk {
  expandedCount : Z;
  narrowedCount : Z;
  lastAdjustment : Timestamp
}.
End ThresholdAdjustments.

Module InboxLearningMetrics.
Record t := mk {
  inboxId : string;
  minRelevanceScore : Z;
  maxIrrelevanceScore : Z;
  dynamicMinScore : Z;
  thresholdAdjustments : ThresholdAdjustments.t;
  promptRefinements : list PromptRefinement.t;
  pendingPromptUpdate : bool;
  totalFeedback : Z;
  savedContracts : Z;
  hiddenContracts : Z;
  viewedContracts : Z;
  authorityBoosts : gmap string Z;
  classificationBoosts : gmap string Z;
  confidenceLevel : Z;
  lastUpdated : Timestamp
}.
End InboxLearningMetrics.

Module Inbox.
Record t := mk {
  id : string;
  name : string;
  prompt : string;
  embedding : option (list Q);
  createdAt : Timestamp;
  updatedAt : Timestamp;
  unreadCount : Z;
  isAllContractsInbox : option bool;
  learningMetrics : option InboxLearningMetrics.t
}.
End Inbox.

(** A [number] that may be [NaN]. *)
Inductive number := Num (z : Z) | NaN.

#[global] Instance number_eq_dec : EqDecision number.
Proof. solve_decision. Defined.

(** [x < y]: false when an operand is [NaN]. *)
Definition number_ltb (x y : number) : bool :=
  match x, y with
  | Num a, Num b => a <? b
  | _, _ => false
  end.

Module SearchResult.
Record t := mk {
  contract : Contract.t;
  matchScore : number;
  explanation : option string
}.
End SearchResult.

(** ** [src/lib/learning.ts]: the dynamic threshold controller *)

Definition has_action (a : Action) (f : UserFeedback.t) : bool :=
  bool_decide (UserFeedback.action f = a).

Record ThresholdResult := mkThresholdResult {
  threshold : Z;
  reason : option string
}.

Definition recentSaves (feedbackEvents : list UserFeedback.t) : list UserFeedback.t :=
  List.filter (has_action saved) (slice_last 20 feedbackEvents).

Definition recentHides (feedbackEvents : list UserFeedback.t) : list UserFeedback.t :=
  List.filter (has_action hidden) (slice_last 20 feedbackEvents).

Definition lowScoreSaves (feedbackEvents : list UserFeedback.t) (currentThreshold : Z)
  : list UserFeedback.t :=
  List.filter
    (fun f => (UserFeedback.matchScore f <? currentThreshold + 10)
              && (0 <? UserFeedback.matchScore f))
    (recentSaves feedbackEvents).

Definition calculateDynamicThreshold
    (feedbackEvents : list UserFeedback.t) (currentThreshold : Z) : ThresholdResult :=
  if (length feedbackEvents <? 10)%nat then
    {| threshold := currentThreshold; reason := None |}
  else
    let saves := recentSaves feedbackEvents in
    let hides := recentHides feedbackEvents in
    let low := lowScoreSaves feedbackEvents currentThreshold in
    (* EXPAND *)
    let '(newThreshold, why) :=
      if (3 <=? length low)%nat && (5 <=? length saves)%nat then
        (Z.max 30 (currentThreshold - 10),
         Some ("Expanded: You saved " +:+ pretty (length low)
               +:+ " contracts near threshold"))
      else (currentThreshold, None) in
    (* NARROW *)
    let totalActions := (length saves + length hides)%nat in
    let hideRate := length_ratio (length hides) totalActions in
    let '(newThreshold, why) :=
      if num_gtb hideRate (6 # 10) && (10 <=? totalActions)%nat then
        (Z.min 70 (currentThreshold + 10),
         Some ("Narrowed: You hid "
               +:+ pretty (Math_round (default 0%Q hideRate * 100)%Q)
               +:+ "% of results"))
      else (newThreshold, why) in
    {| threshold := Z.max 30 (Z.min 70 newThreshold); reason := why |}.

(** ** [src/lib/learning.ts]: the ranking pipeline *)

Definition applyLearnedThresholds
    (results : list SearchResult.t) (metrics : option InboxLearningMetrics.t)
  : list SearchResult.t :=
  match metrics with
  | None => results
  | Some m =>
    if InboxLearningMetrics.totalFeedback m <? 5 then results
    else if InboxLearningMetrics.confidenceLevel m <? 30 then results
    else
      List.filter
        (fun result =>
           let score := SearchResult.matchScore result in
           if number_ltb score (Num (InboxLearningMetrics.minRelevanceScore m)) then false
           else if number_ltb (Num (InboxLearningMetrics.maxIrrelevanceScore m)) score
                then false
           else true)
        results
  end.

(** The names of the properties every object literal inherits from
    [Object.prototype]. *)
Definition Object_prototype : list string :=
  ["constructor"; "__defineGetter__"; "__defineSetter__"; "hasOwnProperty";
   "__lookupGetter__"; "__lookupSetter__"; "isPrototypeOf";
   "propertyIsEnumerable"; "toString"; "valueOf"; "__proto__";
   "toLocaleString"].

(** The value of [boosts[key] || 0]: the number of an own property (a [0]
    is falsy and replaced by [0]); for a name that is no own property but
    one of [Object.prototype], the function or object found there, which is
    truthy; for any other name [undefined], which is replaced by [0]. *)
Inductive Boost := boost_number (z : Z) | boost_object.

Definition boost_of (boosts : gmap string Z) (key : string) : Boost :=
  match boosts !! key with
  | Some z => boost_number z
  | None =>
    if bool_decide (key ∈ Object_prototype) then boost_object else boost_number 0
  end.

(** The value of the variable [adjustedScore]: a number, or the string that
    [+=] makes of it when the right-hand side is a function or an object. *)
Inductive Adjusted := adjusted_number (x : number) | adjusted_string.

(** [if (boost !== 0) { adjustedScore += boost }] *)
Definition add_boost (adjustedScore : Adjusted) (boost : Boost) : Adjusted :=
  match boost with
  | boost_number z =>
    if bool_decide (z ≠ 0) then
      match adjustedScore with
      | adjusted_number (Num x) => adjusted_number (Num (x + z))
      | adjusted_number NaN => adjusted_number NaN
      | adjusted_string => adjusted_string
      end
    else adjustedScore
  | boost_object => adjusted_string
  end.

(** [Math.max(0, Math.min(100, Math.round(adjustedScore)))]: the string is
    the decimal score followed by the source text of a function or by
    "[object Object]", which converts to [NaN], and [NaN] goes through
    [Math.round], [Math.min] and [Math.max] as it is. *)
Definition clamp_rounded (adjustedScore : Adjusted) : number :=
  match adjustedScore with
  | adjusted_number (Num x) => Num (Z.max 0 (Z.min 100 (Math_round (inject_Z x))))
  | adjusted_number NaN => NaN
  | adjusted_string => NaN
  end.

Definition boosted_score (m : InboxLearningMetrics.t) (result : SearchResult.t) : number :=
  let adjustedScore := adjusted_number (SearchResult.matchScore result) in
  let authorityBoost :=
    boost_of (InboxLearningMetrics.authorityBoosts m)
             (Contract.authority (SearchResult.contract result)) in
  let adjustedScore := add_boost adjustedScore authorityBoost in
  let classBoost :=
    boost_of (InboxLearningMetrics.classificationBoosts m)
             (Contract.buyerClassification (SearchResult.contract result)) in
  let adjustedScore := add_boost adjustedScore classBoost in
  clamp_rounded adjustedScore.

Definition applyLearnedBoosts
    (results : list SearchResult.t) (metrics : option InboxLearningMetrics.t)
  : list SearchResult.t :=
  match metrics with
  | None => results
  | Some m =>
    if InboxLearningMetrics.totalFeedback m <? 10 then results
    else if InboxLearningMetrics.confidenceLevel m <? 50 then results
    else
      map (fun result =>
             SearchResult.mk (SearchResult.contract result)
                             (boosted_score m result)
                             (SearchResult.explanation result))
          results
  end.

(** [a.sort((a, b) => b.matchScore - a.matchScore)]: descending by score, and
    stable, so results of equal score keep their order.  A difference that is
    [NaN] counts as [0].  With a [NaN] score next to two different numbers
    the comparison is not consistent and ECMAScript leaves the order to the
    implementation; the array is still reordered only.  The function below is
    one such order, and nothing is stated about the order of such a list. *)
Fixpoint insert_by_score (r : SearchResult.t) (l : list SearchResult.t)
  : list SearchResult.t :=
  match l with
  | [] => [r]
  | x :: l' =>
    if number_ltb (SearchResult.matchScore r) (SearchResult.matchScore x)
    then x :: insert_by_score r l'
    else r :: x :: l'
  end.

Definition sort_by_score (l : list SearchResult.t) : list SearchResult.t :=
  foldr insert_by_score [] l.

Definition applyLearning
    (results : list SearchResult.t) (metrics : option InboxLearningMetrics.t)
  : list SearchResult.t :=
  match metrics with
  | None => results
  | Some _ =>
    let improved := applyLearnedBoosts results metrics in
    let improved := applyLearnedThresholds improved metrics in
    sort_by_score improved
  end.

Definition shouldApplyLearning (metrics : option InboxLearningMetrics.t) : bool :=
  match metrics with
  | None => false
  | Some m =>
    (5 <=? InboxLearningMetrics.totalFeedback m)
    && (30 <=? InboxLearningMetrics.confidenceLevel m)
  end.

(** ** The world: three IndexedDB databases, the clock, the random source *)

Record World := mkWorld {
  contractsStore : gmap string Contract.t;  (* contract-storage / contracts *)
  inboxesStore : gmap string Inbox.t;       (* inbox-storage / inboxes *)
  feedbackStore : list UserFeedback.t;      (* feedback-storage / feedback,
                                               in ascending order of [id] *)
  contractDB_fails : bool;                  (* [openDB] of a database rejects *)
  inboxDB_fails : bool;                     (* while its flag is set          *)
  feedbackDB_fails : bool;
  clock : nat -> Timestamp;                 (* the n-th reading of the clock *)
  ticks : nat;
  random : nat -> string;                   (* the n-th [Math.random] suffix *)
  draws : nat
}.

Definition with_contracts (s : gmap string Contract.t) (w : World) : World :=
  mkWorld s (inboxesStore w) (feedbackStore w) (contractDB_fails w)
          (inboxDB_fails w) (feedbackDB_fails w) (clock w) (ticks w)
          (random w) (draws w).

Definition with_inboxes (s : gmap string Inbox.t) (w : World) : World :=
  mkWorld (contractsStore w) s (feedbackStore w) (contractDB_fails w)
          (inboxDB_fails w) (feedbackDB_fails w) (clock w) (ticks w)
          (random w) (draws w).

Definition with_feedback (s : list UserFeedback.t) (w : World) : World :=
  mkWorld (contractsStore w) (inboxesStore w) s (contractDB_fails w)
          (inboxDB_fails w) (feedbackDB_fails w) (clock w) (ticks w)
          (random w) (draws w).

Definition with_ticks (n : nat) (w : World) : World :=
  mkWorld (contractsStore w) (inboxesStore w) (feedbackStore w)
          (contractDB_fails w) (inboxDB_fails w) (feedbackDB_fails w)
          (clock w) n (random w) (draws w).

Definition with_draws (n : nat) (w : World) : World :=
  mkWorld (contractsStore w) (inboxesStore w) (feedbackStore w)
          (contractDB_fails w) (inboxDB_fails w) (feedbackDB_fails w)
          (clock w) (ticks w) (random w) n.

(** A promise either resolves with a value or rejects with an error. *)
Inductive Outcome (A : Type) :=
| Resolved (a : A)
| Rejected (e : string).
Arguments Resolved {A} a.
Arguments Rejected {A} e.

Definition IO (A : Type) : Type := World -> Outcome A * World.

#[global] Instance IO_ret : MRet IO := fun A a w => (Resolved a, w).

#[global] Instance IO_bind : MBind IO := fun A B k m w =>
  match m w with
  | (Resolved a, w') => k a w'
  | (Rejected e, w') => (Rejected e, w')
  end.

Definition throw {A} (e : string) : IO A := fun w => (Rejected e, w).

(** [try { body } catch (error) { handler }] *)
Definition try_catch {A} (body : IO A) (handler : string -> IO A) : IO A :=
  fun w =>
    match body w with
    | (Resolved a, w') => (Resolved a, w')
    | (Rejected e, w') => handler e w'
    end.

Definition get_world : IO World := fun w => (Resolved w, w).
Definition modify_world (f : World -> World) : IO unit := fun w => (Resolved tt, f w).

(** [Date.now()] and [new Date()] *)
Definition Date_now : IO Timestamp :=
  fun w => (Resolved (clock w (ticks w)), with_ticks (S (ticks w)) w).

(** [Math.random().toString(36).substring(2, 9)] *)
Definition Math_random_suffix : IO string :=
  fun w => (Resolved (random w (draws w)), with_draws (S (draws w)) w).

(** [s] as a condition: the empty string is falsy. *)
Definition truthy (s : string) : bool := negb (String.eqb s "").

(** ** [src/lib/feedback-storage.ts] *)

Definition initFeedbackDB : IO unit :=
  w ← get_world;
  if feedbackDB_fails w then throw "feedback-storage" else mret tt.

(** [db.put(FEEDBACK_STORE, feedback)]: the store is keyed by [id] and kept in
    key order; a record with the same key is replaced. *)
Fixpoint put_feedback (f : UserFeedback.t) (store : list UserFeedback.t)
  : list UserFeedback.t :=
  match store with
  | [] => [f]
  | g :: rest =>
    match String.compare (UserFeedback.id f) (UserFeedback.id g) with
    | Lt => f :: g :: rest
    | Eq => f :: rest
    | Gt => g :: put_feedback f rest
    end
  end.

Definition recordFeedback (inboxId contractId : string) (action : Action)
    (matchScore : Z) (hideReason : option string) (viewDuration : option Z)
  : IO UserFeedback.t :=
  try_catch
    (now ← Date_now;
     suffix ← Math_random_suffix;
     timestamp ← Date_now;
     let feedback :=
       UserFeedback.mk ("feedback-" +:+ pretty now +:+ "-" +:+ suffix)
                       inboxId contractId action matchScore timestamp
                       hideReason viewDuration in
     initFeedbackDB;;
     modify_world (fun w => with_feedback (put_feedback feedback (feedbackStore w)) w);;
     mret feedback)
    (fun error => throw error).

(** [index('inboxId').getAll(inboxId)]; a failure of the read is caught and
    an empty array returned. *)
Definition getFeedbackForInbox (inboxId : string) : IO (list UserFeedback.t) :=
  try_catch
    (initFeedbackDB;;
     w ← get_world;
     mret (List.filter (fun f => String.eqb (UserFeedback.inboxId f) inboxId)
                       (feedbackStore w)))
    (fun _ => mret []).

Definition count_action (a : Action) (feedback : list UserFeedback.t) : Z :=
  Z.of_nat (length (List.filter (has_action a) feedback)).

Definition scores_of (a : Action) (feedback : list UserFeedback.t) : list Z :=
  map UserFeedback.matchScore (List.filter (has_action a) feedback).

(** The metrics [analyzeFeedbackPatterns] builds from the feedback it read and
    the two clock readings it takes ([lastAdjustment], then [lastUpdated]). *)
Definition metricsOfFeedback (inboxId : string) (feedback : list UserFeedback.t)
    (lastAdjustment lastUpdated : Timestamp) : InboxLearningMetrics.t :=
  if (length feedback =? 0)%nat then
    InboxLearningMetrics.mk inboxId 0 100 30
      (ThresholdAdjustments.mk 0 0 lastAdjustment)
      [] false 0 0 0 0 ∅ ∅ 0 lastUpdated
  else
    let savedScores := scores_of saved feedback in
    let hiddenScores := scores_of hidden feedback in
    let minRelevanceScore :=
      match savedScores with
      | [] => 0
      | s :: rest => let minSaved := Math_min_of s rest in Z.max 0 (minSaved - 10)
      end in
    let maxIrrelevanceScore :=
      match hiddenScores with
      | [] => 100
      | s :: rest => let maxHidden := Math_max_of s rest in Z.min 100 (maxHidden + 5)
      end in
    let confidenceLevel :=
      Qmin 100 ((inject_Z (Z.of_nat (length feedback)) / 20) * 100)%Q in
    let currentThreshold := 50 in
    let dynamicMinScore := threshold (calculateDynamicThreshold feedback currentThreshold) in
    let thresholdAdjustments :=
      ThresholdAdjustments.mk
        (if dynamicMinScore <? currentThreshold then 1 else 0)
        (if currentThreshold <? dynamicMinScore then 1 else 0)
        lastAdjustment in
    InboxLearningMetrics.mk inboxId
      (Math_round (inject_Z minRelevanceScore))
      (Math_round (inject_Z maxIrrelevanceScore))
      dynamicMinScore
      thresholdAdjustments
      [] false
      (Z.of_nat (length feedback))
      (count_action saved feedback)
      (count_action hidden feedback)
      (count_action viewed feedback)
      ∅ ∅
      (Math_round confidenceLevel)
      lastUpdated.

Definition analyzeFeedbackPatterns (inboxId : string) : IO InboxLearningMetrics.t :=
  try_catch
    (feedback ← getFeedbackForInbox inboxId;
     lastAdjustment ← Date_now;
     lastUpdated ← Date_now;
     mret (metricsOfFeedback inboxId feedback lastAdjustment lastUpdated))
    (fun error => throw error).

(** ** The inbox storage layer ([@/lib/inbox-storage]) *)

Definition initInboxDB : IO unit :=
  w ← get_world;
  if inboxDB_fails w then throw "inbox-storage" else mret tt.

(** A [Partial<Inbox>] object literal, as the list of the properties it
    sets.  The callers in the repository set these three. *)
Inductive InboxUpdate :=
| Set_learningMetrics (m : option InboxLearningMetrics.t)
| Set_inbox_embedding (e : option (list Q))
| Set_unreadCount (n : Z).

Definition assign_inbox (i : Inbox.t) (u : InboxUpdate) : Inbox.t :=
  match u with
  | Set_learningMetrics m =>
    Inbox.mk (Inbox.id i) (Inbox.name i) (Inbox.prompt i) (Inbox.embedding i)
             (Inbox.createdAt i) (Inbox.updatedAt i) (Inbox.unreadCount i)
             (Inbox.isAllContractsInbox i) m
  | Set_inbox_embedding e =>
    Inbox.mk (Inbox.id i) (Inbox.name i) (Inbox.prompt i) e
             (Inbox.createdAt i) (Inbox.updatedAt i) (Inbox.unreadCount i)
             (Inbox.isAllContractsInbox i) (Inbox.learningMetrics i)
  | Set_unreadCount n =>
    Inbox.mk (Inbox.id i) (Inbox.name i) (Inbox.prompt i) (Inbox.embedding i)
             (Inbox.createdAt i) (Inbox.updatedAt i) n
             (Inbox.isAllContractsInbox i) (Inbox.learningMetrics i)
  end.

Definition with_updatedAt (now : Timestamp) (i : Inbox.t) : Inbox.t :=
  Inbox.mk (Inbox.id i) (Inbox.name i) (Inbox.prompt i) (Inbox.embedding i)
           (Inbox.createdAt i) now (Inbox.unreadCount i)
           (Inbox.isAllContractsInbox i) (Inbox.learningMetrics i).

Definition updateInbox (id : string) (updates : list InboxUpdate)
  : IO (option Inbox.t) :=
  try_catch
    (initInboxDB;;
     w ← get_world;
     match inboxesStore w !! id with
     | None => mret None
     | Some inbox =>
       now ← Date_now;
       (* { ...inbox, ...updates, updatedAt: new Date().toISOString() } *)
       let updated := with_updatedAt now (fold_left assign_inbox updates inbox) in
       modify_world
         (fun w => with_inboxes (<[Inbox.id updated := updated]> (inboxesStore w)) w);;
       mret (Some updated)
     end)
    (fun _ => mret None).

(** ** [src/lib/learning.ts]: [updateInboxLearning] *)

Definition updateInboxLearning (inboxId : string) : IO InboxLearningMetrics.t :=
  try_catch
    (metrics ← analyzeFeedbackPatterns inboxId;
     updateInbox inboxId [Set_learningMetrics (Some metrics)];;
     mret metrics)
    (fun error => throw error).

(** ** [src/lib/contract-storage.ts] *)

Definition initContractDB : IO unit :=
  w ← get_world;
  if contractDB_fails w then throw "contract-storage" else mret tt.

(** A [Partial<Contract>] object literal, as the list of the properties it
    sets.  The callers in the repository set these six. *)
Inductive ContractUpdate :=
| Set_isSaved (b : bool)
| Set_isUnread (b : bool)
| Set_isNew (b : bool)
| Set_hiddenInInboxes (l : list string)
| Set_hiddenMetadata (m : option (gmap string HiddenMeta.t))
| Set_contract_embedding (e : option (list Q)).

Definition assign_contract (c : Contract.t) (u : ContractUpdate) : Contract.t :=
  let new_isSaved := match u with Set_isSaved b => b | _ => Contract.isSaved c end in
  let new_isUnread := match u with Set_isUnread b => b | _ => Contract.isUnread c end in
  let new_isNew := match u with Set_isNew b => b | _ => Contract.isNew c end in
  let new_hiddenInInboxes :=
    match u with Set_hiddenInInboxes l => l | _ => Contract.hiddenInInboxes c end in
  let new_hiddenMetadata :=
    match u with Set_hiddenMetadata m => m | _ => Contract.hiddenMetadata c end in
  let new_embedding :=
    match u with Set_contract_embedding e => e | _ => Contract.embedding c end in
  Contract.mk (Contract.id c) (Contract.title c) (Contract.description c)
              (Contract.authority c) (Contract.value c) (Contract.closeDate c)
              (Contract.publishDate c) (Contract.url c)
              (Contract.buyerClassification c) new_embedding new_isNew
              new_isSaved new_isUnread new_hiddenInInboxes new_hiddenMetadata
              (Contract.matchScore c) (Contract.snippet c) (Contract.deadline c)
              (Contract.explanation c).

Definition getContractById (id : string) : IO (option Contract.t) :=
  try_catch
    (initContractDB;;
     w ← get_world;
     mret (contractsStore w !! id))
    (fun _ => mret None).

Definition updateContract (id : string) (updates : list ContractUpdate)
  : IO (option Contract.t) :=
  try_catch
    (initContractDB;;
     w ← get_world;
     match contractsStore w !! id with
     | None => mret None
     | Some contract =>
       let updated := fold_left assign_contract updates contract in
       modify_world
         (fun w => with_contracts (<[Contract.id updated := updated]> (contractsStore w)) w);;
       mret (Some updated)
     end)
    (fun _ => mret None).

Definition markContractAsSaved (id : string) : IO unit :=
  updateContract id [Set_isSaved true];; mret tt.

(** [a.includes(s)] on an array of strings *)
Definition includes (a : list string) (s : string) : bool :=
  existsb (String.eqb s) a.

Definition markContractAsHidden (id inboxId : string) (reason : option string)
  : IO unit :=
  found ← getContractById id;
  match found with
  | None => mret tt
  | Some contract =>
    let hiddenInInboxes := Contract.hiddenInInboxes contract in
    let hiddenInInboxes :=
      if negb (includes hiddenInInboxes inboxId)
      then hiddenInInboxes ++ [inboxId] else hiddenInInboxes in
    let hiddenMetadata := default ∅ (Contract.hiddenMetadata contract) in
    now ← Date_now;
    let hiddenMetadata :=
      <[inboxId := HiddenMeta.mk None now reason]> hiddenMetadata in
    updateContract id [Set_hiddenInInboxes hiddenInInboxes;
                       Set_hiddenMetadata (Some hiddenMetadata)];;
    mret tt
  end.

Definition markContractAsRead (id : string) : IO unit :=
  updateContract id [Set_isUnread false; Set_isNew false];; mret tt.

(** ** The [useContractStorage] hook

    The hook's React state (its copy of the contract list and its error
    message) is not part of the world; the operations are modelled by what
    they do to the databases. *)

Module Context.
Record t := mk {
  inboxId : option string;
  matchScore : option Z
}.
End Context.

(** [context?.inboxId && context?.matchScore !== undefined] *)
Definition learning_context (context : option Context.t) : option (string * Z) :=
  match context with
  | Some (Context.mk (Some inboxId) (Some matchScore)) =>
    if truthy inboxId then Some (inboxId, matchScore) else None
  | _ => None
  end.

Definition saveContract (id : string) (context : option Context.t) : IO unit :=
  try_catch
    (markContractAsSaved id;;
     match learning_context context with
     | Some (inboxId, matchScore) =>
       recordFeedback inboxId id saved matchScore None None;;
       updateInboxLearning inboxId;;
       mret tt
     | None => mret tt
     end)
    (fun _ => mret tt).

Definition hideContract (id : string) (reason : option string)
    (context : option Context.t) : IO unit :=
  try_catch
    (match context ≫= Context.inboxId with
     | None => mret tt
     | Some inboxId =>
       if negb (truthy inboxId) then mret tt
       else
         markContractAsHidden id inboxId reason;;
         match context ≫= Context.matchScore with
         | Some matchScore =>
           recordFeedback inboxId id hidden matchScore reason None;;
           updateInboxLearning inboxId;;
           mret tt
         | None => mret tt
         end
     end)
    (fun _ => mret tt).

Definition markAsRead (id : string) (context : option Context.t) : IO unit :=
  try_catch
    (markContractAsRead id;;
     match learning_context context with
     | Some (inboxId, matchScore) =>
       recordFeedback inboxId id viewed matchScore None None;;
       mret tt
     | None => mret tt
     end)
    (fun _ => mret tt).

(** ** The handlers of [src/app/page.tsx]

    What the page holds in React state when a handler runs: the contract list
    of the hook, the contracts of the last search, and the active inbox as the
    inbox hook last loaded it.  Toasts and local UI state are dropped. *)

Record Page := mkPage {
  allContracts : list Contract.t;
  searchResults : list Contract.t;
  activeInbox : option Inbox.t
}.

Definition with_matchScore (s : option Z) (c : Contract.t) : Contract.t :=
  Contract.mk (Contract.id c) (Contract.title c) (Contract.description c)
              (Contract.authority c) (Contract.value c) (Contract.closeDate c)
              (Contract.publishDate c) (Contract.url c)
              (Contract.buyerClassification c) (Contract.embedding c)
              (Contract.isNew c) (Contract.isSaved c) (Contract.isUnread c)
              (Contract.hiddenInInboxes c) (Contract.hiddenMetadata c)
              s (Contract.snippet c) (Contract.deadline c)
              (Contract.explanation c).

(** [inbox.isAllContractsInbox] as a condition *)
Definition is_all_contracts (i : Inbox.t) : bool :=
  default false (Inbox.isAllContractsInbox i).

Definition baseContracts (p : Page) : list Contract.t :=
  match activeInbox p with
  | Some inbox =>
    if is_all_contracts inbox then map (with_matchScore (Some 100)) (allContracts p)
    else if (0 <? length (searchResults p))%nat then searchResults p
    else []
  | None => []
  end.

Definition find_contract (p : Page) (contractId : string) : option Contract.t :=
  List.find (fun c => String.eqb (Contract.id c) contractId) (baseContracts p).

(** [activeInbox && contract?.matchScore !== undefined
      ? { inboxId: activeInbox.id, matchScore: contract.matchScore } : undefined] *)
Definition context_of (p : Page) (contract : option Contract.t) : option Context.t :=
  match activeInbox p, contract ≫= Contract.matchScore with
  | Some inbox, Some s => Some (Context.mk (Some (Inbox.id inbox)) (Some s))
  | _, _ => None
  end.

Definition handleSelectContract (p : Page) (contractId : string) : IO unit :=
  markAsRead contractId (context_of p (find_contract p contractId)).

Definition handleSaveContract (p : Page) (contractId : string) : IO unit :=
  let contract := find_contract p contractId in
  let wasSaved := default false (Contract.isSaved <$> contract) in
  let context := if negb wasSaved then context_of p contract else None in
  try_catch (saveContract contractId context) (fun _ => mret tt).

Definition handleHideContract (p : Page) (contractId : string)
    (feedback : option string) : IO unit :=
  let contract := find_contract p contractId in
  try_catch (hideContract contractId feedback (context_of p contract))
            (fun _ => mret tt).

(** The metrics object that [handleGlobalThresholdChange] and
    [handleWidenSearch] write: the cached metrics with a new live cutoff and
    new timestamps, every missing field at its default. *)
Definition overrideMetrics (inbox : Inbox.t) (newThreshold : Z) (expandedBy : Z)
    (lastAdjustment lastUpdated : Timestamp) : InboxLearningMetrics.t :=
  let lm := Inbox.learningMetrics inbox in
  let field {A} (f : InboxLearningMetrics.t -> A) (d : A) := default d (f <$> lm) in
  let adj := InboxLearningMetrics.thresholdAdjustments <$> lm in
  InboxLearningMetrics.mk (Inbox.id inbox)
    (field InboxLearningMetrics.minRelevanceScore 0)
    (field InboxLearningMetrics.maxIrrelevanceScore 100)
    newThreshold
    (ThresholdAdjustments.mk
       (default 0 (ThresholdAdjustments.expandedCount <$> adj) + expandedBy)
       (default 0 (ThresholdAdjustments.narrowedCount <$> adj))
       lastAdjustment)
    (field InboxLearningMetrics.promptRefinements [])
    (field InboxLearningMetrics.pendingPromptUpdate false)
    (field InboxLearningMetrics.totalFeedback 0)
    (field InboxLearningMetrics.savedContracts 0)
    (field InboxLearningMetrics.hiddenContracts 0)
    (field InboxLearningMetrics.viewedContracts 0)
    (field InboxLearningMetrics.authorityBoosts ∅)
    (field InboxLearningMetrics.classificationBoosts ∅)
    (field InboxLearningMetrics.confidenceLevel 0)
    lastUpdated.

Definition handleGlobalThresholdChange (p : Page) (newThreshold : Z) : IO unit :=
  match activeInbox p with
  | None => mret tt
  | Some inbox =>
    if negb (is_all_contracts inbox) && truthy (Inbox.prompt inbox) then
      try_catch
        (lastAdjustment ← Date_now;
         lastUpdated ← Date_now;
         updateInbox (Inbox.id inbox)
           [Set_learningMetrics
              (Some (overrideMetrics inbox newThreshold 0 lastAdjustment lastUpdated))];;
         mret tt)
        (fun _ => mret tt)
    else mret tt
  end.

Definition handleWidenSearch (p : Page) : IO unit :=
  match activeInbox p with
  | None => mret tt
  | Some inbox =>
    if negb (truthy (Inbox.prompt inbox)) then mret tt
    else
      try_catch
        (let currentThreshold :=
           default 50 (InboxLearningMetrics.dynamicMinScore <$> Inbox.learningMetrics inbox) in
         let newThreshold := Z.max 30 (currentThreshold - 10) in
         if newThreshold =? currentThreshold then mret tt
         else
           lastAdjustment ← Date_now;
           lastUpdated ← Date_now;
           updateInbox (Inbox.id inbox)
             [Set_learningMetrics
                (Some (overrideMetrics inbox newThreshold 1 lastAdjustment lastUpdated))];;
           mret tt)
        (fun _ => mret tt)
  end.

(** [refreshInboxes]: the page reloads its active inbox from the database. *)
Definition refreshed (p : Page) (w : World) : Page :=
  mkPage (allContracts p) (searchResults p)
         (i ← activeInbox p; inboxesStore w !! Inbox.id i).

(** The world after an operation has settled. *)
Definition run {A} (m : IO A) (w : World) : World := snd (m w).
Definition outcome {A} (m : IO A) (w : World) : Outcome A := fst (m w).

(** The policy cached on an inbox. *)
Definition cachedPolicy (w : World) (inboxId : string) : option InboxLearningMetrics.t :=
  inboxesStore w !! inboxId ≫= Inbox.learningMetrics.

(** * Vocabulary of the properties *)

(** [m] is the lowest (highest) of the scores [a]. *)
Definition lowest_of (a : list Z) (m : Z) : Prop :=
  In m a /\ Forall (fun y => m <= y) a.
Definition highest_of (a : list Z) (m : Z) : Prop :=
  In m a /\ Forall (fun y => y <= m) a.

(** The two rule conditions of the controller as the code tests them. *)
Definition expand_fires (feedbackEvents : list UserFeedback.t) (currentThreshold : Z) : bool :=
  (3 <=? length (lowScoreSaves feedbackEvents currentThreshold))%nat
  && (5 <=? length (recentSaves feedbackEvents))%nat.

Definition narrow_fires (feedbackEvents : list UserFeedback.t) : bool :=
  let totalActions :=
    (length (recentSaves feedbackEvents) + length (recentHides feedbackEvents))%nat in
  num_gtb (length_ratio (length (recentHides feedbackEvents)) totalActions) (6 # 10)
  && (10 <=? totalActions)%nat.

(** ** The rule set of the specification

    These definitions follow the words of the specification, not the code:
    the most recent 20 events, the saves and hides among them, the expand and
    the narrow condition. *)

Definition most_recent (n : nat) (events : list UserFeedback.t) : list UserFeedback.t :=
  rev (firstn n (rev events)).

Definition how_many {A} (P : A -> Prop) `{!forall x, Decision (P x)} (l : list A) : nat :=
  length (filter P l).

Definition is_save (f : UserFeedback.t) : Prop := UserFeedback.action f = saved.
Definition is_hide (f : UserFeedback.t) : Prop := UserFeedback.action f = hidden.

(** A save within 10 points above the cutoff: [score < cutoff+10], [score > 0]. *)
Definition borderline_save (cutoff : Z) (f : UserFeedback.t) : Prop :=
  is_save f /\ UserFeedback.matchScore f < cutoff + 10 /\ UserFeedback.matchScore f > 0.

#[global] Instance is_save_dec f : Decision (is_save f).
Proof. unfold is_save. apply _. Defined.
#[global] Instance is_hide_dec f : Decision (is_hide f).
Proof. unfold is_hide. apply _. Defined.
#[global] Instance borderline_save_dec cutoff f : Decision (borderline_save cutoff f).
Proof. unfold borderline_save. apply _. Defined.

Definition expand_condition (events : list UserFeedback.t) (cutoff : Z) : Prop :=
  let recent := most_recent 20 events in
  (3 <= how_many (borderline_save cutoff) recent)%nat
  /\ (5 <= how_many is_save recent)%nat.

Definition narrow_condition (events : list UserFeedback.t) : Prop :=
  let recent := most_recent 20 events in
  let saves := how_many is_save recent in
  let hides := how_many is_hide recent in
  (10 <= saves + hides)%nat
  /\ (60 # 100 < inject_Z (Z.of_nat hides) / inject_Z (Z.of_nat (saves + hides)))%Q.

(** ** Feedback histories

    The scenarios of the specification and further histories on which the
    code is evaluated below. *)

Definition event (a : Action) (score : Z) : UserFeedback.t :=
  UserFeedback.mk "feedback-0-aaaaaaa" "inbox-1" "contract-1" a score 1761000000000%N None None.

(** Scenario D of the specification: 3 saves and 9 hides, cutoff 50. *)
Definition scenario_D : list UserFeedback.t :=
  map (event saved) [80; 82; 85]
  ++ map (event hidden) [51; 52; 53; 54; 55; 56; 57; 58; 59].

(** Borderline saves and a high hide rate at once: both rules fire. *)
Definition both_rules_fire : list UserFeedback.t :=
  map (event saved) [52; 54; 56; 58; 59]
  ++ map (event hidden) [61; 62; 63; 64; 65; 66; 67; 68].

(** Scenario B of the specification. *)
Definition scenario_B : list UserFeedback.t :=
  map (event saved) [40; 45; 50; 55; 60; 65; 70; 75; 80; 85; 90; 95; 98; 99; 100]
  ++ map (event hidden) [72; 75; 80; 85; 90].

(** ** Scores, results and policies *)

(** A score as [SearchResult] documents it: a number within 0 and 100. *)
Definition valid_score (r : SearchResult.t) : Prop :=
  exists z, SearchResult.matchScore r = Num z /\ 0 <= z <= 100.

(** [x] is a number, and under (over) the bound [b]. *)
Definition below (x : number) (b : Z) : Prop :=
  match x with Num z => z < b | NaN => False end.
Definition above (x : number) (b : Z) : Prop :=
  match x with Num z => b < z | NaN => False end.

#[global] Instance below_dec x b : Decision (below x b).
Proof. destruct x; simpl; apply _. Defined.
#[global] Instance above_dec x b : Decision (above x b).
Proof. destruct x; simpl; apply _. Defined.

(** A result the threshold stage keeps: its score is neither below
    [minRelevanceScore] nor above [maxIrrelevanceScore]. *)
Definition in_band (m : InboxLearningMetrics.t) (r : SearchResult.t) : Prop :=
  ~ (below (SearchResult.matchScore r) (InboxLearningMetrics.minRelevanceScore m)
     \/ above (SearchResult.matchScore r) (InboxLearningMetrics.maxIrrelevanceScore m)).

#[global] Instance in_band_dec m r : Decision (in_band m r).
Proof. unfold in_band. apply _. Defined.

Definition contract_1 : Contract.t :=
  Contract.mk "contract-1" "Road resurfacing" "Resurfacing of the A20" "Kent County Council"
              (Some 250000) "2026-01-31" "2025-11-01" "https://example.org/1" "Local"
              None true false true [] None None None None None.

Definition five_saves : list UserFeedback.t := map (event saved) [80; 80; 80; 80; 80].

Definition low_result : SearchResult.t := SearchResult.mk contract_1 (Num 10) None.

Definition six_saves : list UserFeedback.t := map (event saved) [80; 80; 80; 80; 80; 80].

(** ** Worlds *)

(** Unfolds the operations of [IO] down to functions on worlds. *)
Ltac io_unfold :=
  unfold mbind, mret, IO_bind, IO_ret, try_catch, throw, get_world,
         modify_world, Date_now, Math_random_suffix in *.

(** What [getFeedbackForInbox] returns in a world. *)
Definition ledger_read (w : World) (inboxId : string) : list UserFeedback.t :=
  if feedbackDB_fails w then []
  else List.filter (fun f => String.eqb (UserFeedback.inboxId f) inboxId) (feedbackStore w).

Definition test_clock (n : nat) : Timestamp := (1762000000000 + N.of_nat n)%N.
Definition test_random (n : nat) : string := "k3x9q" +:+ pretty n.

Definition all_contracts_inbox : Inbox.t :=
  Inbox.mk "inbox-0" "All Contracts" "Show me all relevant public sector contracts"
           None 1761000000000%N 1761000000000%N 0 (Some true) None.

Definition regular_inbox : Inbox.t :=
  Inbox.mk "inbox-1" "Roads" "Highway maintenance and repair contracts"
           None 1761000000000%N 1761000000000%N 0 None None.

Definition world0 : World :=
  mkWorld {[ "contract-1" := contract_1 ]}
          {[ "inbox-0" := all_contracts_inbox; "inbox-1" := regular_inbox ]}
          [] false false false test_clock 0 test_random 0.

(** The ledger of scenario B as the store holds it, under distinct keys. *)
Definition stored (l : list UserFeedback.t) : list UserFeedback.t :=
  imap (fun i f =>
          UserFeedback.mk ("feedback-" +:+ pretty (1761000000000 + N.of_nat i)%N +:+ "-aaaaaaa")
                          (UserFeedback.inboxId f) (UserFeedback.contractId f)
                          (UserFeedback.action f) (UserFeedback.matchScore f)
                          (1761000000000 + N.of_nat i)%N
                          (UserFeedback.hideReason f) (UserFeedback.viewDuration f))
       l.

(** [m] is the lowest (highest) score among the events of action [a]. *)
Definition lowest_score (a : Action) (events : list UserFeedback.t) (m : Z) : Prop :=
  (exists f, In f events /\ UserFeedback.action f = a /\ UserFeedback.matchScore f = m)
  /\ forall f, In f events -> UserFeedback.action f = a -> m <= UserFeedback.matchScore f.

Definition highest_score (a : Action) (events : list UserFeedback.t) (m : Z) : Prop :=
  (exists f, In f events /\ UserFeedback.action f = a /\ UserFeedback.matchScore f = m)
  /\ forall f, In f events -> UserFeedback.action f = a -> UserFeedback.matchScore f <= m.

(** No event, and the number of events, of action [a]. *)
Definition none_of (a : Action) (events : list UserFeedback.t) : Prop :=
  forall f, In f events -> UserFeedback.action f <> a.

Definition number_of (a : Action) (events : list UserFeedback.t) : nat :=
  length (filter (fun f => UserFeedback.action f = a) events).

(** The events the feedback store holds for an inbox. *)
Definition events_of (inboxId : string) (w : World) : list UserFeedback.t :=
  filter (fun f => UserFeedback.inboxId f = inboxId) (feedbackStore w).

(** [world0] with a ledger in its feedback store. *)
Definition world_with (ledger : list UserFeedback.t) : World :=
  with_feedback (stored ledger) world0.

Definition ten_saves : list UserFeedback.t :=
  map (event saved) [80; 80; 80; 80; 80; 80; 80; 80; 80; 80].

(** An event of another inbox. *)
Definition foreign_event : UserFeedback.t :=
  UserFeedback.mk "feedback-9" "inbox-0" "contract-1" hidden 100 1761000000000%N None None.

Definition learned_policy : InboxLearningMetrics.t :=
  metricsOfFeedback "inbox-1" (stored scenario_B) 1761000000020%N 1761000000021%N.

(** An inbox with a policy learned from 20 events, at a moment when the
    feedback database cannot be opened. *)
Definition world_ledger_down : World :=
  mkWorld {[ "contract-1" := contract_1 ]}
          {[ "inbox-1" := assign_inbox regular_inbox (Set_learningMetrics (Some learned_policy)) ]}
          (stored scenario_B) false false true test_clock 0 test_random 0.

(** The page showing the "All Contracts" inbox, and the page showing the
    regular inbox with one search result scored 80. *)
Definition all_contracts_page : Page :=
  mkPage [contract_1] [] (Some all_contracts_inbox).

Definition regular_page : Page :=
  mkPage [contract_1] [with_matchScore (Some 80) contract_1] (Some regular_inbox).

(** A policy with its two timestamps erased. *)
Definition without_timestamps (m : InboxLearningMetrics.t) : InboxLearningMetrics.t :=
  InboxLearningMetrics.mk
    (InboxLearningMetrics.inboxId m)
    (InboxLearningMetrics.minRelevanceScore m)
    (InboxLearningMetrics.maxIrrelevanceScore m)
    (InboxLearningMetrics.dynamicMinScore m)
    (ThresholdAdjustments.mk
       (ThresholdAdjustments.expandedCount (InboxLearningMetrics.thresholdAdjustments m))
       (ThresholdAdjustments.narrowedCount (InboxLearningMetrics.thresholdAdjustments m))
       0%N)
    (InboxLearningMetrics.promptRefinements m)
    (InboxLearningMetrics.pendingPromptUpdate m)
    (InboxLearningMetrics.totalFeedback m)
    (InboxLearningMetrics.savedContracts m)
    (InboxLearningMetrics.hiddenContracts m)
    (InboxLearningMetrics.viewedContracts m)
    (InboxLearningMetrics.authorityBoosts m)
    (InboxLearningMetrics.classificationBoosts m)
    (InboxLearningMetrics.confidenceLevel m)
    0%N.

(** ** Per-inbox hidden state *)

(** The object store is keyed by the [id] of its records. *)
Definition keyed_by_id (w : World) : Prop :=
  forall k c, contractsStore w !! k = Some c -> Contract.id c = k.

(** The metadata a contract holds for an inbox. *)
Definition metadata_for (c : Contract.t) (inboxId : string) : option HiddenMeta.t :=
  Contract.hiddenMetadata c ≫= (fun m => m !! inboxId).

(** [c'] differs from [c] in [hiddenInInboxes] and [hiddenMetadata] at most. *)
Definition same_but_hidden_state (c c' : Contract.t) : Prop :=
  c' = fold_left assign_contract
         [Set_hiddenInInboxes (Contract.hiddenInInboxes c');
          Set_hiddenMetadata (Contract.hiddenMetadata c')] c.

Definition hidden_elsewhere : Contract.t :=
  fold_left assign_contract
    [Set_hiddenInInboxes ["inbox-7"];
     Set_hiddenMetadata (Some {[ "inbox-7" := HiddenMeta.mk None 1761000000000%N None ]})]
    contract_1.

Definition world_hidden_elsewhere : World :=
  with_contracts {[ "contract-1" := hidden_elsewhere ]} world0.

(** The authority or the classification of a result is the name of a
    property of [Object.prototype]. *)
Definition prototype_named (r : SearchResult.t) : Prop :=
  Contract.authority (SearchResult.contract r) ∈ Object_prototype
  \/ Contract.buyerClassification (SearchResult.contract r) ∈ Object_prototype.

#[global] Instance prototype_named_dec r : Decision (prototype_named r).
Proof. unfold prototype_named. apply _. Defined.

(** [Math.max(0, Math.min(100, x))] *)
Definition clamp_score (x : number) : number :=
  match x with
  | Num z => Num (Z.max 0 (Z.min 100 z))
  | NaN => NaN
  end.

(** [r'] is [r] with its score clamped to [0,100]: no boost is added. *)
Definition clamped_only (r r' : SearchResult.t) : Prop :=
  SearchResult.contract r' = SearchResult.contract r
  /\ SearchResult.explanation r' = SearchResult.explanation r
  /\ SearchResult.matchScore r' = clamp_score (SearchResult.matchScore r).

Definition high_result : SearchResult.t := SearchResult.mk contract_1 (Num 87) None.

(** A result scored over 100, and a result whose buyer bears the name of a
    property of [Object.prototype]. *)
Definition over_result : SearchResult.t := SearchResult.mk contract_1 (Num 150) None.

Definition contract_3 : Contract.t :=
  Contract.mk "contract-3" "Site works" "Groundworks and drainage" "constructor"
              None "2026-03-31" "2025-11-03" "https://example.org/3" "Local"
              None true false true [] None None None None None.

Definition inherited_result : SearchResult.t := SearchResult.mk contract_3 (Num 87) None.

(** ** Order of a result list *)

(** [a] may stand before [b] in a list sorted by descending score: both
    scores are numbers, and that of [b] is not the greater one. *)
Definition score_ge (a b : SearchResult.t) : Prop :=
  exists x y, SearchResult.matchScore a = Num x
              /\ SearchResult.matchScore b = Num y /\ y <= x.

(** The score of a result is a number. *)
Definition numeric (r : SearchResult.t) : Prop :=
  SearchResult.matchScore r <> NaN.

(** The name [key] is no own property of [boosts] but a property of
    [Object.prototype]. *)
Definition inherited (boosts : gmap string Z) (key : string) : Prop :=
  boosts !! key = None /\ key ∈ Object_prototype.

#[global] Instance inherited_dec boosts key : Decision (inherited boosts key).
Proof. unfold inherited. apply _. Defined.

(** The lookup of the authority or of the classification of [r] in the
    boosts of [m] ends in [Object.prototype]. *)
Definition reaches_prototype (m : InboxLearningMetrics.t) (r : SearchResult.t) : Prop :=
  inherited (InboxLearningMetrics.authorityBoosts m)
            (Contract.authority (SearchResult.contract r))
  \/ inherited (InboxLearningMetrics.classificationBoosts m)
               (Contract.buyerClassification (SearchResult.contract r)).

#[global] Instance reaches_prototype_dec m r : Decision (reaches_prototype m r).
Proof. unfold reaches_prototype. apply _. Defined.

(** The number held under the own property [key] of [boosts], 0 without one. *)
Definition own_boost (boosts : gmap string Z) (key : string) : Z :=
  default 0 (boosts !! key).

(** The score the boost stage computes, in closed form: [NaN] when a lookup
    ends in [Object.prototype] or the score is [NaN] already, else the score
    plus the two boosts, clamped to [0,100]. *)
Definition clamped_boost (m : InboxLearningMetrics.t) (r : SearchResult.t) : number :=
  if decide (reaches_prototype m r) then NaN
  else
    match SearchResult.matchScore r with
    | Num z =>
      Num (Z.max 0 (Z.min 100
             (z + own_boost (InboxLearningMetrics.authorityBoosts m)
                            (Contract.authority (SearchResult.contract r))
                + own_boost (InboxLearningMetrics.classificationBoosts m)
                            (Contract.buyerClassification (SearchResult.contract r)))))
    | NaN => NaN
    end.

(** A policy with boosts, as a later phase of the analyzer could produce it:
    20 events, full confidence, the full band. *)
Definition boosting_policy : InboxLearningMetrics.t :=
  InboxLearningMetrics.mk "inbox-1" 0 100 50
    (ThresholdAdjustments.mk 0 0 1761000000000%N)
    [] false 20 15 5 0
    {[ "Kent County Council" := 10 ]} {[ "Local" := -5 ]}
    100 1761000000000%N.

(** Saves at 80 and above, hides at 40 and below. *)
Definition saves_high_hides_low : list UserFeedback.t :=
  map (event saved) [80; 85; 90; 95] ++ map (event hidden) [40; 35; 30].

(** * The rest of the storage layers, the hooks and the status line *)

(** ** [src/lib/feedback-storage.ts], continued *)

(** [index('contractId').getAll(contractId)]; a failure of the read is caught
    and an empty array returned. *)
Definition getFeedbackForContract (contractId : string) : IO (list UserFeedback.t) :=
  try_catch
    (initFeedbackDB;;
     w ← get_world;
     mret (List.filter (fun f => String.eqb (UserFeedback.contractId f) contractId)
                       (feedbackStore w)))
    (fun _ => mret []).

(** [tx.store.delete(id)]: the record under that key, if any, is removed. *)
Definition delete_feedback (id : string) (store : list UserFeedback.t)
  : list UserFeedback.t :=
  List.filter (fun g => negb (String.eqb (UserFeedback.id g) id)) store.

Definition clearInboxFeedback (inboxId : string) : IO unit :=
  try_catch
    (initFeedbackDB;;
     feedback ← getFeedbackForInbox inboxId;
     modify_world
       (fun w => with_feedback
                   (fold_left (fun store f => delete_feedback (UserFeedback.id f) store)
                              feedback (feedbackStore w)) w);;
     mret tt)
    (fun error => throw error).

Definition clearAllFeedback : IO unit :=
  try_catch
    (initFeedbackDB;;
     modify_world (with_feedback []);;
     mret tt)
    (fun error => throw error).

Module FeedbackStats.
Record t := mk {
  total : Z;
  saved : Z;
  hidden : Z;
  viewed : Z;
  avgSavedScore : Z;
  avgHiddenScore : Z
}.
End FeedbackStats.

(** [l.reduce((sum, f) => sum + f.matchScore, 0)] *)
Definition sum_scores (l : list UserFeedback.t) : Z :=
  fold_left (fun sum f => sum + UserFeedback.matchScore f) l 0.

(** [l.length > 0 ? l.reduce(...) / l.length : 0] *)
Definition average_score (l : list UserFeedback.t) : Q :=
  if (0 <? length l)%nat
  then (inject_Z (sum_scores l) / inject_Z (Z.of_nat (length l)))%Q
  else 0%Q.

Definition getFeedbackStats (inboxId : string) : IO FeedbackStats.t :=
  try_catch
    (feedback ← getFeedbackForInbox inboxId;
     let saved_events := List.filter (has_action saved) feedback in
     let hidden_events := List.filter (has_action hidden) feedback in
     let viewed_events := List.filter (has_action viewed) feedback in
     mret (FeedbackStats.mk
             (Z.of_nat (length feedback))
             (Z.of_nat (length saved_events))
             (Z.of_nat (length hidden_events))
             (Z.of_nat (length viewed_events))
             (Math_round (average_score saved_events))
             (Math_round (average_score hidden_events))))
    (fun _ => mret (FeedbackStats.mk 0 0 0 0 0 0)).

(** ** [src/lib/contract-storage.ts], continued *)

(** [tx.store.put(contract)] for every contract, in one transaction. *)
Definition saveContracts (contracts : list Contract.t) : IO unit :=
  try_catch
    (initContractDB;;
     modify_world
       (fun w => with_contracts
                   (fold_left (fun store c => <[Contract.id c := c]> store)
                              contracts (contractsStore w)) w);;
     mret tt)
    (fun error => throw error).

Definition hasContracts : IO bool :=
  try_catch
    (initContractDB;;
     w ← get_world;
     mret (0 <? size (contractsStore w))%nat)
    (fun _ => mret false).

Definition restoreContract (id inboxId : string) : IO unit :=
  found ← getContractById id;
  match found with
  | None => mret tt
  | Some contract =>
    let hiddenInInboxes :=
      List.filter (fun inbox => negb (String.eqb inbox inboxId))
                  (Contract.hiddenInInboxes contract) in
    let hiddenMetadata := delete inboxId (default ∅ (Contract.hiddenMetadata contract)) in
    updateContract id
      [Set_hiddenInInboxes hiddenInInboxes;
       Set_hiddenMetadata
         (if (0 <? size hiddenMetadata)%nat then Some hiddenMetadata else None)];;
    mret tt
  end.

(** ** The inbox storage layer, continued *)

(** [db.getAll] returns the records in ascending order of their key. *)
Definition key_le (a b : string * Inbox.t) : Prop := String.leb a.1 b.1 = true.

#[global] Instance key_le_dec a b : Decision (key_le a b).
Proof. unfold key_le. apply _. Defined.

Definition in_key_order (store : gmap string Inbox.t) : list Inbox.t :=
  (merge_sort key_le (map_to_list store)).*2.

Definition getAllInboxes : IO (list Inbox.t) :=
  try_catch
    (initInboxDB;;
     w ← get_world;
     mret (in_key_order (inboxesStore w)))
    (fun _ => mret []).

Definition getInboxById (id : string) : IO (option Inbox.t) :=
  try_catch
    (initInboxDB;;
     w ← get_world;
     mret (inboxesStore w !! id))
    (fun _ => mret None).

Definition createInbox (name prompt : string) (isAllContractsInbox : bool)
  : IO Inbox.t :=
  try_catch
    (now ← Date_now;
     suffix ← Math_random_suffix;
     createdAt ← Date_now;
     updatedAt ← Date_now;
     let inbox :=
       Inbox.mk ("inbox-" +:+ pretty now +:+ "-" +:+ suffix) name prompt None
                createdAt updatedAt 0 (Some isAllContractsInbox) None in
     initInboxDB;;
     modify_world (fun w => with_inboxes (<[Inbox.id inbox := inbox]> (inboxesStore w)) w);;
     mret inbox)
    (fun error => throw error).

Definition deleteInbox (id : string) : IO unit :=
  try_catch
    (initInboxDB;;
     modify_world (fun w => with_inboxes (delete id (inboxesStore w)) w);;
     mret tt)
    (fun error => throw error).

Definition saveInboxEmbedding (inboxId : string) (embedding : list Q) : IO unit :=
  updateInbox inboxId [Set_inbox_embedding (Some embedding)];; mret tt.

Definition updateUnreadCount (id : string) (count : Z) : IO unit :=
  updateInbox id [Set_unreadCount count];; mret tt.

Definition clearAllInboxes : IO unit :=
  try_catch
    (initInboxDB;;
     modify_world (with_inboxes ∅);;
     mret tt)
    (fun error => throw error).

Definition hasInboxes : IO bool :=
  try_catch
    (initInboxDB;;
     w ← get_world;
     mret (0 <? size (inboxesStore w))%nat)
    (fun _ => mret false).

(** The result is [inboxes[0]], which is [undefined] on an empty array. *)
Definition ensureDefaultInbox : IO (option Inbox.t) :=
  exists_ ← hasInboxes;
  if negb exists_ then
    inbox ← createInbox "All Contracts" "Show me all relevant public sector contracts" true;
    mret (Some inbox)
  else
    inboxes ← getAllInboxes;
    mret (head inboxes).

(** ** The [useInboxStorage] hook and the rest of [useContractStorage] *)

Definition addInbox (name prompt : string) : IO Inbox.t :=
  try_catch (createInbox name prompt false) (fun err => throw err).

Definition removeInbox (id : string) : IO unit :=
  try_catch (deleteInbox id) (fun _ => mret tt).

(** [loadInboxes]: the list the hook then holds; empty when loading failed. *)
Definition loadInboxes : IO (list Inbox.t) :=
  try_catch
    (ensureDefaultInbox;;
     getAllInboxes)
    (fun _ => mret []).

Definition unhideContract (id inboxId : string) : IO unit :=
  try_catch (restoreContract id inboxId) (fun _ => mret tt).

Definition handleRestoreContract (p : Page) (contractId : string) : IO unit :=
  try_catch
    (match activeInbox p with
     | None => mret tt
     | Some inbox => unhideContract contractId (Inbox.id inbox)
     end)
    (fun _ => mret tt).

(** [useSemanticSearch]: the minimum score the search is asked for,
    [inbox?.learningMetrics?.dynamicMinScore ?? 30]. *)
Definition dynamicThreshold (inbox : option Inbox.t) : Z :=
  default 30 (InboxLearningMetrics.dynamicMinScore <$> (inbox ≫= Inbox.learningMetrics)).

(** ** [src/lib/learning.ts]: the status line *)

Definition getLearningStatus (metrics : option InboxLearningMetrics.t) : string :=
  match metrics with
  | None => "No learning data yet. Save or hide contracts to improve matching."
  | Some m =>
    if InboxLearningMetrics.totalFeedback m =? 0 then
      "No learning data yet. Save or hide contracts to improve matching."
    else if InboxLearningMetrics.totalFeedback m <? 5 then
      "Learning... (" +:+ pretty (InboxLearningMetrics.totalFeedback m)
      +:+ "/5 feedback events needed)"
    else if InboxLearningMetrics.confidenceLevel m <? 30 then
      "Learning in progress (" +:+ pretty (InboxLearningMetrics.confidenceLevel m)
      +:+ "% confidence)"
    else
      let thresholdInfo :=
        if bool_decide (InboxLearningMetrics.dynamicMinScore m ≠ 50)
        then " • Threshold: " +:+ pretty (InboxLearningMetrics.dynamicMinScore m) +:+ "%"
        else "" in
      "Active learning (" +:+ pretty (InboxLearningMetrics.totalFeedback m)
      +:+ " events, " +:+ pretty (InboxLearningMetrics.confidenceLevel m)
      +:+ "% confidence" +:+ thresholdInfo +:+ ")"
  end.

(** ** Vocabulary of the further properties *)

(** The event [recordFeedback] builds in a world: its key is made of the
    next clock reading and the next random suffix, its timestamp is the clock
    reading after that. *)
Definition recorded (w : World) (inboxId contractId : string) (a : Action)
    (matchScore : Z) (hideReason : option string) (viewDuration : option Z)
  : UserFeedback.t :=
  UserFeedback.mk
    ("feedback-" +:+ pretty (clock w (ticks w)) +:+ "-" +:+ random w (draws w))
    inboxId contractId a matchScore (clock w (S (ticks w))) hideReason viewDuration.

(** No record of the store has the key [id]. *)
Definition fresh_key (id : string) (store : list UserFeedback.t) : Prop :=
  forall g, In g store -> UserFeedback.id g <> id.

(** 1 if the two actions are the same, else 0. *)
Definition one_if (a b : Action) : Z := if bool_decide (a = b) then 1 else 0.

(** The keys of the feedback store are distinct. *)
Definition distinct_keys (w : World) : Prop :=
  NoDup (map UserFeedback.id (feedbackStore w)).

(** The world of [world0] with the feedback database down, and with a
    ledger that holds events of two inboxes. *)
Definition world_feedback_down : World :=
  mkWorld (contractsStore world0) (inboxesStore world0) (feedbackStore world0)
          false false true test_clock 0 test_random 0.

Definition world_two_ledgers : World :=
  with_feedback
    (stored (scenario_D
             ++ [UserFeedback.mk "x" "inbox-0" "contract-1" viewed 100 0%N None None]))
    world0.

(** The inbox store is keyed by the [id] of its records. *)
Definition inboxes_keyed_by_id (w : World) : Prop :=
  forall k i, inboxesStore w !! k = Some i -> Inbox.id i = k.

(** [i'] differs from [i] in [learningMetrics] and [updatedAt] at most. *)
Definition same_but_policy (i i' : Inbox.t) : Prop :=
  i' = with_updatedAt (Inbox.updatedAt i')
         (assign_inbox i (Set_learningMetrics (Inbox.learningMetrics i'))).

(** An operation leaves the component [f] of the world as it is. *)
Definition preserves {A S} (f : World -> S) (m : IO A) : Prop :=
  forall w, f (run m w) = f w.

(** The operations of the [useContractStorage] hook, as a user triggers them. *)
Inductive ContractAction :=
| DoSave (id : string) (context : option Context.t)
| DoHide (id : string) (reason : option string) (context : option Context.t)
| DoRead (id : string) (context : option Context.t)
| DoUnhide (id inboxId : string).

Definition perform (a : ContractAction) : IO unit :=
  match a with
  | DoSave id context => saveContract id context
  | DoHide id reason context => hideContract id reason context
  | DoRead id context => markAsRead id context
  | DoUnhide id inboxId => unhideContract id inboxId
  end.

(** The world after a sequence of actions, each one settled before the next. *)
Definition perform_all (actions : list ContractAction) (w : World) : World :=
  fold_left (fun w a => run (perform a) w) actions w.

(** [c'] is a later state of the contract [c]: the same contract with the
    same descriptive fields, and still saved if [c] was. *)
Definition later_state (c c' : Contract.t) : Prop :=
  Contract.id c' = Contract.id c
  /\ Contract.title c' = Contract.title c
  /\ Contract.description c' = Contract.description c
  /\ Contract.authority c' = Contract.authority c
  /\ Contract.value c' = Contract.value c
  /\ Contract.closeDate c' = Contract.closeDate c
  /\ Contract.publishDate c' = Contract.publishDate c
  /\ Contract.url c' = Contract.url c
  /\ Contract.buyerClassification c' = Contract.buyerClassification c
  /\ (Contract.isSaved c = true -> Contract.isSaved c' = true).

(** Every key holds a later state of what it held, and no key is added or
    removed. *)
Definition store_evolves (s s' : gmap string Contract.t) : Prop :=
  forall k, option_Forall2 later_state (s !! k) (s' !! k).

(** The store of a world is keyed by the [id] of its records. *)
Definition keyed (s : gmap string Contract.t) : Prop :=
  forall k c, s !! k = Some c -> Contract.id c = k.

(** An update that does not clear the saved flag. *)
Definition keeps_saved (u : ContractUpdate) : Prop := u <> Set_isSaved false.

(** At most one inbox of the store is the "All Contracts" inbox. *)
Definition at_most_one_special (s : gmap string Inbox.t) : Prop :=
  forall k1 k2 i1 i2,
    s !! k1 = Some i1 -> s !! k2 = Some i2 ->
    is_all_contracts i1 = true -> is_all_contracts i2 = true -> k1 = k2.

(** The inbox store is keyed by the [id] of its records. *)
Definition inbox_keyed (s : gmap string Inbox.t) : Prop :=
  forall k i, s !! k = Some i -> Inbox.id i = k.

(** The operations that write the inbox store: loading the inboxes (which
    ensures the default inbox), adding and removing an inbox through the hook,
    and [updateInbox], which every other writer goes through. *)
Inductive InboxAction :=
| DoLoad
| DoAdd (name prompt : string)
| DoRemove (id : string)
| DoUpdate (id : string) (updates : list InboxUpdate).

Definition perform_inbox (a : InboxAction) (w : World) : World :=
  match a with
  | DoLoad => run loadInboxes w
  | DoAdd name prompt => run (addInbox name prompt) w
  | DoRemove id => run (removeInbox id) w
  | DoUpdate id updates => run (updateInbox id updates) w
  end.

(** The inbox [createInbox] builds in a world. *)
Definition created (w : World) (name prompt : string) (isAllContractsInbox : bool)
  : Inbox.t :=
  Inbox.mk ("inbox-" +:+ pretty (clock w (ticks w)) +:+ "-" +:+ random w (draws w))
           name prompt None (clock w (S (ticks w))) (clock w (S (S (ticks w))))
           0 (Some isAllContractsInbox) None.

(** A world with no inbox yet. *)
Definition world_without_inboxes : World := with_inboxes ∅ world0.

(** The fields of a policy that feedback determines. *)
Definition learned_fields (m : InboxLearningMetrics.t)
  : Z * Z * Z * Z * Z * Z * Z * gmap string Z * gmap string Z :=
  (InboxLearningMetrics.minRelevanceScore m,
   InboxLearningMetrics.maxIrrelevanceScore m,
   InboxLearningMetrics.totalFeedback m,
   InboxLearningMetrics.savedContracts m,
   InboxLearningMetrics.hiddenContracts m,
   InboxLearningMetrics.viewedContracts m,
   InboxLearningMetrics.confidenceLevel m,
   InboxLearningMetrics.authorityBoosts m,
   InboxLearningMetrics.classificationBoosts m).

(** The page showing an inbox as the store holds it. *)
Definition page_showing (inbox : Inbox.t) : Page := mkPage [] [] (Some inbox).

(** The regular inbox with the policy of scenario B. *)
Definition learned_inbox : Inbox.t :=
  assign_inbox regular_inbox (Set_learningMetrics (Some learned_policy)).

(** The page showing the regular inbox with a search result that is saved
    already. *)
Definition page_with_saved_result : Page :=
  mkPage [contract_1]
         [with_matchScore (Some 80) (assign_contract contract_1 (Set_isSaved true))]
         (Some regular_inbox).

Definition contract_2 : Contract.t :=
  Contract.mk "contract-2" "School meals" "Catering for schools" "Surrey County Council"
              None "2026-02-28" "2025-11-02" "https://example.org/2" "Education"
              None true false true [] None None None None None.

(** * Properties *)

(** ** Arithmetic of the JavaScript primitives *)

Lemma Math_round_integer (z : Z) : Math_round (inject_Z z) = z.
Proof.
  unfold Math_round, Qfloor, Qplus, inject_Z; simpl.
  symmetry; apply Z.div_unique with (r := 1); lia.
Qed.

Lemma Math_round_proper (x y : Q) : (x == y)%Q -> Math_round x = Math_round y.
Proof.
  intros E. unfold Math_round. apply Qfloor_comp. now rewrite E.
Qed.

Lemma Math_min_of_le_init (a : list Z) (x : Z) : Math_min_of x a <= x.
Proof.
  unfold Math_min_of. revert x.
  induction a as [|y a IH]; intros x; simpl; [lia|].
  specialize (IH (Z.min x y)). lia.
Qed.

Lemma Math_min_of_lower_bound (a : list Z) (x : Z) :
  Forall (fun y => Math_min_of x a <= y) a.
Proof.
  unfold Math_min_of. revert x.
  induction a as [|y a IH]; intros x; simpl; constructor.
  - pose proof (Math_min_of_le_init a (Z.min x y)) as H.
    unfold Math_min_of in H. lia.
  - apply IH.
Qed.

Lemma Math_min_of_attained (a : list Z) (x : Z) : In (Math_min_of x a) (x :: a).
Proof.
  unfold Math_min_of. revert x.
  induction a as [|y a IH]; intros x; simpl; [now left|].
  destruct (IH (Z.min x y)) as [E|E].
  - rewrite <- E. destruct (Z.min_spec x y) as [[_ ->]|[_ ->]]; auto.
  - auto.
Qed.

Lemma Math_max_of_ge_init (a : list Z) (x : Z) : x <= Math_max_of x a.
Proof.
  unfold Math_max_of. revert x.
  induction a as [|y a IH]; intros x; simpl; [lia|].
  specialize (IH (Z.max x y)). lia.
Qed.

Lemma Math_max_of_upper_bound (a : list Z) (x : Z) :
  Forall (fun y => y <= Math_max_of x a) a.
Proof.
  unfold Math_max_of. revert x.
  induction a as [|y a IH]; intros x; simpl; constructor.
  - pose proof (Math_max_of_ge_init a (Z.max x y)) as H.
    unfold Math_max_of in H. lia.
  - apply IH.
Qed.

Lemma Math_max_of_attained (a : list Z) (x : Z) : In (Math_max_of x a) (x :: a).
Proof.
  unfold Math_max_of. revert x.
  induction a as [|y a IH]; intros x; simpl; [now left|].
  destruct (IH (Z.max x y)) as [E|E].
  - rewrite <- E. destruct (Z.max_spec x y) as [[_ ->]|[_ ->]]; auto.
  - auto.
Qed.

Lemma Math_min_of_lowest (x : Z) (a : list Z) : lowest_of (x :: a) (Math_min_of x a).
Proof.
  split; [apply Math_min_of_attained|].
  constructor; [apply Math_min_of_le_init | apply Math_min_of_lower_bound].
Qed.

Lemma Math_max_of_highest (x : Z) (a : list Z) : highest_of (x :: a) (Math_max_of x a).
Proof.
  split; [apply Math_max_of_attained|].
  constructor; [apply Math_max_of_ge_init | apply Math_max_of_upper_bound].
Qed.

Lemma lowest_of_unique (a : list Z) (m m' : Z) :
  lowest_of a m -> lowest_of a m' -> m = m'.
Proof.
  intros [I1 F1] [I2 F2].
  rewrite List.Forall_forall in F1, F2.
  specialize (F1 _ I2). specialize (F2 _ I1). lia.
Qed.

Lemma highest_of_unique (a : list Z) (m m' : Z) :
  highest_of a m -> highest_of a m' -> m = m'.
Proof.
  intros [I1 F1] [I2 F2].
  rewrite List.Forall_forall in F1, F2.
  specialize (F1 _ I2). specialize (F2 _ I1). lia.
Qed.

(** ** The dynamic threshold controller *)

Lemma threshold_short_history feedbackEvents currentThreshold :
  (length feedbackEvents < 10)%nat ->
  calculateDynamicThreshold feedbackEvents currentThreshold
  = mkThresholdResult currentThreshold None.
Proof.
  intros H. unfold calculateDynamicThreshold.
  destruct (Nat.ltb_spec (length feedbackEvents) 10); [reflexivity | lia].
Qed.

Lemma threshold_long_history feedbackEvents currentThreshold :
  (10 <= length feedbackEvents)%nat ->
  threshold (calculateDynamicThreshold feedbackEvents currentThreshold)
  = Z.max 30 (Z.min 70
      (if narrow_fires feedbackEvents then Z.min 70 (currentThreshold + 10)
       else if expand_fires feedbackEvents currentThreshold
            then Z.max 30 (currentThreshold - 10)
            else currentThreshold)).
Proof.
  intros H. unfold calculateDynamicThreshold, narrow_fires, expand_fires.
  destruct (Nat.ltb_spec (length feedbackEvents) 10); [lia|].
  cbv zeta.
  destruct (_ && _); destruct (_ && _); reflexivity.
Qed.

(** With ten events or more the controller stays within [30,70], whatever
    the starting value. *)
Lemma threshold_in_range_long_history feedbackEvents currentThreshold :
  (10 <= length feedbackEvents)%nat ->
  30 <= threshold (calculateDynamicThreshold feedbackEvents currentThreshold) <= 70.
Proof.
  intros H. rewrite threshold_long_history by assumption. lia.
Qed.

(** C1. The claim: for every list of feedback events and every starting
    cutoff, [calculateDynamicThreshold] returns a threshold within [30,70].
    The code returns the starting cutoff untouched when it has fewer than ten
    events: on the empty history and the starting cutoff 80 it returns 80,
    which lies outside [30,70]. *)
Theorem C1_short_history_returns_cutoff_unclamped :
  threshold (calculateDynamicThreshold [] 80) = 80
  /\ ~ (30 <= threshold (calculateDynamicThreshold [] 80) <= 70).
Proof.
  split; [reflexivity | simpl; lia].
Qed.

(** *** The code against the rule set of the specification *)

Lemma slice_last_most_recent (n : nat) (events : list UserFeedback.t) :
  slice_last n events = most_recent n events.
Proof.
  unfold slice_last, most_recent.
  now rewrite firstn_rev, rev_involutive.
Qed.

Lemma length_filter_how_many {A} (f : A -> bool) (P : A -> Prop)
    `{!forall x, Decision (P x)} (l : list A) :
  (forall x, f x = true <-> P x) ->
  length (List.filter f l) = how_many P l.
Proof.
  intros E. unfold how_many.
  induction l as [|x l IH]; [reflexivity|].
  simpl. rewrite filter_cons.
  destruct (f x) eqn:Fx; destruct (decide (P x)) as [p|np]; simpl.
  - now rewrite IH.
  - exfalso. apply np, E, Fx.
  - apply E in p. congruence.
  - exact IH.
Qed.

Lemma filter_filter_andb {A} (f g : A -> bool) (l : list A) :
  List.filter g (List.filter f l) = List.filter (fun x => f x && g x) l.
Proof.
  induction l as [|x l IH]; [reflexivity|].
  simpl. destruct (f x); simpl; [destruct (g x)|]; now rewrite IH.
Qed.

Lemma has_action_iff (a : Action) (f : UserFeedback.t) :
  has_action a f = true <-> UserFeedback.action f = a.
Proof. unfold has_action. apply bool_decide_eq_true. Qed.

Lemma length_recentSaves events :
  length (recentSaves events) = how_many is_save (most_recent 20 events).
Proof.
  unfold recentSaves. rewrite slice_last_most_recent.
  apply length_filter_how_many. intros f. apply has_action_iff.
Qed.

Lemma length_recentHides events :
  length (recentHides events) = how_many is_hide (most_recent 20 events).
Proof.
  unfold recentHides. rewrite slice_last_most_recent.
  apply length_filter_how_many. intros f. apply has_action_iff.
Qed.

Lemma length_lowScoreSaves events cutoff :
  length (lowScoreSaves events cutoff)
  = how_many (borderline_save cutoff) (most_recent 20 events).
Proof.
  unfold lowScoreSaves, recentSaves.
  rewrite filter_filter_andb, slice_last_most_recent.
  apply length_filter_how_many. intros f. unfold borderline_save, is_save.
  rewrite !andb_true_iff, has_action_iff, !Z.ltb_lt.
  split; intros (Ha & Hlt & Hpos); repeat split; try assumption; lia.
Qed.

Lemma expand_fires_iff events cutoff :
  expand_fires events cutoff = true <-> expand_condition events cutoff.
Proof.
  unfold expand_fires, expand_condition.
  rewrite length_lowScoreSaves, length_recentSaves.
  rewrite andb_true_iff, !Nat.leb_le. reflexivity.
Qed.

Lemma narrow_fires_iff events :
  narrow_fires events = true <-> narrow_condition events.
Proof.
  unfold narrow_fires, narrow_condition.
  rewrite length_recentSaves, length_recentHides. cbv zeta.
  set (s := how_many is_save _). set (h := how_many is_hide _).
  rewrite andb_true_iff, Nat.leb_le.
  unfold length_ratio, num_gtb.
  destruct (Nat.eqb_spec (s + h) 0) as [E0|N0].
  - split; [intros [? _]; discriminate | intros [? _]; lia].
  - rewrite negb_true_iff.
    assert (Q6 : (6 # 10 == 60 # 100)%Q) by reflexivity.
    split; intros [A B]; split; try assumption.
    + rewrite <- Q6. apply Qnot_le_lt. intros L.
      apply Qle_bool_iff in L. congruence.
    + rewrite <- Q6 in B. apply Qlt_not_le in B.
      destruct (Qle_bool _ _) eqn:L; [|reflexivity].
      exfalso. apply B. now apply Qle_bool_iff.
Qed.

(** C6. With at least 10 events the controller follows the rule set of the
    specification over the most recent 20 events: the narrow rule proposes
    the cutoff plus 10 capped at 70, otherwise the expand rule proposes the
    cutoff minus 10 floored at 30 (so narrow wins when both hold), otherwise
    the cutoff is proposed unchanged; the result is the proposal clamped to
    [30,70], which is the proposal itself for a cutoff within [30,70]. *)
Theorem C6_controller_follows_rule_set (events : list UserFeedback.t) (cutoff : Z) :
  (10 <= length events)%nat ->
  exists proposed,
    (narrow_condition events -> proposed = Z.min 70 (cutoff + 10))
    /\ (expand_condition events cutoff -> ~ narrow_condition events ->
        proposed = Z.max 30 (cutoff - 10))
    /\ (~ expand_condition events cutoff -> ~ narrow_condition events ->
        proposed = cutoff)
    /\ threshold (calculateDynamicThreshold events cutoff)
       = Z.max 30 (Z.min 70 proposed)
    /\ (30 <= cutoff <= 70 ->
        threshold (calculateDynamicThreshold events cutoff) = proposed).
Proof.
  intros Hlen.
  rewrite threshold_long_history by assumption.
  pose proof (narrow_fires_iff events) as N.
  pose proof (expand_fires_iff events cutoff) as E.
  destruct (narrow_fires events); [|destruct (expand_fires events cutoff)].
  - exists (Z.min 70 (cutoff + 10)).
    assert (narrow_condition events) by now apply N.
    repeat split; try tauto; lia.
  - exists (Z.max 30 (cutoff - 10)).
    assert (~ narrow_condition events) by (intros C; apply N in C; discriminate).
    assert (expand_condition events cutoff) by now apply E.
    repeat split; try tauto; lia.
  - exists cutoff.
    assert (~ narrow_condition events) by (intros C; apply N in C; discriminate).
    assert (~ expand_condition events cutoff) by (intros C; apply E in C; discriminate).
    repeat split; try tauto; lia.
Qed.

Example scenario_D_narrows :
  calculateDynamicThreshold scenario_D 50
  = mkThresholdResult 60 (Some "Narrowed: You hid 75% of results").
Proof. vm_compute. reflexivity. Qed.

Example both_rules_fire_narrow_wins :
  expand_fires both_rules_fire 50 = true
  /\ narrow_fires both_rules_fire = true
  /\ calculateDynamicThreshold both_rules_fire 50
     = mkThresholdResult 60 (Some "Narrowed: You hid 62% of results").
Proof. vm_compute. repeat split; reflexivity. Qed.

Lemma C6_controller_follows_rule_set_witness :
  (10 <= length both_rules_fire)%nat
  /\ exists proposed,
    (narrow_condition both_rules_fire -> proposed = Z.min 70 (50 + 10))
    /\ (expand_condition both_rules_fire 50 -> ~ narrow_condition both_rules_fire ->
        proposed = Z.max 30 (50 - 10))
    /\ (~ expand_condition both_rules_fire 50 -> ~ narrow_condition both_rules_fire ->
        proposed = 50)
    /\ threshold (calculateDynamicThreshold both_rules_fire 50)
       = Z.max 30 (Z.min 70 proposed)
    /\ (30 <= 50 <= 70 ->
        threshold (calculateDynamicThreshold both_rules_fire 50) = proposed).
Proof.
  split; [vm_compute; lia|].
  apply (C6_controller_follows_rule_set both_rules_fire 50).
  vm_compute; lia.
Defined.

(** ** The analyzer in the world *)

Lemma List_filter_reflect {A} (f : A -> bool) (P : A -> Prop)
    `{!forall x, Decision (P x)} (l : list A) :
  (forall x, f x = true <-> P x) ->
  List.filter f l = filter P l.
Proof.
  intros E.
  induction l as [|x l IH]; [reflexivity|].
  simpl. rewrite filter_cons.
  destruct (f x) eqn:Fx; destruct (decide (P x)) as [p|np].
  - now rewrite IH.
  - exfalso. apply np, E, Fx.
  - apply E in p. congruence.
  - exact IH.
Qed.

Lemma getFeedbackForInbox_spec inboxId w :
  getFeedbackForInbox inboxId w = (Resolved (ledger_read w inboxId), w).
Proof.
  unfold getFeedbackForInbox, initFeedbackDB, ledger_read. io_unfold.
  destruct (feedbackDB_fails w); reflexivity.
Qed.

(** The analyzer never rejects: a failed read of the ledger reaches it as an
    empty ledger. *)
Lemma analyzeFeedbackPatterns_spec inboxId w :
  analyzeFeedbackPatterns inboxId w
  = (Resolved (metricsOfFeedback inboxId (ledger_read w inboxId)
                                 (clock w (ticks w)) (clock w (S (ticks w)))),
     with_ticks (S (S (ticks w))) w).
Proof.
  unfold analyzeFeedbackPatterns.
  unfold mbind at 1, IO_bind, try_catch.
  rewrite getFeedbackForInbox_spec. reflexivity.
Qed.

Lemma ledger_read_events_of inboxId w :
  feedbackDB_fails w = false ->
  ledger_read w inboxId = events_of inboxId w.
Proof.
  intros F. unfold ledger_read, events_of. rewrite F.
  apply List_filter_reflect. intros f.
  destruct (String.eqb_spec (UserFeedback.inboxId f) inboxId); split; congruence.
Qed.

(** With the feedback database available the analyzer resolves with the
    metrics of the events the store holds for the inbox. *)
Lemma analyzeFeedbackPatterns_reads_store inboxId w :
  feedbackDB_fails w = false ->
  outcome (analyzeFeedbackPatterns inboxId) w
  = Resolved (metricsOfFeedback inboxId (events_of inboxId w)
                                (clock w (ticks w)) (clock w (S (ticks w)))).
Proof.
  intros F. unfold outcome. rewrite analyzeFeedbackPatterns_spec. cbn [fst].
  now rewrite ledger_read_events_of.
Qed.

(** ** The pattern analyzer *)

Lemma confidence_ramp (n : nat) :
  (Qmin 100 (inject_Z (Z.of_nat n) / 20 * 100)
   == inject_Z (Z.min 100 (5 * Z.of_nat n)))%Q.
Proof.
  assert (E : (inject_Z (Z.of_nat n) / 20 * 100 == inject_Z (5 * Z.of_nat n))%Q).
  { unfold Qeq, Qdiv, Qmult, Qinv, inject_Z; simpl. lia. }
  rewrite E.
  destruct (Z.le_gt_cases 100 (5 * Z.of_nat n)) as [L|G].
  - rewrite Z.min_l by assumption.
    apply Q.min_l. change 100%Q with (inject_Z 100). now rewrite <- Zle_Qle.
  - rewrite Z.min_r by lia.
    apply Q.min_r. change 100%Q with (inject_Z 100). rewrite <- Zle_Qle. lia.
Qed.

Section PolicyFields.

Variables (inboxId : string) (ledger : list UserFeedback.t) (t1 t2 : Timestamp).

Local Abbreviation policy := (metricsOfFeedback inboxId ledger t1 t2).

Lemma totalFeedback_value :
  InboxLearningMetrics.totalFeedback policy
  = Z.of_nat (length ledger).
Proof.
  unfold metricsOfFeedback.
  destruct (Nat.eqb_spec (length ledger) 0) as [E|N]; simpl; [now rewrite E | reflexivity].
Qed.

Lemma confidenceLevel_value :
  InboxLearningMetrics.confidenceLevel policy
  = Z.min 100 (5 * Z.of_nat (length ledger)).
Proof.
  unfold metricsOfFeedback.
  destruct (Nat.eqb_spec (length ledger) 0) as [E|N]; simpl.
  - rewrite E. reflexivity.
  - rewrite (Math_round_proper _ _ (confidence_ramp (length ledger))).
    apply Math_round_integer.
Qed.

Lemma minRelevanceScore_value :
  InboxLearningMetrics.minRelevanceScore policy
  = match scores_of saved ledger with
    | [] => 0
    | s :: rest => Z.max 0 (Math_min_of s rest - 10)
    end.
Proof.
  unfold metricsOfFeedback.
  destruct (Nat.eqb_spec (length ledger) 0) as [E|N]; simpl.
  - destruct ledger; [reflexivity | discriminate].
  - apply Math_round_integer.
Qed.

Lemma maxIrrelevanceScore_value :
  InboxLearningMetrics.maxIrrelevanceScore policy
  = match scores_of hidden ledger with
    | [] => 100
    | s :: rest => Z.min 100 (Math_max_of s rest + 5)
    end.
Proof.
  unfold metricsOfFeedback.
  destruct (Nat.eqb_spec (length ledger) 0) as [E|N]; simpl.
  - destruct ledger; [reflexivity | discriminate].
  - apply Math_round_integer.
Qed.

(** The live cutoff the analyzer reports is computed from the ledger and the
    constant 50 (30 on an empty ledger); no inbox is read. *)
Lemma dynamicMinScore_value :
  InboxLearningMetrics.dynamicMinScore policy
  = if (length ledger =? 0)%nat then 30
    else threshold (calculateDynamicThreshold ledger 50).
Proof.
  unfold metricsOfFeedback. now destruct (length ledger =? 0)%nat.
Qed.

Lemma authorityBoosts_empty :
  InboxLearningMetrics.authorityBoosts policy = ∅.
Proof. unfold metricsOfFeedback. now destruct (length ledger =? 0)%nat. Qed.

Lemma classificationBoosts_empty :
  InboxLearningMetrics.classificationBoosts policy = ∅.
Proof. unfold metricsOfFeedback. now destruct (length ledger =? 0)%nat. Qed.

End PolicyFields.

Create Rewrite HintDb policy_fields.

#[global] Hint Rewrite totalFeedback_value confidenceLevel_value
  minRelevanceScore_value maxIrrelevanceScore_value dynamicMinScore_value
  authorityBoosts_empty classificationBoosts_empty : policy_fields.

Lemma in_scores_of (a : Action) (ledger : list UserFeedback.t) (f : UserFeedback.t) :
  In f ledger -> UserFeedback.action f = a ->
  In (UserFeedback.matchScore f) (scores_of a ledger).
Proof.
  intros I A. unfold scores_of. apply in_map, filter_In.
  split; [exact I | now apply has_action_iff].
Qed.

Lemma scores_of_inv (a : Action) (ledger : list UserFeedback.t) (x : Z) :
  In x (scores_of a ledger) ->
  exists f, In f ledger /\ UserFeedback.action f = a /\ UserFeedback.matchScore f = x.
Proof.
  unfold scores_of. intros I. apply in_map_iff in I as (f & E & I).
  apply filter_In in I as [I A]. apply has_action_iff in A. eauto.
Qed.

Lemma none_of_scores (a : Action) (ledger : list UserFeedback.t) :
  none_of a ledger -> scores_of a ledger = [].
Proof.
  intros N. destruct (scores_of a ledger) as [|x l] eqn:E; [reflexivity|].
  destruct (scores_of_inv a ledger x) as (f & I & A & _); [rewrite E; now left|].
  now destruct (N f I).
Qed.

Lemma lowest_score_of (a : Action) (ledger : list UserFeedback.t) (m : Z) :
  lowest_score a ledger m -> lowest_of (scores_of a ledger) m.
Proof.
  intros [(f & I & A & <-) L]. split; [now apply in_scores_of|].
  apply List.Forall_forall. intros x Ix.
  apply scores_of_inv in Ix as (g & Ig & Ag & <-). now apply L.
Qed.

Lemma highest_score_of (a : Action) (ledger : list UserFeedback.t) (m : Z) :
  highest_score a ledger m -> highest_of (scores_of a ledger) m.
Proof.
  intros [(f & I & A & <-) L]. split; [now apply in_scores_of|].
  apply List.Forall_forall. intros x Ix.
  apply scores_of_inv in Ix as (g & Ig & Ag & <-). now apply L.
Qed.



(** ** The ranking pipeline *)

(** *** The boost stage *)

Lemma boost_of_closed_form (boosts : gmap string Z) (key : string) :
  boost_of boosts key
  = if decide (inherited boosts key) then boost_object
    else boost_number (own_boost boosts key).
Proof.
  unfold boost_of, own_boost.
  destruct (decide (inherited boosts key)) as [[E I]|N].
  - rewrite E. now rewrite bool_decide_eq_true_2.
  - unfold inherited in N. destruct (boosts !! key) as [z|]; [reflexivity|].
    simpl. case_bool_decide; [tauto | reflexivity].
Qed.

Lemma add_boost_number (x z : Z) :
  add_boost (adjusted_number (Num x)) (boost_number z) = adjusted_number (Num (x + z)).
Proof.
  unfold add_boost. case_bool_decide as E; [reflexivity|].
  f_equal. f_equal. destruct (decide (z = 0)); [lia | tauto].
Qed.

Lemma add_boost_NaN (z : Z) :
  add_boost (adjusted_number NaN) (boost_number z) = adjusted_number NaN.
Proof. unfold add_boost. now case_bool_decide. Qed.

Lemma add_boost_string (b : Boost) : add_boost adjusted_string b = adjusted_string.
Proof. destruct b as [z|]; [|reflexivity]. unfold add_boost. now case_bool_decide. Qed.

Lemma boosted_score_closed_form (m : InboxLearningMetrics.t) (r : SearchResult.t) :
  boosted_score m r = clamped_boost m r.
Proof.
  unfold boosted_score, clamped_boost, reaches_prototype.
  rewrite !boost_of_closed_form.
  destruct (decide (inherited (InboxLearningMetrics.authorityBoosts m) _)) as [A|A];
    destruct (decide (inherited (InboxLearningMetrics.classificationBoosts m) _)) as [C|C];
    destruct (decide (_ \/ _)) as [D|D]; try tauto.
  - change (add_boost (adjusted_number (SearchResult.matchScore r)) boost_object)
      with adjusted_string.
    now rewrite add_boost_string.
  - destruct (SearchResult.matchScore r) as [x|].
    + rewrite !add_boost_number. cbn [clamp_rounded]. now rewrite Math_round_integer.
    + now rewrite !add_boost_NaN.
Qed.

Lemma reaches_prototype_no_boosts (m : InboxLearningMetrics.t) (r : SearchResult.t) :
  InboxLearningMetrics.authorityBoosts m = ∅ ->
  InboxLearningMetrics.classificationBoosts m = ∅ ->
  reaches_prototype m r <-> prototype_named r.
Proof.
  intros A C. unfold reaches_prototype, prototype_named, inherited.
  rewrite A, C, !lookup_empty. tauto.
Qed.

(** Without learned boosts the open stage clamps the score, and turns it
    into [NaN] for a result that bears the name of an inherited property. *)
Lemma boosted_score_no_boosts (m : InboxLearningMetrics.t) (r : SearchResult.t) :
  InboxLearningMetrics.authorityBoosts m = ∅ ->
  InboxLearningMetrics.classificationBoosts m = ∅ ->
  boosted_score m r
  = if decide (prototype_named r) then NaN else clamp_score (SearchResult.matchScore r).
Proof.
  intros A C. rewrite boosted_score_closed_form. unfold clamped_boost.
  pose proof (reaches_prototype_no_boosts m r A C) as E.
  destruct (decide (reaches_prototype m r)); destruct (decide (prototype_named r));
    try tauto.
  unfold own_boost. rewrite A, C, !lookup_empty. simpl.
  destruct (SearchResult.matchScore r) as [z|]; [|reflexivity].
  simpl. do 3 f_equal. lia.
Qed.

Lemma clamp_score_valid (r : SearchResult.t) :
  valid_score r -> clamp_score (SearchResult.matchScore r) = SearchResult.matchScore r.
Proof. intros (z & -> & B). simpl. f_equal. lia. Qed.

Lemma applyLearnedBoosts_closed (m : InboxLearningMetrics.t)
    (results : list SearchResult.t) :
  InboxLearningMetrics.totalFeedback m < 10 \/ InboxLearningMetrics.confidenceLevel m < 50 ->
  applyLearnedBoosts results (Some m) = results.
Proof.
  intros H. unfold applyLearnedBoosts.
  destruct (Z.ltb_spec (InboxLearningMetrics.totalFeedback m) 10); [reflexivity|].
  destruct (Z.ltb_spec (InboxLearningMetrics.confidenceLevel m) 50); [reflexivity|lia].
Qed.

Lemma applyLearnedBoosts_open (m : InboxLearningMetrics.t)
    (results : list SearchResult.t) :
  10 <= InboxLearningMetrics.totalFeedback m ->
  50 <= InboxLearningMetrics.confidenceLevel m ->
  applyLearnedBoosts results (Some m)
  = map (fun r => SearchResult.mk (SearchResult.contract r) (clamped_boost m r)
                                  (SearchResult.explanation r))
        results.
Proof.
  intros T C. unfold applyLearnedBoosts.
  destruct (Z.ltb_spec (InboxLearningMetrics.totalFeedback m) 10); [lia|].
  destruct (Z.ltb_spec (InboxLearningMetrics.confidenceLevel m) 50); [lia|].
  apply map_ext. intros r. now rewrite boosted_score_closed_form.
Qed.

(** The open stage of a policy without boosts: the score of a result is
    clamped, unless the result bears the name of an inherited property. *)
Lemma applyLearnedBoosts_clamps_only (m : InboxLearningMetrics.t)
    (results : list SearchResult.t) :
  InboxLearningMetrics.authorityBoosts m = ∅ ->
  InboxLearningMetrics.classificationBoosts m = ∅ ->
  10 <= InboxLearningMetrics.totalFeedback m ->
  50 <= InboxLearningMetrics.confidenceLevel m ->
  Forall2 (fun r r' => ~ prototype_named r -> clamped_only r r')
          results (applyLearnedBoosts results (Some m)).
Proof.
  intros A C T Cf. unfold applyLearnedBoosts.
  destruct (Z.ltb_spec (InboxLearningMetrics.totalFeedback m) 10); [lia|].
  destruct (Z.ltb_spec (InboxLearningMetrics.confidenceLevel m) 50); [lia|].
  induction results as [|r results IH]; simpl; constructor; [|exact IH].
  intros N. unfold clamped_only. cbn [SearchResult.contract SearchResult.explanation
                                      SearchResult.matchScore].
  rewrite boosted_score_no_boosts by assumption.
  destruct (decide (prototype_named r)); tauto.
Qed.

Lemma applyLearnedBoosts_no_boosts (m : InboxLearningMetrics.t)
    (results : list SearchResult.t) :
  InboxLearningMetrics.authorityBoosts m = ∅ ->
  InboxLearningMetrics.classificationBoosts m = ∅ ->
  Forall valid_score results ->
  Forall (fun r => ~ prototype_named r) results ->
  applyLearnedBoosts results (Some m) = results.
Proof.
  intros A C V P. unfold applyLearnedBoosts.
  destruct (_ <? 10); [reflexivity|].
  destruct (_ <? 50); [reflexivity|].
  induction V as [|r results Hr V IH]; [reflexivity|].
  apply Forall_cons in P as [Pr P].
  simpl. rewrite IH by exact P. f_equal.
  rewrite boosted_score_no_boosts by assumption.
  destruct (decide (prototype_named r)); [tauto|].
  rewrite clamp_score_valid by exact Hr. now destruct r.
Qed.

(** *** The threshold stage *)

Lemma number_ltb_below (x : number) (b : Z) : number_ltb x (Num b) = true <-> below x b.
Proof. destruct x as [z|]; simpl; [apply Z.ltb_lt | split; [discriminate | tauto]]. Qed.

Lemma number_ltb_above (x : number) (b : Z) : number_ltb (Num b) x = true <-> above x b.
Proof. destruct x as [z|]; simpl; [apply Z.ltb_lt | split; [discriminate | tauto]]. Qed.

Lemma applyLearnedThresholds_open (m : InboxLearningMetrics.t)
    (results : list SearchResult.t) :
  5 <= InboxLearningMetrics.totalFeedback m ->
  30 <= InboxLearningMetrics.confidenceLevel m ->
  applyLearnedThresholds results (Some m) = filter (in_band m) results.
Proof.
  intros T C. unfold applyLearnedThresholds.
  destruct (Z.ltb_spec (InboxLearningMetrics.totalFeedback m) 5); [lia|].
  destruct (Z.ltb_spec (InboxLearningMetrics.confidenceLevel m) 30); [lia|].
  apply List_filter_reflect. intros r. unfold in_band. cbv zeta.
  rewrite <- number_ltb_below, <- number_ltb_above.
  destruct (number_ltb (SearchResult.matchScore r) _);
    destruct (number_ltb _ (SearchResult.matchScore r));
    split; intros; try discriminate; try reflexivity; intuition discriminate.
Qed.

Lemma applyLearnedThresholds_closed (m : InboxLearningMetrics.t)
    (results : list SearchResult.t) :
  InboxLearningMetrics.totalFeedback m < 5 \/ InboxLearningMetrics.confidenceLevel m < 30 ->
  applyLearnedThresholds results (Some m) = results.
Proof.
  intros H. unfold applyLearnedThresholds.
  destruct (Z.ltb_spec (InboxLearningMetrics.totalFeedback m) 5); [reflexivity|].
  destruct (Z.ltb_spec (InboxLearningMetrics.confidenceLevel m) 30); [reflexivity|lia].
Qed.

(** [shouldApplyLearning] is the condition under which the threshold stage
    filters at all. *)
Lemma applyLearnedThresholds_without_learning
    (results : list SearchResult.t) (metrics : option InboxLearningMetrics.t) :
  shouldApplyLearning metrics = false ->
  applyLearnedThresholds results metrics = results.
Proof.
  destruct metrics as [m|]; [|reflexivity].
  unfold shouldApplyLearning. rewrite andb_false_iff, !Z.leb_gt.
  intros H. apply applyLearnedThresholds_closed. exact H.
Qed.

(** *** The final sort *)

Lemma insert_by_score_perm (r : SearchResult.t) (l : list SearchResult.t) :
  Permutation (insert_by_score r l) (r :: l).
Proof.
  induction l as [|x l IH]; simpl; [reflexivity|].
  destruct (number_ltb _ _); [|reflexivity].
  rewrite IH. apply perm_swap.
Qed.

Lemma sort_by_score_perm (l : list SearchResult.t) :
  Permutation (sort_by_score l) l.
Proof.
  induction l as [|x l IH]; simpl; [reflexivity|].
  rewrite insert_by_score_perm. now constructor.
Qed.

Lemma numeric_score (r : SearchResult.t) :
  numeric r -> exists z, SearchResult.matchScore r = Num z.
Proof. unfold numeric. destruct (SearchResult.matchScore r); [eauto | tauto]. Qed.

Lemma insert_by_score_sorted (r : SearchResult.t) (l : list SearchResult.t) :
  numeric r -> Forall numeric l ->
  StronglySorted score_ge l -> StronglySorted score_ge (insert_by_score r l).
Proof.
  intros Nr Nl. induction 1 as [|x l S IH F]; simpl.
  - repeat constructor.
  - apply Forall_cons in Nl as [Nx Nl].
    destruct (numeric_score r Nr) as [a Ea], (numeric_score x Nx) as [b Eb].
    rewrite Ea, Eb. simpl.
    destruct (Z.ltb_spec a b) as [L|G].
    + constructor; [now apply IH|].
      rewrite insert_by_score_perm. constructor; [|exact F].
      exists b, a. split; [exact Eb|]. split; [exact Ea|]. lia.
    + constructor; [now constructor|].
      constructor; [exists a, b; split; [exact Ea|]; split; [exact Eb|]; lia|].
      eapply Forall_impl; [exact F|].
      intros y (b' & c & Eb' & Ec & Le). exists a, c.
      split; [exact Ea|]. split; [exact Ec|].
      rewrite Eb in Eb'. injection Eb' as <-. lia.
Qed.

Lemma sort_by_score_sorted (l : list SearchResult.t) :
  Forall numeric l -> StronglySorted score_ge (sort_by_score l).
Proof.
  induction 1 as [|x l Nx Nl IH]; simpl; [constructor|].
  apply insert_by_score_sorted; [exact Nx | | exact IH].
  now rewrite sort_by_score_perm.
Qed.

Lemma sort_by_score_already_sorted (l : list SearchResult.t) :
  StronglySorted score_ge l -> sort_by_score l = l.
Proof.
  induction 1 as [|x l S IH F]; simpl; [reflexivity|].
  rewrite IH. destruct F as [|y l' Hy _]; simpl; [reflexivity|].
  destruct Hy as (a & b & -> & -> & Le). simpl.
  destruct (Z.ltb_spec a b); [lia|]. reflexivity.
Qed.

(** *** The pipeline under an analyzer policy *)




Example ten_saves_drop_low_result :
  applyLearning [high_result; low_result]
    (Some (metricsOfFeedback "inbox-1" (stored ten_saves) 0%N 0%N))
  = [high_result].
Proof. vm_compute. reflexivity. Qed.

Example six_saves_drop_low_result :
  applyLearning [low_result] (Some (metricsOfFeedback "inbox-1" six_saves 0%N 0%N)) = [].
Proof. vm_compute. reflexivity. Qed.

(** ** Writing the policy of an inbox *)

Lemma updateInbox_spec id updates w :
  updateInbox id updates w
  = if inboxDB_fails w then (Resolved None, w)
    else match inboxesStore w !! id with
         | None => (Resolved None, w)
         | Some inbox =>
           let updated :=
             with_updatedAt (clock w (ticks w)) (fold_left assign_inbox updates inbox) in
           (Resolved (Some updated),
            with_inboxes (<[Inbox.id updated := updated]> (inboxesStore w))
                         (with_ticks (S (ticks w)) w))
         end.
Proof.
  unfold updateInbox, initInboxDB. io_unfold.
  destruct (inboxDB_fails w); [reflexivity|].
  destruct (inboxesStore w !! id); reflexivity.
Qed.

Lemma updateInboxLearning_resolves inboxId w :
  outcome (updateInboxLearning inboxId) w
  = Resolved (metricsOfFeedback inboxId (ledger_read w inboxId)
                                (clock w (ticks w)) (clock w (S (ticks w)))).
Proof.
  unfold outcome, updateInboxLearning.
  unfold mbind at 1, IO_bind, try_catch.
  rewrite analyzeFeedbackPatterns_spec.
  unfold mbind, IO_bind. rewrite updateInbox_spec.
  destruct (inboxDB_fails _); [reflexivity|].
  destruct (inboxesStore _ !! inboxId); reflexivity.
Qed.

(** ** Determinism of the analyzer *)

Lemma without_timestamps_metricsOfFeedback inboxId ledger t1 t2 t1' t2' :
  without_timestamps (metricsOfFeedback inboxId ledger t1 t2)
  = without_timestamps (metricsOfFeedback inboxId ledger t1' t2').
Proof.
  unfold metricsOfFeedback. now destruct (length ledger =? 0)%nat.
Qed.

(** C3, as stated, fails: two runs of the analyzer over the same ledger, one
    right after the other, return different policies, because each run stamps
    [lastAdjustment] and [lastUpdated] with the clock.  Nor is the ledger all
    a run depends on besides: over the same store, a run that cannot open the
    feedback database returns a policy that differs in more than the
    timestamps. *)
Lemma C3_counterexample_two_runs_differ :
  let first := analyzeFeedbackPatterns "inbox-1" world0 in
  let second := analyzeFeedbackPatterns "inbox-1" (snd first) in
  feedbackStore (snd first) = feedbackStore world0
  /\ fst first <> fst second
  /\ feedbackStore world_ledger_down = feedbackStore (world_with scenario_B)
  /\ exists p p',
       outcome (analyzeFeedbackPatterns "inbox-1") (world_with scenario_B) = Resolved p
       /\ outcome (analyzeFeedbackPatterns "inbox-1") world_ledger_down = Resolved p'
       /\ InboxLearningMetrics.totalFeedback p = 20
       /\ InboxLearningMetrics.totalFeedback p' = 0.
Proof.
  cbv zeta. split; [reflexivity|]. split.
  - rewrite !analyzeFeedbackPatterns_spec. cbn [fst snd].
    intros H.
    apply (f_equal (fun o => match o with
                             | Resolved p => InboxLearningMetrics.lastUpdated p
                             | Rejected _ => 0%N
                             end)) in H.
    vm_compute in H. discriminate.
  - split; [reflexivity|].
    unfold outcome. rewrite !analyzeFeedbackPatterns_spec. cbn [fst].
    eexists _, _. split; [reflexivity|]. split; [reflexivity|].
    split; vm_compute; reflexivity.
Qed.

(** C3, amended.  Two runs of the analyzer for one inbox, in two worlds whose
    stores hold the same events for that inbox and whose feedback database is
    available, both return a policy, and the two policies agree in every
    field except the timestamps [lastUpdated] and
    [thresholdAdjustments.lastAdjustment], which hold the clock readings of
    the run; the run leaves the ledger as it was. *)
Theorem C3_policy_determined_up_to_timestamps (inboxId : string) (w w' : World) :
  events_of inboxId w = events_of inboxId w' ->
  feedbackDB_fails w = false ->
  feedbackDB_fails w' = false ->
  exists p p',
    outcome (analyzeFeedbackPatterns inboxId) w = Resolved p
    /\ outcome (analyzeFeedbackPatterns inboxId) w' = Resolved p'
    /\ without_timestamps p = without_timestamps p'
    /\ InboxLearningMetrics.lastUpdated p = clock w (S (ticks w))
    /\ ThresholdAdjustments.lastAdjustment (InboxLearningMetrics.thresholdAdjustments p)
       = clock w (ticks w)
    /\ feedbackStore (run (analyzeFeedbackPatterns inboxId) w) = feedbackStore w.
Proof.
  intros He F F'.
  eexists _, _.
  split; [now apply analyzeFeedbackPatterns_reads_store|].
  split; [now apply analyzeFeedbackPatterns_reads_store|].
  rewrite He.
  split; [apply without_timestamps_metricsOfFeedback|].
  unfold run. rewrite analyzeFeedbackPatterns_spec. cbn [snd].
  unfold metricsOfFeedback.
  destruct (length (events_of inboxId w') =? 0)%nat; repeat split.
Qed.

Lemma C3_policy_determined_up_to_timestamps_witness :
  events_of "inbox-1" (world_with scenario_B)
  = events_of "inbox-1" (with_ticks 7 (world_with (scenario_B ++ [foreign_event])))
  /\ feedbackDB_fails (world_with scenario_B) = false
  /\ feedbackDB_fails (with_ticks 7 (world_with (scenario_B ++ [foreign_event]))) = false
  /\ exists p p',
    outcome (analyzeFeedbackPatterns "inbox-1") (world_with scenario_B) = Resolved p
    /\ outcome (analyzeFeedbackPatterns "inbox-1")
               (with_ticks 7 (world_with (scenario_B ++ [foreign_event]))) = Resolved p'
    /\ without_timestamps p = without_timestamps p'
    /\ InboxLearningMetrics.lastUpdated p
       = clock (world_with scenario_B) (S (ticks (world_with scenario_B)))
    /\ ThresholdAdjustments.lastAdjustment (InboxLearningMetrics.thresholdAdjustments p)
       = clock (world_with scenario_B) (ticks (world_with scenario_B))
    /\ feedbackStore (run (analyzeFeedbackPatterns "inbox-1") (world_with scenario_B))
       = feedbackStore (world_with scenario_B).
Proof.
  assert (E : events_of "inbox-1" (world_with scenario_B)
              = events_of "inbox-1" (with_ticks 7 (world_with (scenario_B ++ [foreign_event]))))
    by (vm_compute; reflexivity).
  split; [exact E|]. split; [reflexivity|]. split; [reflexivity|].
  exact (C3_policy_determined_up_to_timestamps "inbox-1" (world_with scenario_B)
           (with_ticks 7 (world_with (scenario_B ++ [foreign_event]))) E eq_refl eq_refl).
Defined.

(** ** Recomputing the policy of an inbox *)

(** [updateInboxLearning] never rejects: neither the analyzer nor
    [updateInbox] lets an error through. *)
Lemma updateInboxLearning_never_rejects inboxId w e :
  outcome (updateInboxLearning inboxId) w <> Rejected e.
Proof. rewrite updateInboxLearning_resolves. discriminate. Qed.

(** C8. The claim: when the ledger read fails during a recompute, the
    policy cached on the inbox is left unchanged.  The code: the inbox holds
    a policy learned from 20 events; the feedback database cannot be opened;
    [getFeedbackForInbox] swallows the error and returns no events, the
    analyzer resolves with the bootstrap policy, and [updateInboxLearning]
    writes it over the learned one. *)
Theorem C8_failed_ledger_read_overwrites_policy :
  let after := run (updateInboxLearning "inbox-1") world_ledger_down in
  feedbackDB_fails world_ledger_down = true
  /\ cachedPolicy world_ledger_down "inbox-1" = Some learned_policy
  /\ InboxLearningMetrics.totalFeedback learned_policy = 20
  /\ InboxLearningMetrics.minRelevanceScore learned_policy = 30
  /\ InboxLearningMetrics.maxIrrelevanceScore learned_policy = 95
  /\ cachedPolicy after "inbox-1"
     = Some (metricsOfFeedback "inbox-1" [] 1762000000000%N 1762000000001%N)
  /\ cachedPolicy after "inbox-1" <> cachedPolicy world_ledger_down "inbox-1".
Proof.
  cbv zeta.
  assert (A : cachedPolicy (run (updateInboxLearning "inbox-1") world_ledger_down) "inbox-1"
              = Some (metricsOfFeedback "inbox-1" [] 1762000000000%N 1762000000001%N))
    by (vm_compute; reflexivity).
  assert (B : cachedPolicy world_ledger_down "inbox-1" = Some learned_policy)
    by (vm_compute; reflexivity).
  repeat split; try assumption; try (vm_compute; reflexivity).
  rewrite A, B. intros H.
  apply (f_equal (fmap InboxLearningMetrics.totalFeedback)) in H.
  vm_compute in H. discriminate.
Qed.

(** Marking a contract as read records a view and recomputes nothing. *)
Lemma recordFeedback_keeps_inboxes inboxId contractId a s r d w :
  inboxesStore (run (recordFeedback inboxId contractId a s r d) w) = inboxesStore w.
Proof.
  unfold run, recordFeedback, initFeedbackDB. io_unfold. simpl.
  destruct (feedbackDB_fails w); reflexivity.
Qed.

Lemma updateContract_keeps_inboxes id updates w :
  inboxesStore (run (updateContract id updates) w) = inboxesStore w.
Proof.
  unfold run, updateContract, initContractDB. io_unfold.
  destruct (contractDB_fails w); [reflexivity|].
  destruct (contractsStore w !! id); reflexivity.
Qed.

Lemma markAsRead_keeps_inboxes id context w :
  inboxesStore (run (markAsRead id context) w) = inboxesStore w.
Proof.
  unfold run, markAsRead, markContractAsRead.
  unfold try_catch, mbind, IO_bind.
  pose proof (updateContract_keeps_inboxes id [Set_isUnread false; Set_isNew false] w) as U.
  unfold run in U.
  destruct (updateContract id [Set_isUnread false; Set_isNew false] w) as [[o|e] w1];
    simpl in U |- *; [|exact U].
  destruct (learning_context context) as [[inboxId matchScore]|]; simpl; [|exact U].
  pose proof (recordFeedback_keeps_inboxes inboxId id viewed matchScore None None w1) as R.
  unfold run in R.
  destruct (recordFeedback inboxId id viewed matchScore None None w1) as [[f|e] w2];
    simpl in R |- *; congruence.
Qed.

(** C5. The claim: a save, hide or view performed against the "All
    Contracts" inbox leaves its cached [learningMetrics] unchanged.  The
    code: the page passes the inbox and the score 100 as context, and
    [saveContract] and [hideContract] record the feedback and recompute the
    policy of whatever inbox the context names; the inbox that had no policy
    has one afterwards.  [handleGlobalThresholdChange] does test
    [isAllContractsInbox] and writes nothing. *)
Theorem C5_feedback_updates_all_contracts_policy :
  let saved_in := run (handleSaveContract all_contracts_page "contract-1") world0 in
  let hidden_in :=
    run (handleHideContract all_contracts_page "contract-1" (Some "Not relevant")) world0 in
  (Inbox.isAllContractsInbox <$> inboxesStore world0 !! "inbox-0") = Some (Some true)
  /\ cachedPolicy world0 "inbox-0" = None
  /\ cachedPolicy saved_in "inbox-0"
     = Some (metricsOfFeedback "inbox-0" (feedbackStore saved_in)
                               1762000000002%N 1762000000003%N)
  /\ (InboxLearningMetrics.totalFeedback <$> cachedPolicy saved_in "inbox-0") = Some 1
  /\ cachedPolicy hidden_in "inbox-0"
     = Some (metricsOfFeedback "inbox-0" (feedbackStore hidden_in)
                               1762000000003%N 1762000000004%N)
  /\ (InboxLearningMetrics.totalFeedback <$> cachedPolicy hidden_in "inbox-0") = Some 1
  /\ cachedPolicy (run (handleSelectContract all_contracts_page "contract-1") world0) "inbox-0"
     = None
  /\ cachedPolicy (run (handleGlobalThresholdChange all_contracts_page 40) world0) "inbox-0"
     = None.
Proof.
  cbv zeta. repeat split; vm_compute; reflexivity.
Qed.

(** C2. The claim: a recompute applies the controller to the live cutoff
    of the inbox, a user override included.  The code: the user sets the
    cutoff of the inbox to 40, which is stored in [dynamicMinScore]; the next
    save recomputes the policy from the constant 50 and stores 50, where the
    controller applied to the live cutoff 40 yields 40. *)
Theorem C2_recompute_discards_live_cutoff :
  let overridden := run (handleGlobalThresholdChange regular_page 40) world0 in
  let recomputed :=
    run (handleSaveContract (refreshed regular_page overridden) "contract-1") overridden in
  (InboxLearningMetrics.dynamicMinScore <$> cachedPolicy overridden "inbox-1") = Some 40
  /\ length (ledger_read recomputed "inbox-1") = 1%nat
  /\ (InboxLearningMetrics.dynamicMinScore <$> cachedPolicy recomputed "inbox-1") = Some 50
  /\ threshold (calculateDynamicThreshold (ledger_read recomputed "inbox-1") 40) = 40.
Proof.
  cbv zeta. repeat split; vm_compute; reflexivity.
Qed.

(** [handleWidenSearch], by contrast, starts from the cutoff stored on the
    inbox: after the same override to 40 it stores 30. *)
Example widen_search_starts_from_live_cutoff :
  let overridden := run (handleGlobalThresholdChange regular_page 40) world0 in
  let widened := run (handleWidenSearch (refreshed regular_page overridden)) overridden in
  (InboxLearningMetrics.dynamicMinScore <$> cachedPolicy widened "inbox-1") = Some 30.
Proof. vm_compute. reflexivity. Qed.

(** ** Hiding is per inbox *)

Lemma same_but_hidden_state_refl c : same_but_hidden_state c c.
Proof. now destruct c. Qed.

Lemma includes_app_other (l : list string) (x y : string) :
  x <> y -> includes (l ++ [x]) y = includes l y.
Proof.
  intros N. unfold includes. rewrite existsb_app. simpl.
  destruct (String.eqb_spec y x) as [E|_]; [congruence|].
  now rewrite !orb_false_r.
Qed.

Lemma includes_app_self (l : list string) (x : string) : includes (l ++ [x]) x = true.
Proof.
  unfold includes. rewrite existsb_app. simpl.
  rewrite String.eqb_refl. now rewrite orb_true_r.
Qed.

Lemma markContractAsHidden_spec id inboxId reason w :
  run (markContractAsHidden id inboxId reason) w
  = if contractDB_fails w then w
    else match contractsStore w !! id with
         | None => w
         | Some contract =>
           let hiddenInInboxes :=
             if negb (includes (Contract.hiddenInInboxes contract) inboxId)
             then Contract.hiddenInInboxes contract ++ [inboxId]
             else Contract.hiddenInInboxes contract in
           let hiddenMetadata :=
             <[inboxId := HiddenMeta.mk None (clock w (ticks w)) reason]>
               (default ∅ (Contract.hiddenMetadata contract)) in
           let updated :=
             fold_left assign_contract
                       [Set_hiddenInInboxes hiddenInInboxes;
                        Set_hiddenMetadata (Some hiddenMetadata)] contract in
           with_contracts (<[Contract.id updated := updated]> (contractsStore w))
                          (with_ticks (S (ticks w)) w)
         end.
Proof.
  unfold run, markContractAsHidden, getContractById, updateContract, initContractDB.
  io_unfold. simpl.
  destruct (contractDB_fails w) eqn:F; [reflexivity|].
  destruct (contractsStore w !! id) as [contract|] eqn:L; simpl; [|reflexivity].
  rewrite F. simpl. rewrite L. reflexivity.
Qed.

(** C9. Hiding a contract in inbox [X] changes only that contract's hidden
    state for [X]: every contract of the store is still there and, for every
    other inbox [Y], is hidden in [Y] exactly if it was, holds the same
    metadata for [Y], and has all its other fields unchanged; the hidden
    contract is, if the database is available, hidden in [X]. *)
Theorem C9_hiding_is_per_inbox
    (w : World) (id X : string) (reason : option string)
    (Y k : string) (c : Contract.t) :
  keyed_by_id w ->
  X <> Y ->
  contractsStore w !! k = Some c ->
  exists c',
    contractsStore (run (markContractAsHidden id X reason) w) !! k = Some c'
    /\ includes (Contract.hiddenInInboxes c') Y = includes (Contract.hiddenInInboxes c) Y
    /\ metadata_for c' Y = metadata_for c Y
    /\ same_but_hidden_state c c'
    /\ (k <> id -> c' = c)
    /\ (k = id -> contractDB_fails w = false ->
        includes (Contract.hiddenInInboxes c') X = true).
Proof.
  intros K N L.
  assert (Same : exists c',
             contractsStore w !! k = Some c' /\
             includes (Contract.hiddenInInboxes c') Y = includes (Contract.hiddenInInboxes c) Y /\
             metadata_for c' Y = metadata_for c Y /\
             same_but_hidden_state c c' /\ c' = c).
  { exists c. repeat split; try assumption. apply same_but_hidden_state_refl. }
  rewrite markContractAsHidden_spec.
  destruct (contractDB_fails w) eqn:F.
  { destruct Same as (c' & ? & ? & ? & ? & ?). exists c'.
    repeat split; try assumption; [congruence | discriminate]. }
  destruct (contractsStore w !! id) as [contract|] eqn:Lid.
  2:{ destruct Same as (c' & ? & ? & ? & ? & ?). exists c'.
      repeat split; try assumption; [congruence | intros ->; congruence]. }
  cbv zeta.
  set (updated := fold_left assign_contract _ contract).
  assert (Hid : Contract.id updated = id) by (apply (K _ _ Lid)).
  rewrite Hid. simpl.
  destruct (decide (k = id)) as [->|Nk].
  - rewrite lookup_insert_eq. assert (contract = c) as -> by congruence.
    exists updated. split; [reflexivity|].
    subst updated. simpl. unfold metadata_for. simpl.
    split; [|split; [|split; [|split]]].
    + destruct (includes (Contract.hiddenInInboxes c) X); simpl; [reflexivity|].
      now apply includes_app_other.
    + rewrite lookup_insert_ne by assumption.
      destruct (Contract.hiddenMetadata c); [reflexivity | apply lookup_empty].
    + reflexivity.
    + congruence.
    + intros _ _.
      destruct (includes (Contract.hiddenInInboxes c) X) eqn:I; simpl;
        [exact I | apply includes_app_self].
  - rewrite lookup_insert_ne by congruence.
    destruct Same as (c' & ? & ? & ? & ? & ?). exists c'.
    repeat split; try assumption; congruence.
Qed.

Lemma C9_hiding_is_per_inbox_witness :
  keyed_by_id world_hidden_elsewhere
  /\ "inbox-1" <> "inbox-7"
  /\ contractsStore world_hidden_elsewhere !! "contract-1" = Some hidden_elsewhere
  /\ exists c',
    contractsStore (run (markContractAsHidden "contract-1" "inbox-1" (Some "Too small"))
                        world_hidden_elsewhere) !! "contract-1" = Some c'
    /\ includes (Contract.hiddenInInboxes c') "inbox-7"
       = includes (Contract.hiddenInInboxes hidden_elsewhere) "inbox-7"
    /\ metadata_for c' "inbox-7" = metadata_for hidden_elsewhere "inbox-7"
    /\ same_but_hidden_state hidden_elsewhere c'
    /\ ("contract-1" <> "contract-1" -> c' = hidden_elsewhere)
    /\ ("contract-1" = "contract-1" -> contractDB_fails world_hidden_elsewhere = false ->
        includes (Contract.hiddenInInboxes c') "inbox-1" = true).
Proof.
  assert (K : keyed_by_id world_hidden_elsewhere).
  { intros k c. unfold world_hidden_elsewhere. simpl.
    destruct (decide (k = "contract-1")) as [->|Nk].
    - rewrite lookup_singleton_eq. intros [= <-]. reflexivity.
    - rewrite lookup_singleton_ne by congruence. discriminate. }
  assert (N : "inbox-1" <> "inbox-7") by discriminate.
  assert (L : contractsStore world_hidden_elsewhere !! "contract-1" = Some hidden_elsewhere)
    by (vm_compute; reflexivity).
  split; [exact K|]. split; [exact N|]. split; [exact L|].
  exact (C9_hiding_is_per_inbox world_hidden_elsewhere "contract-1" "inbox-1"
           (Some "Too small") "inbox-7" "contract-1" hidden_elsewhere K N L).
Defined.

Example hidden_in_both_inboxes :
  (Contract.hiddenInInboxes
     <$> contractsStore (run (markContractAsHidden "contract-1" "inbox-1" (Some "Too small"))
                             world_hidden_elsewhere) !! "contract-1")
  = Some ["inbox-7"; "inbox-1"].
Proof. vm_compute. reflexivity. Qed.

(** ** The analyzer learns no boosts *)




(** * Further properties of the code *)

(** ** The stages of the ranking pipeline, for any policy *)

Lemma List_filter_sublist {A} (f : A -> bool) (l : list A) :
  sublist (List.filter f l) l.
Proof.
  induction l as [|x l IH]; simpl; [constructor|].
  destruct (f x); now constructor.
Qed.

(** X1. The threshold stage only removes results: for every policy, present
    or absent, its output is a sublist of its input (same results, same
    order, scores untouched), and a result it keeps when it filters has a
    score that lies inside the band of the policy, or no number for a score:
    a result whose score is [NaN] is never removed. *)
Theorem applyLearnedThresholds_only_removes
    (results : list SearchResult.t) (metrics : option InboxLearningMetrics.t) :
  sublist (applyLearnedThresholds results metrics) results
  /\ (forall m r z, metrics = Some m ->
      shouldApplyLearning metrics = true ->
      In r (applyLearnedThresholds results metrics) ->
      SearchResult.matchScore r = Num z ->
      InboxLearningMetrics.minRelevanceScore m <= z
        <= InboxLearningMetrics.maxIrrelevanceScore m)
  /\ (forall r, In r results -> SearchResult.matchScore r = NaN ->
      In r (applyLearnedThresholds results metrics)).
Proof.
  split; [|split].
  - unfold applyLearnedThresholds. destruct metrics as [m|]; [|reflexivity].
    destruct (_ <? 5); [reflexivity|]. destruct (_ <? 30); [reflexivity|].
    apply List_filter_sublist.
  - intros m r z -> S I E. unfold shouldApplyLearning in S.
    apply andb_true_iff in S as [T C]. apply Z.leb_le in T, C.
    rewrite applyLearnedThresholds_open in I by assumption.
    apply list_elem_of_In, list_elem_of_filter in I as [B _].
    unfold in_band in B. rewrite E in B. simpl in B. lia.
  - intros r I E. unfold applyLearnedThresholds. destruct metrics as [m|]; [|exact I].
    destruct (_ <? 5); [exact I|]. destruct (_ <? 30); [exact I|].
    apply filter_In. split; [exact I|]. now rewrite E.
Qed.

Lemma applyLearnedThresholds_only_removes_witness :
  shouldApplyLearning (Some (metricsOfFeedback "inbox-1" six_saves 0%N 0%N)) = true
  /\ In high_result
        (applyLearnedThresholds [high_result; low_result]
           (Some (metricsOfFeedback "inbox-1" six_saves 0%N 0%N)))
  /\ SearchResult.matchScore high_result = Num 87
  /\ InboxLearningMetrics.minRelevanceScore (metricsOfFeedback "inbox-1" six_saves 0%N 0%N)
     <= 87
     <= InboxLearningMetrics.maxIrrelevanceScore (metricsOfFeedback "inbox-1" six_saves 0%N 0%N).
Proof.
  assert (S : shouldApplyLearning (Some (metricsOfFeedback "inbox-1" six_saves 0%N 0%N)) = true)
    by (vm_compute; reflexivity).
  assert (I : In high_result
                 (applyLearnedThresholds [high_result; low_result]
                    (Some (metricsOfFeedback "inbox-1" six_saves 0%N 0%N))))
    by (vm_compute; left; reflexivity).
  split; [exact S|]. split; [exact I|]. split; [reflexivity|].
  exact (proj1 (proj2 (applyLearnedThresholds_only_removes [high_result; low_result]
                  (Some (metricsOfFeedback "inbox-1" six_saves 0%N 0%N))))
               _ _ _ eq_refl S I eq_refl).
Defined.



Example boosts_are_added :
  map SearchResult.matchScore
      (applyLearnedBoosts [high_result; low_result; inherited_result] (Some boosting_policy))
  = [Num 92; Num 15; NaN].
Proof. vm_compute. reflexivity. Qed.

Lemma applyLearnedBoosts_numeric
    (results : list SearchResult.t) (m : InboxLearningMetrics.t) :
  Forall (fun r => numeric r /\ ~ reaches_prototype m r) results ->
  Forall numeric (applyLearnedBoosts results (Some m)).
Proof.
  intros H. unfold applyLearnedBoosts.
  destruct (_ <? 10); [eapply Forall_impl; [exact H | now intros r [N _]]|].
  destruct (_ <? 50); [eapply Forall_impl; [exact H | now intros r [N _]]|].
  induction H as [|r results [Nr Pr] H IH]; simpl; constructor; [|exact IH].
  unfold numeric. cbn [SearchResult.matchScore].
  rewrite boosted_score_closed_form. unfold clamped_boost.
  destruct (decide (reaches_prototype m r)); [tauto|].
  destruct (numeric_score r Nr) as [z ->]. discriminate.
Qed.

Lemma applyLearnedThresholds_numeric
    (results : list SearchResult.t) (metrics : option InboxLearningMetrics.t) :
  Forall numeric results -> Forall numeric (applyLearnedThresholds results metrics).
Proof.
  intros H.
  assert (S : sublist (applyLearnedThresholds results metrics) results).
  { unfold applyLearnedThresholds. destruct metrics as [m|]; [|reflexivity].
    destruct (_ <? 5); [reflexivity|]. destruct (_ <? 30); [reflexivity|].
    apply List_filter_sublist. }
  rewrite List.Forall_forall in *. intros r I.
  apply H, list_elem_of_In. eapply elem_of_sublist; [|exact S].
  now apply list_elem_of_In.
Qed.

(** X3. With a policy present, [applyLearning] returns the results that
    survive the boost and threshold stages, all of them and no others; when
    every result has a number for a score and no lookup of the boost stage
    ends in [Object.prototype], they are ordered by descending score. *)
Theorem applyLearning_sorted_permutation
    (results : list SearchResult.t) (m : InboxLearningMetrics.t) :
  Permutation (applyLearning results (Some m))
    (applyLearnedThresholds (applyLearnedBoosts results (Some m)) (Some m))
  /\ (Forall (fun r => numeric r /\ ~ reaches_prototype m r) results ->
      StronglySorted score_ge (applyLearning results (Some m))).
Proof.
  unfold applyLearning. split; [apply sort_by_score_perm|].
  intros H. apply sort_by_score_sorted, applyLearnedThresholds_numeric.
  now apply applyLearnedBoosts_numeric.
Qed.

Lemma applyLearning_sorted_permutation_witness :
  Forall (fun r => numeric r /\ ~ reaches_prototype boosting_policy r)
         [low_result; high_result]
  /\ StronglySorted score_ge (applyLearning [low_result; high_result] (Some boosting_policy))
  /\ applyLearning [low_result; high_result] (Some boosting_policy)
     = [SearchResult.mk contract_1 (Num 92) None; SearchResult.mk contract_1 (Num 15) None].
Proof.
  assert (H : Forall (fun r => numeric r /\ ~ reaches_prototype boosting_policy r)
                     [low_result; high_result]).
  { repeat constructor; try discriminate;
      apply (bool_decide_unpack _); vm_compute; exact I. }
  split; [exact H|].
  split; [exact (proj2 (applyLearning_sorted_permutation _ _) H)|].
  vm_compute. reflexivity.
Defined.

Lemma applyLearnedBoosts_without_learning
    (results : list SearchResult.t) (metrics : option InboxLearningMetrics.t) :
  shouldApplyLearning metrics = false ->
  applyLearnedBoosts results metrics = results.
Proof.
  destruct metrics as [m|]; [|reflexivity].
  unfold shouldApplyLearning, applyLearnedBoosts.
  rewrite andb_false_iff, !Z.leb_gt. intros H.
  destruct (Z.ltb_spec (InboxLearningMetrics.totalFeedback m) 10); [reflexivity|].
  destruct (Z.ltb_spec (InboxLearningMetrics.confidenceLevel m) 50); [reflexivity|].
  lia.
Qed.

(** X4. Without a learning signal the pipeline is plain similarity search:
    when [shouldApplyLearning] is false (no policy, fewer than 5 feedback
    events, or confidence under 30), [applyLearning] returns a result list that
    is ordered by descending score, as the search returns it, unchanged. *)
Theorem applyLearning_without_signal
    (results : list SearchResult.t) (metrics : option InboxLearningMetrics.t) :
  shouldApplyLearning metrics = false ->
  StronglySorted score_ge results ->
  applyLearning results metrics = results.
Proof.
  intros S O. unfold applyLearning.
  destruct metrics as [m|]; [|reflexivity].
  rewrite applyLearnedBoosts_without_learning by exact S.
  rewrite applyLearnedThresholds_without_learning by exact S.
  now apply sort_by_score_already_sorted.
Qed.

Lemma applyLearning_without_signal_witness :
  shouldApplyLearning (Some (metricsOfFeedback "inbox-1" five_saves 0%N 0%N)) = false
  /\ StronglySorted score_ge [high_result; low_result]
  /\ applyLearning [high_result; low_result]
       (Some (metricsOfFeedback "inbox-1" five_saves 0%N 0%N))
     = [high_result; low_result].
Proof.
  assert (S : shouldApplyLearning (Some (metricsOfFeedback "inbox-1" five_saves 0%N 0%N)) = false)
    by (vm_compute; reflexivity).
  assert (O : StronglySorted score_ge [high_result; low_result]).
  { repeat constructor. exists 87, 10. repeat split. lia. }
  split; [exact S|]. split; [exact O|].
  exact (applyLearning_without_signal _ _ S O).
Defined.

(** ** The controller's window *)

Lemma length_slice_last {A} (n : nat) (l : list A) :
  length (slice_last n l) = Nat.min n (length l).
Proof. unfold slice_last. rewrite length_drop. lia. Qed.

Lemma slice_last_slice_last {A} (n : nat) (l : list A) :
  slice_last n (slice_last n l) = slice_last n l.
Proof.
  unfold slice_last at 1. rewrite length_slice_last.
  replace (Nat.min n (length l) - n)%nat with 0%nat by lia. reflexivity.
Qed.

Lemma slice_last_app {A} (n : nat) (older recent : list A) :
  (n <= length recent)%nat ->
  slice_last n (older ++ recent) = slice_last n recent.
Proof.
  intros H. unfold slice_last. rewrite length_app.
  replace (length older + length recent - n)%nat
    with (length older + (length recent - n))%nat by lia.
  now rewrite drop_app_add.
Qed.

Lemma calculateDynamicThreshold_slice
    (feedbackEvents : list UserFeedback.t) (currentThreshold : Z) :
  (10 <= length feedbackEvents)%nat ->
  calculateDynamicThreshold feedbackEvents currentThreshold
  = calculateDynamicThreshold (slice_last 20 feedbackEvents) currentThreshold.
Proof.
  intros H.
  assert (R : recentSaves (slice_last 20 feedbackEvents) = recentSaves feedbackEvents)
    by (unfold recentSaves; now rewrite slice_last_slice_last).
  assert (Hd : recentHides (slice_last 20 feedbackEvents) = recentHides feedbackEvents)
    by (unfold recentHides; now rewrite slice_last_slice_last).
  assert (L : forall c, lowScoreSaves (slice_last 20 feedbackEvents) c
                        = lowScoreSaves feedbackEvents c)
    by (intros c; unfold lowScoreSaves; now rewrite R).
  unfold calculateDynamicThreshold.
  rewrite length_slice_last, R, Hd, L.
  destruct (Nat.ltb_spec (length feedbackEvents) 10); [lia|].
  destruct (Nat.ltb_spec (Nat.min 20 (length feedbackEvents)) 10); [lia|].
  reflexivity.
Qed.

(** X5. The controller looks at the 20 most recent events only.  For a
    history of 10 events or more its answer (the threshold and the reason) is
    its answer on the last 20 events of the history; and once a history has
    20 events, events put before them change nothing.  (Before a history of
    10 to 19 events they can: they enter the window.) *)
Theorem calculateDynamicThreshold_window
    (older recent : list UserFeedback.t) (currentThreshold : Z) :
  ((10 <= length recent)%nat ->
   calculateDynamicThreshold recent currentThreshold
   = calculateDynamicThreshold (slice_last 20 recent) currentThreshold)
  /\ ((20 <= length recent)%nat ->
      calculateDynamicThreshold (older ++ recent) currentThreshold
      = calculateDynamicThreshold recent currentThreshold).
Proof.
  split; [apply calculateDynamicThreshold_slice|].
  intros H.
  rewrite (calculateDynamicThreshold_slice (older ++ recent))
    by (rewrite length_app; lia).
  rewrite (calculateDynamicThreshold_slice recent) by lia.
  now rewrite slice_last_app.
Qed.

Lemma calculateDynamicThreshold_window_witness :
  (20 <= length scenario_B)%nat
  /\ calculateDynamicThreshold (scenario_D ++ scenario_B) 50
     = calculateDynamicThreshold scenario_B 50.
Proof.
  assert (H : (20 <= length scenario_B)%nat) by (vm_compute; lia).
  split; [exact H|].
  exact (proj2 (calculateDynamicThreshold_window scenario_D scenario_B 50) H).
Defined.

(** Ten hides raise the cutoff to 60; with ten older saves before them all
    twenty events are in the window and the cutoff stays at 50. *)
Example older_events_enter_a_short_window :
  threshold (calculateDynamicThreshold (map (event hidden) [55; 55; 55; 55; 55; 55; 55; 55; 55; 55]) 50)
  = 60
  /\ threshold (calculateDynamicThreshold
                  (map (event saved) [90; 90; 90; 90; 90; 90; 90; 90; 90; 90]
                   ++ map (event hidden) [55; 55; 55; 55; 55; 55; 55; 55; 55; 55]) 50)
     = 50.
Proof. split; vm_compute; reflexivity. Qed.

(** ** The policies the analyzer can produce *)

(** X6. The live cutoff of an analyzer policy is 30, 40, 50 or 60, whatever
    the ledger: 30 on an empty ledger, else the controller's step from the
    constant 50.  The adjustment counters are not cumulative: [expandedCount]
    is 1 exactly when the cutoff is 40 and 0 otherwise, [narrowedCount] is 1
    exactly when the cutoff is 60 and 0 otherwise. *)
Theorem analyzer_cutoff_values
    (inboxId : string) (ledger : list UserFeedback.t) (t1 t2 : Timestamp) :
  let policy := metricsOfFeedback inboxId ledger t1 t2 in
  let cutoff := InboxLearningMetrics.dynamicMinScore policy in
  let adjustments := InboxLearningMetrics.thresholdAdjustments policy in
  (cutoff = 30 \/ cutoff = 40 \/ cutoff = 50 \/ cutoff = 60)
  /\ (cutoff = 30 <-> ledger = [])
  /\ ThresholdAdjustments.expandedCount adjustments = (if cutoff =? 40 then 1 else 0)
  /\ ThresholdAdjustments.narrowedCount adjustments = (if cutoff =? 60 then 1 else 0).
Proof.
  cbv zeta. unfold metricsOfFeedback.
  destruct ledger as [|f ledger]; simpl length; cbn [Nat.eqb];
    cbn [InboxLearningMetrics.dynamicMinScore InboxLearningMetrics.thresholdAdjustments
         ThresholdAdjustments.expandedCount ThresholdAdjustments.narrowedCount].
  { repeat split; auto. }
  set (l := f :: ledger).
  assert (V : threshold (calculateDynamicThreshold l 50) = 40
              \/ threshold (calculateDynamicThreshold l 50) = 50
              \/ threshold (calculateDynamicThreshold l 50) = 60).
  { destruct (Nat.lt_ge_cases (length l) 10) as [S|G].
    - rewrite threshold_short_history by assumption. simpl. auto.
    - rewrite threshold_long_history by assumption.
      destruct (narrow_fires l); [|destruct (expand_fires l 50)]; simpl; auto. }
  destruct V as [-> | [-> | ->]]; simpl; repeat split; auto; try discriminate.
Qed.

(** *** The learned band *)

(** X7. For a ledger whose scores lie within [0,100], the band of the
    derived policy is sound for the events it was learned from: no saved
    score is below [minRelevanceScore], no hidden score is above
    [maxIrrelevanceScore] (a result scoring like a hidden contract still
    passes the ceiling), and 0 <= minRelevanceScore <= 90,
    5 <= maxIrrelevanceScore <= 100. *)
Theorem learned_band_covers_its_evidence
    (inboxId : string) (ledger : list UserFeedback.t) (t1 t2 : Timestamp) :
  Forall (fun f => 0 <= UserFeedback.matchScore f <= 100) ledger ->
  let policy := metricsOfFeedback inboxId ledger t1 t2 in
  (forall f, In f ledger -> UserFeedback.action f = saved ->
             InboxLearningMetrics.minRelevanceScore policy <= UserFeedback.matchScore f)
  /\ (forall f, In f ledger -> UserFeedback.action f = hidden ->
                UserFeedback.matchScore f <= InboxLearningMetrics.maxIrrelevanceScore policy)
  /\ 0 <= InboxLearningMetrics.minRelevanceScore policy <= 90
  /\ 5 <= InboxLearningMetrics.maxIrrelevanceScore policy <= 100.
Proof.
  intros V policy. unfold policy. autorewrite with policy_fields.
  rewrite List.Forall_forall in V.
  assert (VS : forall a s, In s (scores_of a ledger) -> 0 <= s <= 100).
  { intros a s I. unfold scores_of in I.
    apply in_map_iff in I as (f & <- & I). apply filter_In in I as [I _]. now apply V. }
  split; [|split; [|split]].
  - intros f I A. pose proof (in_scores_of saved ledger f I A) as S.
    pose proof (V f I) as Vf.
    destruct (scores_of saved ledger) as [|s rest]; [destruct S|].
    destruct (Math_min_of_lowest s rest) as [_ Lo].
    rewrite List.Forall_forall in Lo. specialize (Lo _ S). lia.
  - intros f I A. pose proof (in_scores_of hidden ledger f I A) as S.
    pose proof (V f I) as Vf.
    destruct (scores_of hidden ledger) as [|s rest]; [destruct S|].
    destruct (Math_max_of_highest s rest) as [_ Hi].
    rewrite List.Forall_forall in Hi. specialize (Hi _ S). lia.
  - destruct (scores_of saved ledger) as [|s rest] eqn:E; [lia|].
    destruct (Math_min_of_lowest s rest) as [_ Lo].
    apply Forall_inv in Lo.
    assert (0 <= s <= 100) by (apply (VS saved); rewrite E; now left). lia.
  - destruct (scores_of hidden ledger) as [|s rest] eqn:E; [lia|].
    destruct (Math_max_of_highest s rest) as [_ Hi].
    apply Forall_inv in Hi.
    assert (0 <= s <= 100) by (apply (VS hidden); rewrite E; now left). lia.
Qed.

Lemma learned_band_covers_its_evidence_witness :
  Forall (fun f => 0 <= UserFeedback.matchScore f <= 100) scenario_B
  /\ 0 <= InboxLearningMetrics.minRelevanceScore (metricsOfFeedback "inbox-1" scenario_B 0%N 0%N) <= 90
  /\ 5 <= InboxLearningMetrics.maxIrrelevanceScore (metricsOfFeedback "inbox-1" scenario_B 0%N 0%N) <= 100.
Proof.
  assert (V : Forall (fun f => 0 <= UserFeedback.matchScore f <= 100) scenario_B).
  { unfold scenario_B. apply Forall_app. split; repeat constructor; simpl; lia. }
  split; [exact V|].
  exact (proj2 (proj2 (learned_band_covers_its_evidence "inbox-1" scenario_B 0%N 0%N V))).
Defined.

Lemma sort_by_score_In (l : list SearchResult.t) (r : SearchResult.t) :
  In r (sort_by_score l) <-> In r l.
Proof.
  rewrite <- !list_elem_of_In. now rewrite (sort_by_score_perm l).
Qed.



(** Among ten polarised events a result whose buyer is called "constructor"
    is the only one that comes through. *)
Example inherited_name_passes_the_empty_band :
  map SearchResult.matchScore
    (applyLearning [high_result; inherited_result; low_result]
       (Some (metricsOfFeedback "inbox-1"
                (saves_high_hides_low ++ map (event viewed) [50; 50; 50]) 0%N 0%N)))
  = [NaN].
Proof. vm_compute. reflexivity. Qed.

(** ** The feedback ledger *)

Lemma put_feedback_other (q : UserFeedback.t -> bool) (f : UserFeedback.t)
    (store : list UserFeedback.t) :
  fresh_key (UserFeedback.id f) store ->
  q f = false ->
  List.filter q (put_feedback f store) = List.filter q store.
Proof.
  intros Fr Q. induction store as [|g rest IH]; simpl.
  - now rewrite Q.
  - destruct (String.compare (UserFeedback.id f) (UserFeedback.id g)) eqn:C.
    + apply String.compare_eq_iff in C. exfalso.
      apply (Fr g); [now left | congruence].
    + simpl. now rewrite Q.
    + simpl. rewrite IH; [reflexivity|].
      intros h I. apply Fr. now right.
Qed.

Lemma put_feedback_same (q : UserFeedback.t -> bool) (f : UserFeedback.t)
    (store : list UserFeedback.t) :
  fresh_key (UserFeedback.id f) store ->
  q f = true ->
  Permutation (List.filter q (put_feedback f store)) (f :: List.filter q store).
Proof.
  intros Fr Q. induction store as [|g rest IH]; simpl.
  - now rewrite Q.
  - destruct (String.compare (UserFeedback.id f) (UserFeedback.id g)) eqn:C.
    + apply String.compare_eq_iff in C. exfalso.
      apply (Fr g); [now left | congruence].
    + simpl. now rewrite Q.
    + simpl. assert (IH' := IH (fun h I => Fr h (or_intror I))).
      destruct (q g); [|exact IH'].
      rewrite IH'. apply perm_swap.
Qed.

Lemma recordFeedback_spec inboxId contractId a s r d w :
  feedbackDB_fails w = false ->
  recordFeedback inboxId contractId a s r d w
  = (Resolved (recorded w inboxId contractId a s r d),
     with_feedback
       (put_feedback (recorded w inboxId contractId a s r d) (feedbackStore w))
       (with_ticks (S (S (ticks w))) (with_draws (S (draws w)) w))).
Proof.
  intros F. unfold recordFeedback, initFeedbackDB, recorded. io_unfold. simpl.
  rewrite F. reflexivity.
Qed.

Lemma recordFeedback_rejects inboxId contractId a s r d w :
  feedbackDB_fails w = true ->
  recordFeedback inboxId contractId a s r d w
  = (Rejected "feedback-storage",
     with_ticks (S (S (ticks w))) (with_draws (S (draws w)) w)).
Proof.
  intros F. unfold recordFeedback, initFeedbackDB. io_unfold. simpl.
  rewrite F. reflexivity.
Qed.

Lemma action_count_value (a : Action) (inboxId : string) (ledger : list UserFeedback.t)
    (t1 t2 : Timestamp) :
  let policy := metricsOfFeedback inboxId ledger t1 t2 in
  match a with
  | saved => InboxLearningMetrics.savedContracts policy
  | hidden => InboxLearningMetrics.hiddenContracts policy
  | viewed => InboxLearningMetrics.viewedContracts policy
  | ignored => count_action ignored ledger
  end = count_action a ledger.
Proof.
  cbv zeta. unfold metricsOfFeedback.
  destruct ledger; destruct a; reflexivity.
Qed.

Lemma count_action_cons (a : Action) (f : UserFeedback.t) (l : list UserFeedback.t) :
  count_action a (f :: l) = count_action a l + one_if (UserFeedback.action f) a.
Proof.
  unfold count_action, one_if, has_action. simpl.
  destruct (bool_decide (UserFeedback.action f = a)); simpl length; lia.
Qed.

Lemma count_action_perm (a : Action) (l l' : list UserFeedback.t) :
  Permutation l l' -> count_action a l = count_action a l'.
Proof.
  intros P. unfold count_action. f_equal.
  rewrite !(List_filter_reflect _ (fun f => UserFeedback.action f = a))
    by (intros f; apply has_action_iff).
  apply Permutation_length. now apply filter_Permutation.
Qed.

(** X9. Recording an event under a key the store does not hold yet, with the
    feedback database available, shows in the next recompute of that inbox
    exactly once: [totalFeedback] grows by 1, the counter of the recorded
    action grows by 1 and the other two counters keep their value; the ledger
    of every other inbox is the same list as before. *)
Theorem recordFeedback_counted_once
    (w : World) (inboxId contractId : string) (a : Action) (s : Z)
    (r : option string) (d : option Z) (t1 t2 t1' t2' : Timestamp) (other : string) :
  feedbackDB_fails w = false ->
  fresh_key (UserFeedback.id (recorded w inboxId contractId a s r d)) (feedbackStore w) ->
  let w' := run (recordFeedback inboxId contractId a s r d) w in
  let before := metricsOfFeedback inboxId (ledger_read w inboxId) t1 t2 in
  let after := metricsOfFeedback inboxId (ledger_read w' inboxId) t1' t2' in
  outcome (recordFeedback inboxId contractId a s r d) w
    = Resolved (recorded w inboxId contractId a s r d)
  /\ InboxLearningMetrics.totalFeedback after
     = InboxLearningMetrics.totalFeedback before + 1
  /\ InboxLearningMetrics.savedContracts after
     = InboxLearningMetrics.savedContracts before + one_if a saved
  /\ InboxLearningMetrics.hiddenContracts after
     = InboxLearningMetrics.hiddenContracts before + one_if a hidden
  /\ InboxLearningMetrics.viewedContracts after
     = InboxLearningMetrics.viewedContracts before + one_if a viewed
  /\ (other <> inboxId -> ledger_read w' other = ledger_read w other).
Proof.
  intros F Fr. cbv zeta. unfold run, outcome.
  rewrite recordFeedback_spec by exact F. cbn [fst snd].
  set (f := recorded w inboxId contractId a s r d) in *.
  unfold ledger_read. simpl. rewrite F.
  assert (P : Permutation
                (List.filter (fun g => String.eqb (UserFeedback.inboxId g) inboxId)
                             (put_feedback f (feedbackStore w)))
                (f :: List.filter (fun g => String.eqb (UserFeedback.inboxId g) inboxId)
                                  (feedbackStore w))).
  { apply put_feedback_same; [exact Fr|]. simpl. apply String.eqb_refl. }
  split; [reflexivity|].
  split.
  { rewrite !totalFeedback_value. rewrite (Permutation_length P). simpl length. lia. }
  split.
  { rewrite (action_count_value saved), (action_count_value saved).
    rewrite (count_action_perm _ _ _ P), count_action_cons. reflexivity. }
  split.
  { rewrite (action_count_value hidden), (action_count_value hidden).
    rewrite (count_action_perm _ _ _ P), count_action_cons. reflexivity. }
  split.
  { rewrite (action_count_value viewed), (action_count_value viewed).
    rewrite (count_action_perm _ _ _ P), count_action_cons. reflexivity. }
  intros N. apply put_feedback_other; [exact Fr|].
  simpl. now apply String.eqb_neq.
Qed.

Lemma recordFeedback_counted_once_witness :
  feedbackDB_fails world0 = false
  /\ fresh_key (UserFeedback.id (recorded world0 "inbox-1" "contract-1" saved 80 None None))
               (feedbackStore world0)
  /\ InboxLearningMetrics.totalFeedback
       (metricsOfFeedback "inbox-1"
          (ledger_read (run (recordFeedback "inbox-1" "contract-1" saved 80 None None) world0)
                       "inbox-1") 0%N 0%N)
     = InboxLearningMetrics.totalFeedback
         (metricsOfFeedback "inbox-1" (ledger_read world0 "inbox-1") 0%N 0%N) + 1.
Proof.
  assert (F : feedbackDB_fails world0 = false) by reflexivity.
  assert (Fr : fresh_key
                 (UserFeedback.id (recorded world0 "inbox-1" "contract-1" saved 80 None None))
                 (feedbackStore world0)) by (intros g []).
  split; [exact F|]. split; [exact Fr|].
  exact (proj1 (proj2 (recordFeedback_counted_once world0 "inbox-1" "contract-1" saved 80
                         None None 0%N 0%N 0%N 0%N "inbox-0" F Fr))).
Defined.

Lemma updateContract_spec id updates w :
  updateContract id updates w
  = if contractDB_fails w then (Resolved None, w)
    else match contractsStore w !! id with
         | None => (Resolved None, w)
         | Some contract =>
           let updated := fold_left assign_contract updates contract in
           (Resolved (Some updated),
            with_contracts (<[Contract.id updated := updated]> (contractsStore w)) w)
         end.
Proof.
  unfold updateContract, initContractDB. io_unfold.
  destruct (contractDB_fails w); [reflexivity|].
  destruct (contractsStore w !! id); reflexivity.
Qed.

Lemma assign_contract_id (c : Contract.t) (updates : list ContractUpdate) :
  Contract.id (fold_left assign_contract updates c) = Contract.id c.
Proof.
  revert c. induction updates as [|u updates IH]; intros c; [reflexivity|].
  simpl. rewrite IH. now destruct u.
Qed.

(** X10. When the feedback database cannot be opened, saving a contract from
    an inbox still marks the contract as saved, and the error of
    [recordFeedback] is swallowed by the hook: the operation resolves, no
    event is recorded and no policy is recomputed, so the inboxes are as they
    were. *)
Theorem saveContract_without_feedback_database
    (w : World) (id : string) (c : Contract.t) (context : option Context.t) :
  feedbackDB_fails w = true ->
  contractDB_fails w = false ->
  keyed_by_id w ->
  contractsStore w !! id = Some c ->
  let w' := run (saveContract id context) w in
  outcome (saveContract id context) w = Resolved tt
  /\ contractsStore w' !! id = Some (assign_contract c (Set_isSaved true))
  /\ feedbackStore w' = feedbackStore w
  /\ inboxesStore w' = inboxesStore w.
Proof.
  intros FF CF K L. cbv zeta.
  assert (Hid : Contract.id (assign_contract c (Set_isSaved true)) = id)
    by (rewrite <- (K _ _ L); now destruct c).
  assert (R : exists w', saveContract id context w = (Resolved tt, w')
                /\ contractsStore w' = <[id := assign_contract c (Set_isSaved true)]> (contractsStore w)
                /\ feedbackStore w' = feedbackStore w
                /\ inboxesStore w' = inboxesStore w).
  { unfold saveContract, markContractAsSaved.
    unfold try_catch. unfold mbind at 1, IO_bind. unfold mbind at 1, IO_bind.
    rewrite updateContract_spec, CF, L. cbn [fold_left].
    rewrite Hid. unfold mret at 1, IO_ret.
    destruct (learning_context context) as [[inboxId matchScore]|].
    - unfold mbind, IO_bind.
      rewrite recordFeedback_rejects by exact FF.
      eexists. split; [reflexivity|]. repeat split.
    - eexists. split; [reflexivity|]. repeat split. }
  destruct R as (w' & E & C & Fb & Ib).
  unfold run, outcome. rewrite E. cbn [fst snd].
  rewrite C, lookup_insert_eq. repeat split; assumption.
Qed.

Lemma saveContract_without_feedback_database_witness :
  feedbackDB_fails world_feedback_down = true
  /\ contractDB_fails world_feedback_down = false
  /\ keyed_by_id world_feedback_down
  /\ contractsStore world_feedback_down !! "contract-1" = Some contract_1
  /\ outcome (saveContract "contract-1"
                (Some (Context.mk (Some "inbox-1") (Some 80)))) world_feedback_down
     = Resolved tt
  /\ inboxesStore (run (saveContract "contract-1"
                          (Some (Context.mk (Some "inbox-1") (Some 80)))) world_feedback_down)
     = inboxesStore world_feedback_down.
Proof.
  assert (K : keyed_by_id world_feedback_down).
  { intros k c. unfold world_feedback_down, world0. simpl.
    destruct (decide (k = "contract-1")) as [->|Nk].
    - rewrite lookup_singleton_eq. intros [= <-]. reflexivity.
    - rewrite lookup_singleton_ne by congruence. discriminate. }
  assert (L : contractsStore world_feedback_down !! "contract-1" = Some contract_1)
    by (vm_compute; reflexivity).
  pose proof (saveContract_without_feedback_database world_feedback_down "contract-1"
                contract_1 (Some (Context.mk (Some "inbox-1") (Some 80)))
                eq_refl eq_refl K L) as (O & _ & _ & I).
  split; [reflexivity|]. split; [reflexivity|]. split; [exact K|].
  split; [exact L|]. split; [exact O | exact I].
Defined.

(** *** Clearing the ledger of an inbox *)

Lemma fold_delete_feedback (feedback store : list UserFeedback.t) :
  fold_left (fun store f => delete_feedback (UserFeedback.id f) store) feedback store
  = List.filter
      (fun g => negb (existsb (fun f => String.eqb (UserFeedback.id g) (UserFeedback.id f))
                              feedback))
      store.
Proof.
  revert store. induction feedback as [|f feedback IH]; intros store; simpl.
  - induction store as [|g store IHs]; simpl; [reflexivity | now rewrite <- IHs].
  - rewrite IH. unfold delete_feedback. rewrite filter_filter_andb.
    apply filter_ext. intros g.
    destruct (String.eqb (UserFeedback.id g) (UserFeedback.id f)); simpl; [reflexivity|].
    reflexivity.
Qed.

Lemma NoDup_map_In_inj {A B} (f : A -> B) (l : list A) (x y : A) :
  NoDup (map f l) -> In x l -> In y l -> f x = f y -> x = y.
Proof.
  induction l as [|z l IH]; simpl; [intros _ []|].
  intros N Ix Iy E. apply NoDup_cons in N as [Nz N].
  destruct Ix as [->|Ix], Iy as [->|Iy].
  - reflexivity.
  - exfalso. apply Nz. rewrite E. apply list_elem_of_In. now apply in_map.
  - exfalso. apply Nz. rewrite <- E. apply list_elem_of_In. now apply in_map.
  - now apply IH.
Qed.

Lemma ledger_read_available (w : World) (inboxId : string) :
  feedbackDB_fails w = false ->
  ledger_read w inboxId
  = List.filter (fun f => String.eqb (UserFeedback.inboxId f) inboxId) (feedbackStore w).
Proof. intros F. unfold ledger_read. now rewrite F. Qed.

Lemma List_filter_none {A} (p : A -> bool) (l : list A) :
  (forall x, In x l -> p x = false) -> List.filter p l = [].
Proof.
  induction l as [|x l IH]; intros H; simpl; [reflexivity|].
  rewrite (H x) by now left. apply IH. intros y I. apply H. now right.
Qed.

Lemma clearInboxFeedback_spec (w : World) (inboxId : string) :
  feedbackDB_fails w = false ->
  clearInboxFeedback inboxId w
  = (Resolved tt,
     with_feedback
       (List.filter
          (fun g => negb (existsb
                            (fun f => String.eqb (UserFeedback.id g) (UserFeedback.id f))
                            (ledger_read w inboxId)))
          (feedbackStore w)) w).
Proof.
  intros F. unfold clearInboxFeedback, initFeedbackDB.
  unfold try_catch. unfold mbind at 1, IO_bind.
  unfold mbind at 1, IO_bind, get_world. rewrite F. unfold mret at 1, IO_ret.
  unfold mbind at 1, IO_bind. rewrite getFeedbackForInbox_spec.
  unfold mbind, IO_bind, modify_world, mret, IO_ret.
  now rewrite fold_delete_feedback.
Qed.

(** X11. Clearing the feedback of an inbox, with the database available and
    the keys of the store distinct, empties the ledger of that inbox and
    leaves the ledger of every other inbox the same list; the next recompute
    of the cleared inbox yields the bootstrap policy (no feedback, live
    cutoff 30). *)
Theorem clearInboxFeedback_clears_one_inbox
    (w : World) (inboxId other : string) (t1 t2 : Timestamp) :
  feedbackDB_fails w = false ->
  distinct_keys w ->
  let w' := run (clearInboxFeedback inboxId) w in
  outcome (clearInboxFeedback inboxId) w = Resolved tt
  /\ ledger_read w' inboxId = []
  /\ (other <> inboxId -> ledger_read w' other = ledger_read w other)
  /\ InboxLearningMetrics.totalFeedback
       (metricsOfFeedback inboxId (ledger_read w' inboxId) t1 t2) = 0
  /\ InboxLearningMetrics.dynamicMinScore
       (metricsOfFeedback inboxId (ledger_read w' inboxId) t1 t2) = 30.
Proof.
  intros F N. cbv zeta. unfold run, outcome.
  rewrite clearInboxFeedback_spec by exact F. cbn [fst snd].
  set (w' := with_feedback _ w).
  assert (F' : feedbackDB_fails w' = false) by exact F.
  assert (E : ledger_read w' inboxId = []).
  { rewrite ledger_read_available by exact F'. unfold w'. simpl.
    rewrite filter_filter_andb. apply List_filter_none. intros g I.
    destruct (String.eqb (UserFeedback.inboxId g) inboxId) eqn:Q;
      [|now rewrite andb_false_r].
    rewrite andb_true_r. apply negb_false_iff, existsb_exists.
    exists g. split; [|apply String.eqb_refl].
    rewrite ledger_read_available by exact F. apply filter_In. now split. }
  split; [reflexivity|]. split; [exact E|]. split.
  - intros O. rewrite !ledger_read_available by assumption. unfold w'. simpl.
    rewrite filter_filter_andb. apply filter_ext_in. intros g I.
    destruct (String.eqb (UserFeedback.inboxId g) other) eqn:Q;
      [|now rewrite andb_false_r].
    rewrite andb_true_r. apply negb_true_iff.
    destruct (existsb _ _) eqn:X; [|reflexivity]. exfalso.
    apply existsb_exists in X as (f & If & Eid).
    rewrite ledger_read_available in If by exact F.
    apply filter_In in If as [If Qf].
    apply String.eqb_eq in Eid, Q, Qf.
    assert (g = f) by (eapply (NoDup_map_In_inj UserFeedback.id); eauto).
    subst f. congruence.
  - rewrite E. split; reflexivity.
Qed.

Lemma clearInboxFeedback_clears_one_inbox_witness :
  feedbackDB_fails world_two_ledgers = false
  /\ distinct_keys world_two_ledgers
  /\ "inbox-0" <> "inbox-1"
  /\ ledger_read (run (clearInboxFeedback "inbox-1") world_two_ledgers) "inbox-1" = []
  /\ ledger_read (run (clearInboxFeedback "inbox-1") world_two_ledgers) "inbox-0"
     = ledger_read world_two_ledgers "inbox-0".
Proof.
  assert (F : feedbackDB_fails world_two_ledgers = false) by reflexivity.
  assert (N : distinct_keys world_two_ledgers).
  { unfold distinct_keys. apply NoDup_ListNoDup. vm_compute.
    repeat (constructor; [intros I; repeat (destruct I as [I|I]; [discriminate I|]); exact I|]).
    constructor. }
  assert (O : "inbox-0" <> "inbox-1") by discriminate.
  pose proof (clearInboxFeedback_clears_one_inbox world_two_ledgers "inbox-1" "inbox-0"
                0%N 0%N F N) as (_ & E & K & _).
  split; [exact F|]. split; [exact N|]. split; [exact O|].
  split; [exact E | exact (K O)].
Defined.

Example cleared_ledger_keeps_other_inbox :
  map UserFeedback.inboxId
      (feedbackStore (run (clearInboxFeedback "inbox-1") world_two_ledgers))
  = ["inbox-0"].
Proof. vm_compute. reflexivity. Qed.

(** *** Statistics of a ledger *)

Lemma Math_round_monotone (x y : Q) : (x <= y)%Q -> Math_round x <= Math_round y.
Proof.
  intros L. unfold Math_round. apply Qfloor_resp_le. now apply Qplus_le_l.
Qed.

Lemma sum_scores_bounds (l : list UserFeedback.t) (lo hi acc : Z) :
  Forall (fun f => lo <= UserFeedback.matchScore f <= hi) l ->
  acc + lo * Z.of_nat (length l)
  <= fold_left (fun sum f => sum + UserFeedback.matchScore f) l acc
  <= acc + hi * Z.of_nat (length l).
Proof.
  intros F. revert acc. induction F as [|f l Hf F IH]; intros acc.
  - simpl. lia.
  - cbn [fold_left]. specialize (IH (acc + UserFeedback.matchScore f)).
    simpl length. rewrite Nat2Z.inj_succ. lia.
Qed.

Lemma average_score_bounds (l : list UserFeedback.t) (lo hi : Z) :
  l <> [] ->
  Forall (fun f => lo <= UserFeedback.matchScore f <= hi) l ->
  lo <= Math_round (average_score l) <= hi.
Proof.
  intros Ne F. unfold average_score.
  destruct l as [|f l']; [congruence|]. set (l := f :: l') in *.
  replace (0 <? length l)%nat with true by reflexivity.
  pose proof (sum_scores_bounds l lo hi 0 F) as [Lo Hi].
  fold (sum_scores l) in Lo, Hi.
  assert (P : (0 < inject_Z (Z.of_nat (length l)))%Q).
  { change 0%Q with (inject_Z 0). rewrite <- Zlt_Qlt. simpl length. lia. }
  split.
  - rewrite <- (Math_round_integer lo). apply Math_round_monotone.
    apply Qle_shift_div_l; [exact P|].
    rewrite <- inject_Z_mult, <- Zle_Qle. lia.
  - rewrite <- (Math_round_integer hi). apply Math_round_monotone.
    apply Qle_shift_div_r; [exact P|].
    rewrite <- inject_Z_mult, <- Zle_Qle. lia.
Qed.

Lemma getFeedbackStats_spec (inboxId : string) (w : World) :
  getFeedbackStats inboxId w
  = (Resolved
       (let feedback := ledger_read w inboxId in
        FeedbackStats.mk
          (Z.of_nat (length feedback))
          (count_action saved feedback)
          (count_action hidden feedback)
          (count_action viewed feedback)
          (Math_round (average_score (List.filter (has_action saved) feedback)))
          (Math_round (average_score (List.filter (has_action hidden) feedback)))),
     w).
Proof.
  unfold getFeedbackStats, try_catch. unfold mbind at 1, IO_bind.
  rewrite getFeedbackForInbox_spec. reflexivity.
Qed.

Lemma average_within_extremes (a : Action) (ledger : list UserFeedback.t) (lo hi : Z) :
  lowest_of (scores_of a ledger) lo ->
  highest_of (scores_of a ledger) hi ->
  lo <= Math_round (average_score (List.filter (has_action a) ledger)) <= hi.
Proof.
  intros [Il Lo] [_ Hi]. unfold scores_of in *.
  apply average_score_bounds.
  - intros E. rewrite E in Il. destruct Il.
  - rewrite List.Forall_forall in Lo, Hi. apply List.Forall_forall. intros f I.
    split; [apply Lo | apply Hi]; now apply in_map.
Qed.

(** X12. The statistics shown for an inbox agree with the policy a
    recompute derives in the same world: the same total and the same numbers
    of saves, hides and views.  The average saved score is 0 when nothing was
    saved and otherwise lies between the lowest and the highest saved score;
    likewise for hides. *)
Theorem getFeedbackStats_agrees_with_analyzer
    (w : World) (inboxId : string) (t1 t2 : Timestamp) :
  let ledger := ledger_read w inboxId in
  let policy := metricsOfFeedback inboxId ledger t1 t2 in
  exists stats,
    outcome (getFeedbackStats inboxId) w = Resolved stats
    /\ FeedbackStats.total stats = InboxLearningMetrics.totalFeedback policy
    /\ FeedbackStats.saved stats = InboxLearningMetrics.savedContracts policy
    /\ FeedbackStats.hidden stats = InboxLearningMetrics.hiddenContracts policy
    /\ FeedbackStats.viewed stats = InboxLearningMetrics.viewedContracts policy
    /\ (scores_of saved ledger = [] -> FeedbackStats.avgSavedScore stats = 0)
    /\ (scores_of hidden ledger = [] -> FeedbackStats.avgHiddenScore stats = 0)
    /\ (forall lo hi, lowest_of (scores_of saved ledger) lo ->
                      highest_of (scores_of saved ledger) hi ->
                      lo <= FeedbackStats.avgSavedScore stats <= hi)
    /\ (forall lo hi, lowest_of (scores_of hidden ledger) lo ->
                      highest_of (scores_of hidden ledger) hi ->
                      lo <= FeedbackStats.avgHiddenScore stats <= hi).
Proof.
  cbv zeta. unfold outcome. rewrite getFeedbackStats_spec. cbn [fst].
  eexists. split; [reflexivity|]. cbv zeta.
  cbn [FeedbackStats.total FeedbackStats.saved FeedbackStats.hidden FeedbackStats.viewed
       FeedbackStats.avgSavedScore FeedbackStats.avgHiddenScore].
  rewrite totalFeedback_value.
  rewrite (action_count_value saved), (action_count_value hidden), (action_count_value viewed).
  assert (Z0 : forall a, scores_of a (ledger_read w inboxId) = [] ->
                 Math_round (average_score (List.filter (has_action a) (ledger_read w inboxId))) = 0).
  { intros a E. unfold scores_of in E. apply map_eq_nil in E. rewrite E. reflexivity. }
  do 4 (split; [reflexivity|]).
  split; [apply Z0|]. split; [apply Z0|].
  split; intros lo hi Lo Hi; now apply average_within_extremes.
Qed.

Lemma getFeedbackStats_agrees_with_analyzer_witness :
  lowest_of (scores_of saved (ledger_read world_two_ledgers "inbox-1")) 80
  /\ highest_of (scores_of saved (ledger_read world_two_ledgers "inbox-1")) 85
  /\ exists stats,
    outcome (getFeedbackStats "inbox-1") world_two_ledgers = Resolved stats
    /\ 80 <= FeedbackStats.avgSavedScore stats <= 85.
Proof.
  assert (Lo : lowest_of (scores_of saved (ledger_read world_two_ledgers "inbox-1")) 80).
  { split; [vm_compute; tauto | vm_compute; repeat constructor; discriminate]. }
  assert (Hi : highest_of (scores_of saved (ledger_read world_two_ledgers "inbox-1")) 85).
  { split; [vm_compute; tauto | vm_compute; repeat constructor; discriminate]. }
  split; [exact Lo|]. split; [exact Hi|].
  destruct (getFeedbackStats_agrees_with_analyzer world_two_ledgers "inbox-1" 0%N 0%N)
    as (stats & O & _ & _ & _ & _ & _ & _ & S & _).
  exists stats. split; [exact O | exact (S 80 85 Lo Hi)].
Defined.

Example stats_of_scenario_D :
  outcome (getFeedbackStats "inbox-1") world_two_ledgers
  = Resolved (FeedbackStats.mk 12 3 9 0 82 55).
Proof. vm_compute. reflexivity. Qed.

(** ** Recomputing, continued: what a recompute leaves alone *)

Lemma assign_inbox_id (i : Inbox.t) (updates : list InboxUpdate) :
  Inbox.id (fold_left assign_inbox updates i) = Inbox.id i.
Proof.
  revert i. induction updates as [|u updates IH]; intros i; [reflexivity|].
  simpl. rewrite IH. now destruct u.
Qed.

Lemma updateInboxLearning_spec (inboxId : string) (w : World) :
  updateInboxLearning inboxId w
  = let metrics :=
      metricsOfFeedback inboxId (ledger_read w inboxId)
                        (clock w (ticks w)) (clock w (S (ticks w))) in
    let w1 := with_ticks (S (S (ticks w))) w in
    (Resolved metrics,
     if inboxDB_fails w then w1
     else match inboxesStore w !! inboxId with
          | None => w1
          | Some inbox =>
            let updated :=
              with_updatedAt (clock w (S (S (ticks w))))
                             (assign_inbox inbox (Set_learningMetrics (Some metrics))) in
            with_inboxes (<[Inbox.id updated := updated]> (inboxesStore w))
                         (with_ticks (S (S (S (ticks w)))) w)
          end).
Proof.
  unfold updateInboxLearning, try_catch.
  unfold mbind at 1, IO_bind. rewrite analyzeFeedbackPatterns_spec.
  unfold mbind, IO_bind. rewrite updateInbox_spec. simpl.
  destruct (inboxDB_fails w); [reflexivity|].
  destruct (inboxesStore w !! inboxId); reflexivity.
Qed.

(** X13. A recompute writes one thing only.  [updateInboxLearning] leaves
    the contracts and the ledger as they are; every inbox of the store is
    still there, and keeps every field except, for the recomputed inbox,
    [learningMetrics] and [updatedAt]; if the database is available the
    recomputed inbox holds the policy the analyzer returned; if the inbox does
    not exist, nothing is stored at all. *)
Theorem updateInboxLearning_writes_one_policy
    (w : World) (inboxId k : string) (i : Inbox.t) :
  inboxes_keyed_by_id w ->
  inboxesStore w !! k = Some i ->
  let w' := run (updateInboxLearning inboxId) w in
  contractsStore w' = contractsStore w
  /\ feedbackStore w' = feedbackStore w
  /\ (inboxesStore w !! inboxId = None -> inboxesStore w' = inboxesStore w)
  /\ exists i',
      inboxesStore w' !! k = Some i'
      /\ same_but_policy i i'
      /\ (k <> inboxId -> i' = i)
      /\ (k = inboxId -> inboxDB_fails w = false ->
          Resolved <$> Inbox.learningMetrics i'
          = Some (outcome (updateInboxLearning inboxId) w)).
Proof.
  intros K L. cbv zeta. unfold run, outcome.
  rewrite updateInboxLearning_spec. cbv zeta. cbn [fst snd].
  assert (Same : same_but_policy i i) by now destruct i.
  destruct (inboxDB_fails w) eqn:F.
  { simpl. repeat split. exists i. repeat split; auto. discriminate. }
  destruct (inboxesStore w !! inboxId) as [inbox|] eqn:Li.
  2:{ simpl. repeat split. exists i. repeat split; auto. intros ->. congruence. }
  set (updated := with_updatedAt _ (assign_inbox inbox _)).
  assert (Hid : Inbox.id updated = inboxId) by (rewrite <- (K _ _ Li); now destruct inbox).
  rewrite Hid. cbn [contractsStore feedbackStore inboxesStore with_inboxes with_ticks].
  split; [reflexivity|]. split; [reflexivity|]. split; [discriminate|].
  destruct (decide (k = inboxId)) as [->|Nk].
  - rewrite lookup_insert_eq. assert (inbox = i) as -> by congruence.
    exists updated. split; [reflexivity|].
    split; [unfold same_but_policy, updated; destruct i; reflexivity|].
    split; [congruence|].
    intros _ _. reflexivity.
  - rewrite lookup_insert_ne by congruence.
    exists i. repeat split; auto. congruence.
Qed.

Lemma updateInboxLearning_writes_one_policy_witness :
  inboxes_keyed_by_id world0
  /\ inboxesStore world0 !! "inbox-0" = Some all_contracts_inbox
  /\ "inbox-0" <> "inbox-1"
  /\ inboxesStore (run (updateInboxLearning "inbox-1") world0) !! "inbox-0"
     = Some all_contracts_inbox.
Proof.
  assert (K : inboxes_keyed_by_id world0).
  { intros k i. unfold world0. simpl.
    destruct (decide (k = "inbox-0")) as [->|N0].
    - rewrite lookup_insert_eq. intros [= <-]. reflexivity.
    - rewrite lookup_insert_ne by congruence.
      destruct (decide (k = "inbox-1")) as [->|N1].
      + rewrite lookup_singleton_eq. intros [= <-]. reflexivity.
      + rewrite lookup_singleton_ne by congruence. discriminate. }
  assert (L : inboxesStore world0 !! "inbox-0" = Some all_contracts_inbox)
    by (vm_compute; reflexivity).
  assert (N : "inbox-0" <> "inbox-1") by discriminate.
  split; [exact K|]. split; [exact L|]. split; [exact N|].
  destruct (updateInboxLearning_writes_one_policy world0 "inbox-1" "inbox-0"
              all_contracts_inbox K L) as (_ & _ & _ & i' & Li & _ & E & _).
  rewrite Li. f_equal. exact (E N).
Defined.

(** ** What an operation leaves alone *)

Lemma preserves_ret {A S} (f : World -> S) (a : A) : preserves f (mret a).
Proof. intros w. reflexivity. Qed.

Lemma preserves_throw {A S} (f : World -> S) (e : string) : preserves f (@throw A e).
Proof. intros w. reflexivity. Qed.

Lemma preserves_bind {A B S} (f : World -> S) (m : IO A) (k : A -> IO B) :
  preserves f m -> (forall a, preserves f (k a)) -> preserves f (m ≫= k).
Proof.
  intros Hm Hk w. unfold run, mbind, IO_bind.
  specialize (Hm w). unfold run in Hm.
  destruct (m w) as [[a|e] w1]; simpl in *; [|exact Hm].
  rewrite <- Hm. apply Hk.
Qed.

Lemma preserves_try_catch {A S} (f : World -> S) (m : IO A) (h : string -> IO A) :
  preserves f m -> (forall e, preserves f (h e)) -> preserves f (try_catch m h).
Proof.
  intros Hm Hh w. unfold run, try_catch.
  specialize (Hm w). unfold run in Hm.
  destruct (m w) as [[a|e] w1]; simpl in *; [exact Hm|].
  rewrite <- Hm. apply Hh.
Qed.

Lemma preserves_get_world {S} (f : World -> S) : preserves f get_world.
Proof. intros w. reflexivity. Qed.

Lemma preserves_modify {S} (f : World -> S) (g : World -> World) :
  (forall w, f (g w) = f w) -> preserves f (modify_world g).
Proof. intros H w. apply H. Qed.

Lemma preserves_Date_now {S} (f : World -> S) :
  (forall n w, f (with_ticks n w) = f w) -> preserves f Date_now.
Proof. intros H w. apply H. Qed.

Lemma preserves_random {S} (f : World -> S) :
  (forall n w, f (with_draws n w) = f w) -> preserves f Math_random_suffix.
Proof. intros H w. apply H. Qed.

Lemma preserves_init_feedback {S} (f : World -> S) : preserves f initFeedbackDB.
Proof. intros w. unfold run, initFeedbackDB. io_unfold. now destruct (feedbackDB_fails w). Qed.

Lemma preserves_init_inbox {S} (f : World -> S) : preserves f initInboxDB.
Proof. intros w. unfold run, initInboxDB. io_unfold. now destruct (inboxDB_fails w). Qed.

Lemma preserves_init_contract {S} (f : World -> S) : preserves f initContractDB.
Proof. intros w. unfold run, initContractDB. io_unfold. now destruct (contractDB_fails w). Qed.

(** Splits a goal [preserves f m] along the structure of [m]. *)
Ltac frame :=
  repeat first
    [ apply preserves_ret | apply preserves_throw | apply preserves_get_world
    | apply preserves_init_feedback | apply preserves_init_inbox
    | apply preserves_init_contract
    | apply preserves_Date_now; reflexivity
    | apply preserves_random; reflexivity
    | apply preserves_modify; reflexivity
    | apply preserves_bind | apply preserves_try_catch
    | intros ? ].

Lemma recordFeedback_keeps_contracts inboxId contractId a s r d :
  preserves contractsStore (recordFeedback inboxId contractId a s r d).
Proof. unfold recordFeedback. frame. Qed.

Lemma updateInbox_keeps_contracts id updates :
  preserves contractsStore (updateInbox id updates).
Proof.
  intros w. unfold run. rewrite updateInbox_spec.
  destruct (inboxDB_fails w); [reflexivity|].
  destruct (inboxesStore w !! id); reflexivity.
Qed.

Lemma updateInbox_keeps_feedback id updates :
  preserves feedbackStore (updateInbox id updates).
Proof.
  intros w. unfold run. rewrite updateInbox_spec.
  destruct (inboxDB_fails w); [reflexivity|].
  destruct (inboxesStore w !! id); reflexivity.
Qed.

Lemma updateInboxLearning_keeps_contracts inboxId :
  preserves contractsStore (updateInboxLearning inboxId).
Proof.
  intros w. unfold run. rewrite updateInboxLearning_spec. cbv zeta. cbn [snd].
  destruct (inboxDB_fails w); [reflexivity|].
  destruct (inboxesStore w !! inboxId); reflexivity.
Qed.

(** The contracts after [m] followed by a tail that leaves them alone. *)
Lemma contracts_after {A B} (m : IO A) (t : A -> IO B) (h : string -> IO B) (w : World) :
  (forall a, preserves contractsStore (t a)) ->
  (forall e, preserves contractsStore (h e)) ->
  contractsStore (run (try_catch (m ≫= t) h) w) = contractsStore (run m w).
Proof.
  intros Ht Hh. unfold run, try_catch, mbind, IO_bind.
  destruct (m w) as [[a|e] w1]; simpl.
  - specialize (Ht a w1). unfold run in Ht.
    destruct (t a w1) as [[b|e] w2]; simpl in *; [exact Ht|].
    rewrite <- Ht. apply Hh.
  - apply Hh.
Qed.

(** *** Later states of the contract store *)

Lemma later_state_refl (c : Contract.t) : later_state c c.
Proof. unfold later_state. tauto. Qed.

Lemma later_state_trans (c1 c2 c3 : Contract.t) :
  later_state c1 c2 -> later_state c2 c3 -> later_state c1 c3.
Proof. unfold later_state. intuition congruence. Qed.

Lemma store_evolves_refl (s : gmap string Contract.t) : store_evolves s s.
Proof.
  intros k. destruct (s !! k); constructor. apply later_state_refl.
Qed.

Lemma store_evolves_trans (s1 s2 s3 : gmap string Contract.t) :
  store_evolves s1 s2 -> store_evolves s2 s3 -> store_evolves s1 s3.
Proof.
  intros H12 H23 k. specialize (H12 k). specialize (H23 k).
  destruct H12 as [c1 c2 L12|]; inversion H23; subst; constructor.
  eapply later_state_trans; eassumption.
Qed.

Lemma later_state_assign (c : Contract.t) (updates : list ContractUpdate) :
  Forall keeps_saved updates ->
  later_state c (fold_left assign_contract updates c).
Proof.
  intros F. revert c. induction F as [|u updates Hu F IH]; intros c.
  - apply later_state_refl.
  - cbn [fold_left]. eapply later_state_trans; [|apply IH].
    unfold later_state, keeps_saved in *.
    destruct u as [[]| | | | |]; simpl; tauto.
Qed.

Lemma insert_evolves (s : gmap string Contract.t) (id : string) (c c' : Contract.t) :
  keyed s -> s !! id = Some c -> later_state c c' ->
  store_evolves s (<[Contract.id c' := c']> s) /\ keyed (<[Contract.id c' := c']> s).
Proof.
  intros K L E.
  assert (Hid : Contract.id c' = id) by (rewrite (proj1 E); apply (K _ _ L)).
  rewrite Hid. split.
  - intros k. destruct (decide (k = id)) as [->|N].
    + rewrite lookup_insert_eq, L. now constructor.
    + rewrite lookup_insert_ne by congruence.
      destruct (s !! k); constructor. apply later_state_refl.
  - intros k x. destruct (decide (k = id)) as [->|N].
    + rewrite lookup_insert_eq. intros [= <-]. exact Hid.
    + rewrite lookup_insert_ne by congruence. apply K.
Qed.

Lemma updateContract_evolves id updates w :
  keyed (contractsStore w) -> Forall keeps_saved updates ->
  store_evolves (contractsStore w) (contractsStore (run (updateContract id updates) w))
  /\ keyed (contractsStore (run (updateContract id updates) w)).
Proof.
  intros K F. unfold run. rewrite updateContract_spec.
  destruct (contractDB_fails w); [split; [apply store_evolves_refl | exact K]|].
  destruct (contractsStore w !! id) as [c|] eqn:L;
    [|split; [apply store_evolves_refl | exact K]].
  cbv zeta. cbn [snd contractsStore with_contracts].
  eapply insert_evolves; [exact K | exact L | now apply later_state_assign].
Qed.

Lemma restoreContract_spec id inboxId w :
  run (restoreContract id inboxId) w
  = if contractDB_fails w then w
    else match contractsStore w !! id with
         | None => w
         | Some contract =>
           let hiddenMetadata := delete inboxId (default ∅ (Contract.hiddenMetadata contract)) in
           let updated :=
             fold_left assign_contract
               [Set_hiddenInInboxes
                  (List.filter (fun inbox => negb (String.eqb inbox inboxId))
                               (Contract.hiddenInInboxes contract));
                Set_hiddenMetadata
                  (if (0 <? size hiddenMetadata)%nat then Some hiddenMetadata else None)]
               contract in
           with_contracts (<[Contract.id updated := updated]> (contractsStore w)) w
         end.
Proof.
  unfold run, restoreContract, getContractById, updateContract, initContractDB.
  io_unfold. simpl.
  destruct (contractDB_fails w) eqn:F; [reflexivity|].
  destruct (contractsStore w !! id) as [contract|] eqn:L; simpl; [|reflexivity].
  rewrite F. simpl. rewrite L. reflexivity.
Qed.

Lemma keeps_saved_hidden_updates l m :
  Forall keeps_saved [Set_hiddenInInboxes l; Set_hiddenMetadata m].
Proof. repeat constructor; discriminate. Qed.

Lemma markContractAsHidden_evolves id inboxId reason w :
  keyed (contractsStore w) ->
  store_evolves (contractsStore w) (contractsStore (run (markContractAsHidden id inboxId reason) w))
  /\ keyed (contractsStore (run (markContractAsHidden id inboxId reason) w)).
Proof.
  intros K. rewrite markContractAsHidden_spec.
  destruct (contractDB_fails w); [split; [apply store_evolves_refl | exact K]|].
  destruct (contractsStore w !! id) as [c|] eqn:L;
    [|split; [apply store_evolves_refl | exact K]].
  cbv zeta. cbn [contractsStore with_contracts].
  eapply insert_evolves; [exact K | exact L |].
  apply later_state_assign, keeps_saved_hidden_updates.
Qed.

Lemma restoreContract_evolves id inboxId w :
  keyed (contractsStore w) ->
  store_evolves (contractsStore w) (contractsStore (run (restoreContract id inboxId) w))
  /\ keyed (contractsStore (run (restoreContract id inboxId) w)).
Proof.
  intros K. rewrite restoreContract_spec.
  destruct (contractDB_fails w); [split; [apply store_evolves_refl | exact K]|].
  destruct (contractsStore w !! id) as [c|] eqn:L;
    [|split; [apply store_evolves_refl | exact K]].
  cbv zeta. cbn [contractsStore with_contracts].
  eapply insert_evolves; [exact K | exact L |].
  apply later_state_assign, keeps_saved_hidden_updates.
Qed.

Lemma contracts_after_catch {A} (m : IO A) (h : string -> IO A) (w : World) :
  (forall e, preserves contractsStore (h e)) ->
  contractsStore (run (try_catch m h) w) = contractsStore (run m w).
Proof.
  intros Hh. unfold run, try_catch.
  destruct (m w) as [[a|e] w1]; simpl; [reflexivity | apply Hh].
Qed.

Lemma contracts_after_ret {A} (m : IO A) (w : World) :
  contractsStore (run (m ;; mret tt) w) = contractsStore (run m w).
Proof.
  unfold run, mbind, IO_bind. destruct (m w) as [[a|e] w1]; reflexivity.
Qed.

Lemma perform_evolves (a : ContractAction) (w : World) :
  keyed (contractsStore w) ->
  store_evolves (contractsStore w) (contractsStore (run (perform a) w))
  /\ keyed (contractsStore (run (perform a) w)).
Proof.
  intros K. destruct a as [id context | id reason context | id context | id inboxId];
    cbn [perform].
  - unfold saveContract. rewrite contracts_after.
    + unfold markContractAsSaved. rewrite contracts_after_ret.
      apply updateContract_evolves; [exact K|]. repeat constructor; discriminate.
    + intros _. destruct (learning_context context) as [[i s]|]; [|apply preserves_ret].
      apply preserves_bind; [apply recordFeedback_keeps_contracts|]. intros _.
      apply preserves_bind; [apply updateInboxLearning_keeps_contracts|]. intros _.
      apply preserves_ret.
    + intros e. apply preserves_ret.
  - unfold hideContract.
    destruct (context ≫= Context.inboxId) as [inboxId|];
      [destruct (negb (truthy inboxId))|].
    + rewrite contracts_after_catch by (intros e; apply preserves_ret).
      split; [apply store_evolves_refl | exact K].
    + rewrite contracts_after.
      * now apply markContractAsHidden_evolves.
      * intros _. destruct (context ≫= Context.matchScore); [|apply preserves_ret].
        apply preserves_bind; [apply recordFeedback_keeps_contracts|]. intros _.
        apply preserves_bind; [apply updateInboxLearning_keeps_contracts|]. intros _.
        apply preserves_ret.
      * intros e. apply preserves_ret.
    + rewrite contracts_after_catch by (intros e; apply preserves_ret).
      split; [apply store_evolves_refl | exact K].
  - unfold markAsRead. rewrite contracts_after.
    + unfold markContractAsRead. rewrite contracts_after_ret.
      apply updateContract_evolves; [exact K|]. repeat constructor; discriminate.
    + intros _. destruct (learning_context context) as [[i s]|]; [|apply preserves_ret].
      apply preserves_bind; [apply recordFeedback_keeps_contracts|]. intros _.
      apply preserves_ret.
    + intros e. apply preserves_ret.
  - unfold unhideContract.
    rewrite contracts_after_catch by (intros e; apply preserves_ret).
    now apply restoreContract_evolves.
Qed.

(** X14. Across any sequence of save, hide, read and unhide operations of
    the hook, starting from a store keyed by id: no contract is added to or
    removed from the store, every contract keeps its identity and its
    descriptive fields, and a contract that was saved is still saved: there is
    no operation that clears the saved flag. *)
Theorem contracts_only_evolve (actions : list ContractAction) (w : World) :
  keyed (contractsStore w) ->
  store_evolves (contractsStore w) (contractsStore (perform_all actions w))
  /\ keyed (contractsStore (perform_all actions w)).
Proof.
  revert w. induction actions as [|a actions IH]; intros w K.
  - split; [apply store_evolves_refl | exact K].
  - cbn [perform_all fold_left].
    destruct (perform_evolves a w K) as [E K'].
    destruct (IH _ K') as [E' K''].
    split; [|exact K''].
    eapply store_evolves_trans; [exact E | exact E'].
Qed.

Lemma keyed_world0 : keyed (contractsStore world0).
Proof.
  intros k c. unfold world0. simpl.
  destruct (decide (k = "contract-1")) as [->|Nk].
  - rewrite lookup_singleton_eq. intros [= <-]. reflexivity.
  - rewrite lookup_singleton_ne by congruence. discriminate.
Qed.

Lemma contracts_only_evolve_witness :
  keyed (contractsStore world0)
  /\ store_evolves
       (contractsStore world0)
       (contractsStore
          (perform_all
             [DoSave "contract-1" (Some (Context.mk (Some "inbox-1") (Some 80)));
              DoHide "contract-1" (Some "Too small") (Some (Context.mk (Some "inbox-1") (Some 80)));
              DoSave "contract-1" None;
              DoUnhide "contract-1" "inbox-1"]
             world0)).
Proof.
  split; [exact keyed_world0|].
  exact (proj1 (contracts_only_evolve _ world0 keyed_world0)).
Defined.

Example saving_twice_keeps_saved :
  (Contract.isSaved
     <$> contractsStore
           (perform_all [DoSave "contract-1" None; DoSave "contract-1" None] world0)
         !! "contract-1")
  = Some true.
Proof. vm_compute. reflexivity. Qed.

(** ** Restoring a hidden contract *)

Lemma includes_filter_self (l : list string) (x : string) :
  includes (List.filter (fun y => negb (String.eqb y x)) l) x = false.
Proof.
  unfold includes. induction l as [|y l IH]; simpl; [reflexivity|].
  destruct (String.eqb_spec y x) as [E|N]; simpl; [exact IH|].
  rewrite IH. destruct (String.eqb_spec x y); [congruence | reflexivity].
Qed.

Lemma includes_filter_other (l : list string) (x z : string) :
  x <> z ->
  includes (List.filter (fun y => negb (String.eqb y x)) l) z = includes l z.
Proof.
  intros N. unfold includes. induction l as [|y l IH]; simpl; [reflexivity|].
  destruct (String.eqb_spec y x) as [E|Ny]; simpl.
  - rewrite IH. destruct (String.eqb_spec z y); [congruence | reflexivity].
  - now rewrite IH.
Qed.

Lemma filter_out_appended (l : list string) (x : string) :
  includes l x = false ->
  List.filter (fun y => negb (String.eqb y x)) (l ++ [x]) = l.
Proof.
  unfold includes. induction l as [|y l IH]; simpl.
  - now rewrite String.eqb_refl.
  - intros H. apply orb_false_iff in H as [Hy Hl].
    rewrite String.eqb_sym in Hy. rewrite Hy. simpl. now rewrite IH.
Qed.

Lemma metadata_after_delete (m : gmap string HiddenMeta.t) (x z : string) :
  (if (0 <? size (delete x m))%nat then Some (delete x m) else None) ≫= (fun m' => m' !! z)
  = delete x m !! z.
Proof.
  destruct (Nat.ltb_spec 0 (size (delete x m))) as [P|Zr]; [reflexivity|].
  assert (E : delete x m = ∅) by (apply map_size_empty_iff; lia).
  rewrite E. simpl. now rewrite lookup_empty.
Qed.

(** X15. Restoring a contract in inbox [X], with the database available:
    the contract is no longer hidden in [X] (every occurrence of [X] is
    removed) and holds no metadata for [X]; for every other inbox [Y] it is
    hidden exactly if it was and holds the same metadata; its other fields,
    and every other contract, are unchanged. *)
Theorem restoreContract_is_per_inbox
    (w : World) (id X Y k : string) (c : Contract.t) :
  keyed_by_id w ->
  X <> Y ->
  contractsStore w !! k = Some c ->
  exists c',
    contractsStore (run (restoreContract id X) w) !! k = Some c'
    /\ includes (Contract.hiddenInInboxes c') Y = includes (Contract.hiddenInInboxes c) Y
    /\ metadata_for c' Y = metadata_for c Y
    /\ same_but_hidden_state c c'
    /\ (k <> id -> c' = c)
    /\ (k = id -> contractDB_fails w = false ->
        includes (Contract.hiddenInInboxes c') X = false
        /\ metadata_for c' X = None).
Proof.
  intros K N L.
  assert (Same : exists c',
             contractsStore w !! k = Some c' /\
             includes (Contract.hiddenInInboxes c') Y = includes (Contract.hiddenInInboxes c) Y /\
             metadata_for c' Y = metadata_for c Y /\
             same_but_hidden_state c c' /\ c' = c).
  { exists c. repeat split; try assumption. apply same_but_hidden_state_refl. }
  rewrite restoreContract_spec.
  destruct (contractDB_fails w) eqn:F.
  { destruct Same as (c' & ? & ? & ? & ? & ?). exists c'.
    split; [assumption|]. split; [assumption|]. split; [assumption|].
    split; [assumption|]. split; [auto | discriminate]. }
  destruct (contractsStore w !! id) as [contract|] eqn:Lid.
  2:{ destruct Same as (c' & ? & ? & ? & ? & ?). exists c'.
      split; [assumption|]. split; [assumption|]. split; [assumption|].
      split; [assumption|]. split; [auto|]. intros ->. congruence. }
  cbv zeta.
  set (updated := fold_left assign_contract _ contract).
  assert (Hid : Contract.id updated = id).
  { unfold updated. rewrite assign_contract_id. apply (K _ _ Lid). }
  rewrite Hid. cbn [contractsStore with_contracts].
  destruct (decide (k = id)) as [->|Nk].
  - rewrite lookup_insert_eq. assert (contract = c) as -> by congruence.
    exists updated. split; [reflexivity|].
    subst updated. simpl. unfold metadata_for. simpl.
    split; [|split; [|split; [|split]]].
    + now apply includes_filter_other.
    + rewrite metadata_after_delete. rewrite lookup_delete_ne by assumption.
      destruct (Contract.hiddenMetadata c); [reflexivity | apply lookup_empty].
    + reflexivity.
    + congruence.
    + intros _ _. split; [apply includes_filter_self|].
      rewrite metadata_after_delete. apply lookup_delete_eq.
  - rewrite lookup_insert_ne by congruence.
    destruct Same as (c' & ? & ? & ? & ? & ?). exists c'.
    repeat split; try assumption; congruence.
Qed.

Lemma restoreContract_is_per_inbox_witness :
  keyed_by_id world_hidden_elsewhere
  /\ "inbox-7" <> "inbox-1"
  /\ contractsStore world_hidden_elsewhere !! "contract-1" = Some hidden_elsewhere
  /\ exists c',
    contractsStore (run (restoreContract "contract-1" "inbox-7") world_hidden_elsewhere)
      !! "contract-1" = Some c'
    /\ includes (Contract.hiddenInInboxes c') "inbox-7" = false
    /\ metadata_for c' "inbox-7" = None.
Proof.
  assert (K : keyed_by_id world_hidden_elsewhere).
  { intros k c. unfold world_hidden_elsewhere. simpl.
    destruct (decide (k = "contract-1")) as [->|Nk].
    - rewrite lookup_singleton_eq. intros [= <-]. reflexivity.
    - rewrite lookup_singleton_ne by congruence. discriminate. }
  assert (N : "inbox-7" <> "inbox-1") by discriminate.
  assert (L : contractsStore world_hidden_elsewhere !! "contract-1" = Some hidden_elsewhere)
    by (vm_compute; reflexivity).
  split; [exact K|]. split; [exact N|]. split; [exact L|].
  destruct (restoreContract_is_per_inbox world_hidden_elsewhere "contract-1" "inbox-7"
              "inbox-1" "contract-1" hidden_elsewhere K N L)
    as (c' & Lc & _ & _ & _ & _ & E).
  exists c'. split; [exact Lc|]. exact (E eq_refl eq_refl).
Defined.

(** X16. Hiding a contract in an inbox where it was not hidden and then
    restoring it there gives back the list of inboxes it is hidden in, and the
    metadata it holds for every other inbox; for the inbox itself no metadata
    is left. *)
Theorem restore_undoes_hide
    (w : World) (id X : string) (reason : option string) (c : Contract.t) :
  keyed_by_id w ->
  contractDB_fails w = false ->
  contractsStore w !! id = Some c ->
  includes (Contract.hiddenInInboxes c) X = false ->
  let hidden_in_X := run (markContractAsHidden id X reason) w in
  let restored := run (restoreContract id X) hidden_in_X in
  exists c1 c2,
    contractsStore hidden_in_X !! id = Some c1
    /\ includes (Contract.hiddenInInboxes c1) X = true
    /\ contractsStore restored !! id = Some c2
    /\ Contract.hiddenInInboxes c2 = Contract.hiddenInInboxes c
    /\ metadata_for c2 X = None
    /\ (forall Y, Y <> X -> metadata_for c2 Y = metadata_for c Y)
    /\ same_but_hidden_state c c2
    /\ (forall k, k <> id -> contractsStore restored !! k = contractsStore w !! k).
Proof.
  intros K F L NotHidden. cbv zeta.
  assert (Hc : Contract.id c = id) by apply (K _ _ L).
  rewrite restoreContract_spec, markContractAsHidden_spec. rewrite F, L. cbv zeta.
  rewrite NotHidden. cbn [negb].
  set (c1 := fold_left assign_contract _ c).
  assert (H1 : Contract.id c1 = id) by (unfold c1; now rewrite assign_contract_id).
  rewrite H1. cbn [contractDB_fails contractsStore with_contracts with_ticks].
  rewrite F, lookup_insert_eq.
  set (c2 := fold_left assign_contract _ c1).
  assert (H2 : Contract.id c2 = id) by (unfold c2; now rewrite assign_contract_id).
  rewrite H2. cbn [contractsStore with_contracts].
  exists c1, c2. rewrite !lookup_insert_eq.
  split; [reflexivity|].
  split; [unfold c1; simpl; apply includes_app_self|].
  split; [reflexivity|].
  split; [unfold c2, c1; simpl; now apply filter_out_appended|].
  split.
  { unfold metadata_for, c2, c1. simpl.
    rewrite metadata_after_delete. apply lookup_delete_eq. }
  split.
  { intros Y NY. unfold metadata_for, c2, c1. simpl.
    rewrite metadata_after_delete, lookup_delete_ne, lookup_insert_ne by congruence.
    destruct (Contract.hiddenMetadata c); [reflexivity | apply lookup_empty]. }
  split.
  { unfold same_but_hidden_state, c2, c1. destruct c. reflexivity. }
  intros k Nk. now rewrite !lookup_insert_ne by congruence.
Qed.

Lemma restore_undoes_hide_witness :
  keyed_by_id world_hidden_elsewhere
  /\ contractDB_fails world_hidden_elsewhere = false
  /\ contractsStore world_hidden_elsewhere !! "contract-1" = Some hidden_elsewhere
  /\ includes (Contract.hiddenInInboxes hidden_elsewhere) "inbox-1" = false
  /\ exists c2,
    contractsStore
      (run (restoreContract "contract-1" "inbox-1")
           (run (markContractAsHidden "contract-1" "inbox-1" None) world_hidden_elsewhere))
      !! "contract-1" = Some c2
    /\ Contract.hiddenInInboxes c2 = Contract.hiddenInInboxes hidden_elsewhere.
Proof.
  assert (K : keyed_by_id world_hidden_elsewhere).
  { intros k c. unfold world_hidden_elsewhere. simpl.
    destruct (decide (k = "contract-1")) as [->|Nk].
    - rewrite lookup_singleton_eq. intros [= <-]. reflexivity.
    - rewrite lookup_singleton_ne by congruence. discriminate. }
  assert (L : contractsStore world_hidden_elsewhere !! "contract-1" = Some hidden_elsewhere)
    by (vm_compute; reflexivity).
  assert (I : includes (Contract.hiddenInInboxes hidden_elsewhere) "inbox-1" = false)
    by (vm_compute; reflexivity).
  split; [exact K|]. split; [reflexivity|]. split; [exact L|]. split; [exact I|].
  destruct (restore_undoes_hide world_hidden_elsewhere "contract-1" "inbox-1" None
              hidden_elsewhere K eq_refl L I)
    as (c1 & c2 & _ & _ & L2 & H & _).
  exists c2. split; [exact L2 | exact H].
Defined.

(** ** The inbox store *)

Lemma createInbox_spec name prompt special w :
  createInbox name prompt special w
  = if inboxDB_fails w
    then (Rejected "inbox-storage",
          with_ticks (S (S (S (ticks w)))) (with_draws (S (draws w)) w))
    else (Resolved (created w name prompt special),
          with_inboxes
            (<[Inbox.id (created w name prompt special) := created w name prompt special]>
               (inboxesStore w))
            (with_ticks (S (S (S (ticks w)))) (with_draws (S (draws w)) w))).
Proof.
  unfold createInbox, initInboxDB, created. io_unfold. simpl.
  destruct (inboxDB_fails w); reflexivity.
Qed.

Lemma getInboxById_spec id w :
  getInboxById id w
  = (Resolved (if inboxDB_fails w then None else inboxesStore w !! id), w).
Proof.
  unfold getInboxById, initInboxDB. io_unfold.
  destruct (inboxDB_fails w); reflexivity.
Qed.

(** X17. Creating an inbox, with the database available, and reading it
    back: [createInbox] resolves with an inbox that [getInboxById] then
    returns under its id; the inbox has no policy and no unread contracts, so
    the first search asks for a minimum score of 30 and the learning pipeline
    returns the results as they are; every other key of the store holds what
    it held. *)
Theorem createInbox_then_getInboxById
    (w : World) (name prompt : string) (special : bool)
    (results : list SearchResult.t) :
  inboxDB_fails w = false ->
  let inbox := created w name prompt special in
  let w' := run (createInbox name prompt special) w in
  outcome (createInbox name prompt special) w = Resolved inbox
  /\ outcome (getInboxById (Inbox.id inbox)) w' = Resolved (Some inbox)
  /\ Inbox.name inbox = name /\ Inbox.prompt inbox = prompt
  /\ Inbox.unreadCount inbox = 0
  /\ dynamicThreshold (Some inbox) = 30
  /\ applyLearning results (Inbox.learningMetrics inbox) = results
  /\ (forall k, k <> Inbox.id inbox -> inboxesStore w' !! k = inboxesStore w !! k).
Proof.
  intros F. cbv zeta. unfold run, outcome.
  rewrite createInbox_spec, F. cbn [fst snd].
  rewrite getInboxById_spec. cbn [fst inboxDB_fails inboxesStore with_inboxes with_ticks with_draws].
  rewrite F, lookup_insert_eq.
  repeat split. intros k N. now rewrite lookup_insert_ne by congruence.
Qed.

Lemma createInbox_then_getInboxById_witness :
  inboxDB_fails world0 = false
  /\ outcome (getInboxById (Inbox.id (created world0 "Roads" "Road works" false)))
             (run (createInbox "Roads" "Road works" false) world0)
     = Resolved (Some (created world0 "Roads" "Road works" false)).
Proof.
  split; [reflexivity|].
  exact (proj1 (proj2 (createInbox_then_getInboxById world0 "Roads" "Road works" false []
                         eq_refl))).
Defined.

Lemma hasInboxes_spec w :
  hasInboxes w
  = (Resolved (if inboxDB_fails w then false else (0 <? size (inboxesStore w))%nat), w).
Proof.
  unfold hasInboxes, initInboxDB. io_unfold.
  destruct (inboxDB_fails w); reflexivity.
Qed.

Lemma getAllInboxes_keeps_world w : run getAllInboxes w = w.
Proof.
  unfold run, getAllInboxes, initInboxDB. io_unfold.
  destruct (inboxDB_fails w); reflexivity.
Qed.

(** The inbox store after [ensureDefaultInbox]: the default inbox is created
    on an empty store that can be opened, and not otherwise. *)
Lemma ensureDefaultInbox_store w :
  inboxesStore (run ensureDefaultInbox w)
  = if inboxDB_fails w then inboxesStore w
    else if (0 <? size (inboxesStore w))%nat then inboxesStore w
    else {[ Inbox.id (created w "All Contracts"
                              "Show me all relevant public sector contracts" true)
            := created w "All Contracts"
                       "Show me all relevant public sector contracts" true ]}.
Proof.
  unfold run, ensureDefaultInbox. unfold mbind at 1, IO_bind.
  rewrite hasInboxes_spec.
  destruct (inboxDB_fails w) eqn:F.
  - cbn [negb]. unfold mbind, IO_bind. rewrite createInbox_spec, F. reflexivity.
  - destruct (Nat.ltb_spec 0 (size (inboxesStore w))) as [P|Z0]; cbn [negb].
    + unfold mbind, IO_bind.
      pose proof (getAllInboxes_keeps_world w) as G. unfold run in G.
      destruct (getAllInboxes w) as [[l|e] w1]; simpl in *; now subst.
    + unfold mbind, IO_bind. rewrite createInbox_spec, F. simpl.
      assert (E : inboxesStore w = ∅) by (apply map_size_empty_iff; lia).
      rewrite E. reflexivity.
Qed.

Lemma loadInboxes_store w :
  inboxesStore (run loadInboxes w) = inboxesStore (run ensureDefaultInbox w).
Proof.
  unfold run, loadInboxes, try_catch, mbind at 1, IO_bind.
  destruct (ensureDefaultInbox w) as [[o|e] w1]; simpl; [|reflexivity].
  pose proof (getAllInboxes_keeps_world w1) as G. unfold run in G.
  destruct (getAllInboxes w1) as [[l|e] w2]; simpl in *; now subst.
Qed.

Lemma special_insert_regular (s : gmap string Inbox.t) (i : Inbox.t) :
  at_most_one_special s -> is_all_contracts i = false ->
  at_most_one_special (<[Inbox.id i := i]> s).
Proof.
  intros A R k1 k2 i1 i2.
  destruct (decide (k1 = Inbox.id i)) as [->|N1];
    [rewrite lookup_insert_eq; intros [= <-]; congruence|].
  destruct (decide (k2 = Inbox.id i)) as [->|N2];
    [rewrite lookup_insert_eq; intros _ [= <-]; congruence|].
  rewrite !lookup_insert_ne by congruence. apply A.
Qed.

Lemma keyed_insert (s : gmap string Inbox.t) (i : Inbox.t) :
  inbox_keyed s -> inbox_keyed (<[Inbox.id i := i]> s).
Proof.
  intros K k x. destruct (decide (k = Inbox.id i)) as [->|N].
  - rewrite lookup_insert_eq. now intros [= <-].
  - rewrite lookup_insert_ne by congruence. apply K.
Qed.

Lemma perform_inbox_invariant (a : InboxAction) (w : World) :
  inbox_keyed (inboxesStore w) -> at_most_one_special (inboxesStore w) ->
  inbox_keyed (inboxesStore (perform_inbox a w))
  /\ at_most_one_special (inboxesStore (perform_inbox a w)).
Proof.
  intros K A. destruct a as [|name prompt|id|id updates]; cbn [perform_inbox].
  - rewrite loadInboxes_store, ensureDefaultInbox_store.
    destruct (inboxDB_fails w); [now split|].
    destruct (0 <? size (inboxesStore w))%nat; [now split|].
    split.
    + apply (keyed_insert ∅). intros k i. now rewrite lookup_empty.
    + intros k1 k2 i1 i2 L1 L2 _ _.
      apply lookup_singleton_Some in L1 as [<- _].
      apply lookup_singleton_Some in L2 as [<- _]. reflexivity.
  - unfold run, addInbox, try_catch. rewrite createInbox_spec.
    destruct (inboxDB_fails w); [now split|].
    cbn [snd inboxesStore with_inboxes]. split.
    + now apply keyed_insert.
    + now apply special_insert_regular.
  - unfold run, removeInbox, deleteInbox, initInboxDB. io_unfold.
    destruct (inboxDB_fails w); [now split|].
    cbn [snd inboxesStore with_inboxes]. split.
    + intros k i L. apply lookup_delete_Some in L as [_ L]. now apply K.
    + intros k1 k2 i1 i2 L1 L2.
      apply lookup_delete_Some in L1 as [_ L1].
      apply lookup_delete_Some in L2 as [_ L2]. now apply A.
  - unfold run. rewrite updateInbox_spec.
    destruct (inboxDB_fails w); [now split|].
    destruct (inboxesStore w !! id) as [inbox|] eqn:L; [|now split].
    cbv zeta. cbn [snd inboxesStore with_inboxes].
    set (updated := with_updatedAt _ _).
    assert (Hid : Inbox.id updated = id).
    { unfold updated. simpl. rewrite assign_inbox_id. apply (K _ _ L). }
    assert (Hs : is_all_contracts updated = is_all_contracts inbox).
    { unfold updated, is_all_contracts. simpl. f_equal.
      clear. revert inbox. induction updates as [|u updates IH]; intros inbox;
        [reflexivity|]. simpl. rewrite IH. now destruct u. }
    split; [now apply keyed_insert|].
    rewrite Hid. intros k1 k2 i1 i2 L1 L2 S1 S2.
    destruct (decide (k1 = id)) as [->|N1]; destruct (decide (k2 = id)) as [->|N2];
      try reflexivity.
    + rewrite lookup_insert_eq in L1. rewrite lookup_insert_ne in L2 by congruence.
      injection L1 as <-. rewrite Hs in S1. exact (A _ _ _ _ L L2 S1 S2).
    + rewrite lookup_insert_ne in L1 by congruence. rewrite lookup_insert_eq in L2.
      injection L2 as <-. rewrite Hs in S2. exact (A _ _ _ _ L1 L S1 S2).
    + rewrite lookup_insert_ne in L1, L2 by congruence. exact (A _ _ _ _ L1 L2 S1 S2).
Qed.



Example default_inbox_created_once :
  map (fun i => (Inbox.name i, Inbox.isAllContractsInbox i))
      (in_key_order
         (inboxesStore
            (fold_left (fun w a => perform_inbox a w)
                       [DoLoad; DoAdd "Roads" "Road works"; DoLoad]
                       world_without_inboxes)))
  = [("All Contracts", Some true); ("Roads", Some false)].
Proof. vm_compute. reflexivity. Qed.

(** X19. Removing an inbox removes the inbox and nothing else: with the
    database available the inbox is gone and every other inbox is untouched,
    while the feedback recorded for it stays in the ledger; a later recompute
    for the removed inbox still analyses those events and stores nothing. *)
Theorem removeInbox_keeps_its_feedback (w : World) (id : string) :
  inboxDB_fails w = false ->
  let removed := run (removeInbox id) w in
  let recomputed := run (updateInboxLearning id) removed in
  inboxesStore removed = delete id (inboxesStore w)
  /\ feedbackStore removed = feedbackStore w
  /\ contractsStore removed = contractsStore w
  /\ ledger_read removed id = ledger_read w id
  /\ outcome (updateInboxLearning id) removed
     = Resolved (metricsOfFeedback id (ledger_read w id)
                                   (clock w (ticks w)) (clock w (S (ticks w))))
  /\ inboxesStore recomputed = inboxesStore removed.
Proof.
  intros F. cbv zeta.
  assert (R : run (removeInbox id) w = with_inboxes (delete id (inboxesStore w)) w).
  { unfold run, removeInbox, deleteInbox, initInboxDB. io_unfold. now rewrite F. }
  rewrite R. unfold run, outcome. rewrite updateInboxLearning_spec. cbv zeta.
  cbn [fst snd inboxesStore feedbackStore contractsStore with_inboxes inboxDB_fails
       clock ticks].
  rewrite F, lookup_delete_eq. repeat split.
Qed.

Lemma removeInbox_keeps_its_feedback_witness :
  inboxDB_fails world_two_ledgers = false
  /\ ledger_read (run (removeInbox "inbox-1") world_two_ledgers) "inbox-1"
     = ledger_read world_two_ledgers "inbox-1"
  /\ length (ledger_read world_two_ledgers "inbox-1") = 12%nat.
Proof.
  split; [reflexivity|]. split; [|vm_compute; reflexivity].
  exact (proj1 (proj2 (proj2 (proj2
    (removeInbox_keeps_its_feedback world_two_ledgers "inbox-1" eq_refl))))).
Defined.

(** ** The threshold handlers of the page *)

Lemma threshold_write_spec (inbox : Inbox.t) (newThreshold by_ : Z) (w : World) :
  inboxDB_fails w = false ->
  inbox_keyed (inboxesStore w) ->
  is_Some (inboxesStore w !! Inbox.id inbox) ->
  let m := overrideMetrics inbox newThreshold by_
                           (clock w (ticks w)) (clock w (S (ticks w))) in
  cachedPolicy
    (run (try_catch
            (lastAdjustment ← Date_now;
             lastUpdated ← Date_now;
             updateInbox (Inbox.id inbox)
               [Set_learningMetrics
                  (Some (overrideMetrics inbox newThreshold by_ lastAdjustment lastUpdated))];;
             mret tt)
            (fun _ => mret tt)) w)
    (Inbox.id inbox)
  = Some m.
Proof.
  intros F K [stored L]. cbv zeta.
  unfold run, try_catch. unfold mbind at 1, IO_bind, Date_now.
  unfold mbind at 1, IO_bind. unfold mbind at 1, IO_bind.
  rewrite updateInbox_spec.
  cbn [inboxDB_fails inboxesStore with_ticks ticks clock]. rewrite F, L.
  cbv zeta. unfold mret, IO_ret. cbn [snd fst fold_left].
  unfold cachedPolicy. cbn [inboxesStore with_inboxes].
  assert (Hid : Inbox.id stored = Inbox.id inbox) by apply (K _ _ L).
  replace (Inbox.id (with_updatedAt _ _)) with (Inbox.id inbox)
    by (symmetry; destruct stored; exact Hid).
  rewrite lookup_insert_eq. reflexivity.
Qed.

Lemma dynamicThreshold_refreshed (p : Page) (w : World) (inbox : Inbox.t)
    (m : InboxLearningMetrics.t) :
  activeInbox p = Some inbox ->
  cachedPolicy w (Inbox.id inbox) = Some m ->
  dynamicThreshold (activeInbox (refreshed p w)) = InboxLearningMetrics.dynamicMinScore m.
Proof.
  intros A C. unfold dynamicThreshold, refreshed. cbn [activeInbox]. rewrite A.
  unfold cachedPolicy in C. simpl.
  destruct (inboxesStore w !! Inbox.id inbox) as [i|]; [|discriminate C].
  simpl in C |- *. rewrite C. reflexivity.
Qed.

(** X20. A threshold set by the user is stored as given.  For a regular
    inbox with a prompt that exists in the store, with the database
    available, [handleGlobalThresholdChange] stores exactly the new value in
    [dynamicMinScore], whatever it is (it is not clamped to [30,70]), keeps the
    adjustment counters and every learned field of the page's copy of the
    policy, and the next search of the refreshed page asks for exactly that
    minimum score. *)
Theorem handleGlobalThresholdChange_stores_value
    (w : World) (inbox : Inbox.t) (old : InboxLearningMetrics.t) (newThreshold : Z) :
  inboxDB_fails w = false ->
  inbox_keyed (inboxesStore w) ->
  is_Some (inboxesStore w !! Inbox.id inbox) ->
  is_all_contracts inbox = false ->
  truthy (Inbox.prompt inbox) = true ->
  Inbox.learningMetrics inbox = Some old ->
  let p := page_showing inbox in
  let w' := run (handleGlobalThresholdChange p newThreshold) w in
  exists m,
    cachedPolicy w' (Inbox.id inbox) = Some m
    /\ InboxLearningMetrics.dynamicMinScore m = newThreshold
    /\ learned_fields m = learned_fields old
    /\ ThresholdAdjustments.expandedCount (InboxLearningMetrics.thresholdAdjustments m)
       = ThresholdAdjustments.expandedCount (InboxLearningMetrics.thresholdAdjustments old)
    /\ ThresholdAdjustments.narrowedCount (InboxLearningMetrics.thresholdAdjustments m)
       = ThresholdAdjustments.narrowedCount (InboxLearningMetrics.thresholdAdjustments old)
    /\ dynamicThreshold (activeInbox (refreshed p w')) = newThreshold.
Proof.
  intros F K Ex R T O. cbv zeta.
  assert (W : run (handleGlobalThresholdChange (page_showing inbox) newThreshold) w
              = run (try_catch
                       (lastAdjustment ← Date_now;
                        lastUpdated ← Date_now;
                        updateInbox (Inbox.id inbox)
                          [Set_learningMetrics
                             (Some (overrideMetrics inbox newThreshold 0
                                                    lastAdjustment lastUpdated))];;
                        mret tt)
                       (fun _ => mret tt)) w).
  { unfold handleGlobalThresholdChange, page_showing. cbn [activeInbox].
    now rewrite R, T. }
  rewrite W.
  pose proof (threshold_write_spec inbox newThreshold 0 w F K Ex) as C.
  cbv zeta in C.
  exists (overrideMetrics inbox newThreshold 0 (clock w (ticks w)) (clock w (S (ticks w)))).
  split; [exact C|]. split; [reflexivity|].
  split; [unfold overrideMetrics, learned_fields; rewrite O; reflexivity|].
  split; [unfold overrideMetrics; rewrite O; simpl; lia|].
  split; [unfold overrideMetrics; rewrite O; reflexivity|].
  exact (dynamicThreshold_refreshed (page_showing inbox) _ inbox _ eq_refl C).
Qed.

Lemma inbox_keyed_learned :
  inbox_keyed (inboxesStore world_ledger_down).
Proof.
  intros k i. unfold world_ledger_down. simpl.
  destruct (decide (k = "inbox-1")) as [->|N1].
  - rewrite lookup_singleton_eq. intros [= <-]. reflexivity.
  - rewrite lookup_singleton_ne by congruence. discriminate.
Qed.

Lemma handleGlobalThresholdChange_stores_value_witness :
  inboxDB_fails world_ledger_down = false
  /\ inbox_keyed (inboxesStore world_ledger_down)
  /\ is_Some (inboxesStore world_ledger_down !! Inbox.id learned_inbox)
  /\ is_all_contracts learned_inbox = false
  /\ truthy (Inbox.prompt learned_inbox) = true
  /\ Inbox.learningMetrics learned_inbox = Some learned_policy
  /\ exists m,
    cachedPolicy (run (handleGlobalThresholdChange (page_showing learned_inbox) 85)
                      world_ledger_down) (Inbox.id learned_inbox) = Some m
    /\ InboxLearningMetrics.dynamicMinScore m = 85
    /\ learned_fields m = learned_fields learned_policy.
Proof.
  assert (S : is_Some (inboxesStore world_ledger_down !! Inbox.id learned_inbox))
    by (vm_compute; eauto).
  split; [reflexivity|]. split; [exact inbox_keyed_learned|]. split; [exact S|].
  split; [reflexivity|]. split; [reflexivity|]. split; [reflexivity|].
  destruct (handleGlobalThresholdChange_stores_value world_ledger_down learned_inbox
              learned_policy 85 eq_refl inbox_keyed_learned S eq_refl eq_refl eq_refl)
    as (m & C & D & L & _).
  exists m. split; [exact C|]. split; [exact D | exact L].
Defined.

(** X21. "Widen search" lowers the stored cutoff by 10 but not under 30, and
    counts the step.  For an inbox with a prompt that exists in the store,
    with the database available and a cached cutoff other than 30,
    [handleWidenSearch] stores max(30, cutoff - 10) (so a cutoff under 30 is
    raised to 30), adds 1 to [expandedCount] and keeps the learned fields; at
    a cutoff of exactly 30 it changes nothing in the world. *)
Theorem handleWidenSearch_steps_down
    (w : World) (inbox : Inbox.t) (old : InboxLearningMetrics.t) :
  inboxDB_fails w = false ->
  inbox_keyed (inboxesStore w) ->
  is_Some (inboxesStore w !! Inbox.id inbox) ->
  truthy (Inbox.prompt inbox) = true ->
  Inbox.learningMetrics inbox = Some old ->
  let cutoff := InboxLearningMetrics.dynamicMinScore old in
  let w' := run (handleWidenSearch (page_showing inbox)) w in
  (cutoff = 30 -> w' = w)
  /\ (cutoff <> 30 ->
      exists m,
        cachedPolicy w' (Inbox.id inbox) = Some m
        /\ InboxLearningMetrics.dynamicMinScore m = Z.max 30 (cutoff - 10)
        /\ 30 <= InboxLearningMetrics.dynamicMinScore m
        /\ learned_fields m = learned_fields old
        /\ ThresholdAdjustments.expandedCount (InboxLearningMetrics.thresholdAdjustments m)
           = ThresholdAdjustments.expandedCount (InboxLearningMetrics.thresholdAdjustments old) + 1).
Proof.
  intros F K Ex T O. cbv zeta.
  set (cutoff := InboxLearningMetrics.dynamicMinScore old).
  assert (W : run (handleWidenSearch (page_showing inbox)) w
              = run (try_catch
                       (if Z.max 30 (cutoff - 10) =? cutoff then mret tt
                        else
                          lastAdjustment ← Date_now;
                          lastUpdated ← Date_now;
                          updateInbox (Inbox.id inbox)
                            [Set_learningMetrics
                               (Some (overrideMetrics inbox (Z.max 30 (cutoff - 10)) 1
                                                      lastAdjustment lastUpdated))];;
                          mret tt)
                       (fun _ => mret tt)) w).
  { unfold handleWidenSearch, page_showing. cbn [activeInbox].
    now rewrite T, O. }
  rewrite W. split.
  - intros E. rewrite E. reflexivity.
  - intros N.
    assert (Q : (Z.max 30 (cutoff - 10) =? cutoff) = false) by (apply Z.eqb_neq; lia).
    rewrite Q.
    pose proof (threshold_write_spec inbox (Z.max 30 (cutoff - 10)) 1 w F K Ex) as C.
    cbv zeta in C.
    exists (overrideMetrics inbox (Z.max 30 (cutoff - 10)) 1
                            (clock w (ticks w)) (clock w (S (ticks w)))).
    split; [exact C|]. split; [reflexivity|].
    split; [unfold overrideMetrics; simpl; lia|].
    split; [unfold overrideMetrics, learned_fields; rewrite O; reflexivity|].
    unfold overrideMetrics. rewrite O. reflexivity.
Qed.

Lemma handleWidenSearch_steps_down_witness :
  inboxDB_fails world_ledger_down = false
  /\ inbox_keyed (inboxesStore world_ledger_down)
  /\ is_Some (inboxesStore world_ledger_down !! Inbox.id learned_inbox)
  /\ truthy (Inbox.prompt learned_inbox) = true
  /\ Inbox.learningMetrics learned_inbox = Some learned_policy
  /\ InboxLearningMetrics.dynamicMinScore learned_policy <> 30
  /\ exists m,
    cachedPolicy (run (handleWidenSearch (page_showing learned_inbox)) world_ledger_down)
                 (Inbox.id learned_inbox) = Some m
    /\ InboxLearningMetrics.dynamicMinScore m
       = Z.max 30 (InboxLearningMetrics.dynamicMinScore learned_policy - 10).
Proof.
  assert (S : is_Some (inboxesStore world_ledger_down !! Inbox.id learned_inbox))
    by (vm_compute; eauto).
  assert (N : InboxLearningMetrics.dynamicMinScore learned_policy <> 30)
    by (vm_compute; discriminate).
  split; [reflexivity|]. split; [exact inbox_keyed_learned|]. split; [exact S|].
  split; [reflexivity|]. split; [reflexivity|]. split; [exact N|].
  destruct (proj2 (handleWidenSearch_steps_down world_ledger_down learned_inbox
                     learned_policy eq_refl inbox_keyed_learned S eq_refl eq_refl) N)
    as (m & C & D & _).
  exists m. split; [exact C | exact D].
Defined.

(** ** Hiding without a context *)

(** X22. Hiding needs a context.  When the page has no active inbox, or the
    contract is not among the contracts it shows, [handleHideContract] passes
    no context and [hideContract] returns at once: the contract is not hidden,
    nothing is recorded, and the world is exactly as before. *)
Theorem handleHideContract_without_context
    (w : World) (p : Page) (contractId : string) (feedback : option string) :
  activeInbox p = None \/ find_contract p contractId = None ->
  handleHideContract p contractId feedback w = (Resolved tt, w).
Proof.
  intros H. unfold handleHideContract.
  assert (C : context_of p (find_contract p contractId) = None).
  { unfold context_of. destruct H as [-> | ->]; [reflexivity|].
    now destruct (activeInbox p). }
  rewrite C. reflexivity.
Qed.

Lemma handleHideContract_without_context_witness :
  find_contract regular_page "contract-2" = None
  /\ handleHideContract regular_page "contract-2" (Some "Not relevant") world0
     = (Resolved tt, world0).
Proof.
  assert (N : find_contract regular_page "contract-2" = None) by (vm_compute; reflexivity).
  split; [exact N|].
  exact (handleHideContract_without_context world0 regular_page "contract-2"
           (Some "Not relevant") (or_intror N)).
Defined.

(** ** Saving contracts in bulk, and saving twice *)

Lemma fold_insert_other (contracts : list Contract.t) (s : gmap string Contract.t)
    (k : string) :
  ~ In k (map Contract.id contracts) ->
  fold_left (fun store c => <[Contract.id c := c]> store) contracts s !! k = s !! k.
Proof.
  revert s. induction contracts as [|c contracts IH]; intros s N; [reflexivity|].
  cbn [fold_left]. rewrite IH by (intros I; apply N; now right).
  apply lookup_insert_ne. intros E. apply N. now left.
Qed.

Lemma fold_insert_member (contracts : list Contract.t) (s : gmap string Contract.t)
    (c : Contract.t) :
  List.NoDup (map Contract.id contracts) ->
  In c contracts ->
  fold_left (fun store c => <[Contract.id c := c]> store) contracts s
    !! Contract.id c = Some c.
Proof.
  revert s. induction contracts as [|x contracts IH]; intros s N I; [destruct I|].
  cbn [fold_left]. cbn [map] in N. apply List.NoDup_cons_iff in N as [Nx N].
  destruct I as [->|I].
  - rewrite fold_insert_other by exact Nx. apply lookup_insert_eq.
  - now apply IH.
Qed.

(** X23. Saving a list of contracts with distinct ids and reading them back:
    with the database available [saveContracts] resolves, [getContractById]
    then returns each saved contract under its id exactly as it was given,
    and a contract under any other id is as before; when the database cannot
    be opened, [saveContracts] rejects and stores nothing. *)
Theorem saveContracts_then_getContractById
    (w : World) (contracts : list Contract.t) :
  List.NoDup (map Contract.id contracts) ->
  let w' := run (saveContracts contracts) w in
  (contractDB_fails w = false ->
   outcome (saveContracts contracts) w = Resolved tt
   /\ (forall c, In c contracts ->
                 outcome (getContractById (Contract.id c)) w' = Resolved (Some c))
   /\ (forall k, ~ In k (map Contract.id contracts) ->
                 contractsStore w' !! k = contractsStore w !! k))
  /\ (contractDB_fails w = true ->
      outcome (saveContracts contracts) w = Rejected "contract-storage" /\ w' = w).
Proof.
  intros N. cbv zeta. unfold run, outcome, saveContracts, initContractDB. io_unfold.
  split; intros F; rewrite F; cbn [fst snd].
  - split; [reflexivity|]. split.
    + intros c I. unfold getContractById, initContractDB. io_unfold.
      cbn [contractDB_fails with_contracts]. rewrite F.
      cbn [fst contractsStore with_contracts].
      now rewrite fold_insert_member.
    + intros k Nk. cbn [contractsStore with_contracts]. now apply fold_insert_other.
  - split; reflexivity.
Qed.

Lemma saveContracts_then_getContractById_witness :
  List.NoDup (map Contract.id [contract_1; contract_2])
  /\ contractDB_fails world0 = false
  /\ outcome (getContractById "contract-2") (run (saveContracts [contract_1; contract_2]) world0)
     = Resolved (Some contract_2).
Proof.
  assert (N : List.NoDup (map Contract.id [contract_1; contract_2])).
  { repeat constructor; simpl; intuition discriminate. }
  split; [exact N|]. split; [reflexivity|].
  destruct (proj1 (saveContracts_then_getContractById world0 [contract_1; contract_2] N)
              eq_refl) as (_ & G & _).
  apply (G contract_2). right. now left.
Defined.

(** X24. The save button on a contract that is saved already: the page
    passes no context, so the hook records no feedback and recomputes no
    policy; the ledger and the inboxes are as before, and the contract stays
    saved. *)
Theorem handleSaveContract_on_saved_contract
    (w : World) (p : Page) (contractId : string) (shown : Contract.t) :
  find_contract p contractId = Some shown ->
  Contract.isSaved shown = true ->
  let w' := run (handleSaveContract p contractId) w in
  feedbackStore w' = feedbackStore w
  /\ inboxesStore w' = inboxesStore w
  /\ contractsStore w' = contractsStore (run (markContractAsSaved contractId) w).
Proof.
  intros Fd Sv. cbv zeta. unfold handleSaveContract. rewrite Fd. cbn [fmap option_fmap option_map default].
  rewrite Sv. cbn [negb].
  unfold run, saveContract, markContractAsSaved, try_catch.
  cbn [learning_context]. unfold mbind, IO_bind. rewrite updateContract_spec.
  destruct (contractDB_fails w); [repeat split|].
  destruct (contractsStore w !! contractId); repeat split.
Qed.

Lemma handleSaveContract_on_saved_contract_witness :
  find_contract page_with_saved_result "contract-1"
    = Some (with_matchScore (Some 80) (assign_contract contract_1 (Set_isSaved true)))
  /\ Contract.isSaved (with_matchScore (Some 80) (assign_contract contract_1 (Set_isSaved true)))
     = true
  /\ feedbackStore (run (handleSaveContract page_with_saved_result "contract-1") world0)
     = feedbackStore world0.
Proof.
  split; [vm_compute; reflexivity|]. split; [reflexivity|].
  exact (proj1 (handleSaveContract_on_saved_contract world0 page_with_saved_result
                  "contract-1" _ eq_refl eq_refl)).
Defined.

(** ** The status line *)

(** X25. The status line of a policy the analyzer derived from [n] events:
    no data for no event; a countdown to 5 for 1 to 4 events; at exactly 5
    events, where the confidence is 25, "Learning in progress (25%
    confidence)"; from 6 events on "Active learning" with the number of
    events and the confidence min(100, 5n), followed by the live cutoff when
    it is not 50. *)
Theorem getLearningStatus_by_ledger_size
    (inboxId : string) (ledger : list UserFeedback.t) (t1 t2 : Timestamp) :
  let policy := metricsOfFeedback inboxId ledger t1 t2 in
  let n := Z.of_nat (length ledger) in
  let cutoff := InboxLearningMetrics.dynamicMinScore policy in
  (n = 0 -> getLearningStatus (Some policy)
            = "No learning data yet. Save or hide contracts to improve matching.")
  /\ (1 <= n <= 4 -> getLearningStatus (Some policy)
                     = "Learning... (" +:+ pretty n +:+ "/5 feedback events needed)")
  /\ (n = 5 -> getLearningStatus (Some policy) = "Learning in progress (25% confidence)")
  /\ (6 <= n -> getLearningStatus (Some policy)
                = "Active learning (" +:+ pretty n +:+ " events, "
                  +:+ pretty (Z.min 100 (5 * n)) +:+ "% confidence"
                  +:+ (if bool_decide (cutoff ≠ 50)
                       then " • Threshold: " +:+ pretty cutoff +:+ "%" else "")
                  +:+ ")").
Proof.
  cbv zeta. unfold getLearningStatus. autorewrite with policy_fields.
  set (n := Z.of_nat (length ledger)).
  repeat split; intros H.
  - rewrite H. reflexivity.
  - destruct (Z.eqb_spec n 0); [lia|]. destruct (Z.ltb_spec n 5); [reflexivity | lia].
  - rewrite H. reflexivity.
  - destruct (Z.eqb_spec n 0); [lia|]. destruct (Z.ltb_spec n 5); [lia|].
    destruct (Z.ltb_spec (Z.min 100 (5 * n)) 30); [lia|]. reflexivity.
Qed.

Lemma getLearningStatus_by_ledger_size_witness :
  6 <= Z.of_nat (length scenario_B)
  /\ getLearningStatus (Some (metricsOfFeedback "inbox-1" scenario_B 0%N 0%N))
     = "Active learning (20 events, 100% confidence • Threshold: 40%)".
Proof.
  assert (H : 6 <= Z.of_nat (length scenario_B)) by (vm_compute; discriminate).
  split; [exact H|].
  rewrite (proj2 (proj2 (proj2
    (getLearningStatus_by_ledger_size "inbox-1" scenario_B 0%N 0%N))) H).
  vm_compute. reflexivity.
Defined.
